(** * weather-app-with-tracing: the two handlers and what they answer

    [service-a] (the edge) validates a posted postal code and forwards it to
    [service-b] (the backend), which resolves the code to a locality, fetches the
    temperature there and answers with the three scales.  Both are Go programs;
    this development embeds [postCepHandler] and [getTemperature]
    (service_a.go) and [getWeatherHandler], [getLocation], [getTemperature] and
    [toFixed] (service_b.go) together with the pieces of the Go libraries they
    call, and proves what the handlers answer on each of their paths.

    Layout: [Go] holds the library models (strings, strconv, math,
    encoding/json, net/url, net/http, the OpenTelemetry API and a state monad
    with [defer]); [ServiceB] and [ServiceA] hold the two programs; the
    theorems follow: the claims of the specification first, then further
    properties of the two programs.  The [main] functions with [initTracer]
    and [initConn], which set up the exporter and the servers, are outside the
    development. *)

From Stdlib Require Import ZArith NArith String Ascii List Bool Floats Lia.
From stdpp Require Import gmap strings.
Import ListNotations.

#[local] Set Warnings "-inexact-float,-register-all".
#[local] Open Scope string_scope.

Module Go.

(** ** Values and errors

    A Go function returning [(T, error)] yields either a value or an error; the
    error carries its message.  The messages of library errors are indicative:
    no statement below depends on their wording. *)

Definition error := string.

Inductive result (A : Type) : Type :=
| Ok (a : A)
| Err (e : error).
Arguments Ok {A} a.
Arguments Err {A} e.

(** ** Strings

    A Go string is a sequence of bytes and [len] counts bytes, which is
    [String.length] on Rocq's strings of 8-bit characters. *)

Definition len (s : string) : Z := Z.of_nat (String.length s).

Definition byte_of (c : ascii) : N := N_of_ascii c.

(** [strings.Cut s sep] for a one-byte separator: the text before the first
    [sep], the text after it, and whether [sep] was found. *)
Fixpoint strings_Cut (s : string) (sep : ascii) : string * string * bool :=
  match s with
  | EmptyString => (EmptyString, EmptyString, false)
  | String c rest =>
      if Ascii.eqb c sep then (EmptyString, rest, true)
      else let '(before, after, found) := strings_Cut rest sep in
           (String c before, after, found)
  end.

Fixpoint strings_ContainsByte (s : string) (b : ascii) : bool :=
  match s with
  | EmptyString => false
  | String c rest => Ascii.eqb c b || strings_ContainsByte rest b
  end.

Fixpoint strings_HasPrefix (s prefix : string) {struct prefix} : bool :=
  match prefix, s with
  | EmptyString, _ => true
  | String p prefix', String c s' => Ascii.eqb c p && strings_HasPrefix s' prefix'
  | String _ _, EmptyString => false
  end.

(** [strings.LastIndex]-style split at the last occurrence of [sep]: [None]
    when [sep] does not occur. *)
Fixpoint cut_last (s : string) (sep : ascii) : option (string * string) :=
  match s with
  | EmptyString => None
  | String c rest =>
      match cut_last rest sep with
      | Some (before, after) => Some (String c before, after)
      | None => if Ascii.eqb c sep then Some (EmptyString, rest) else None
      end
  end.

(** *** unicode/utf8

    [utf8.RuneCountInString]: the number of characters (runes) of a string.  A
    byte that does not start a well-formed encoding counts as one rune of its
    own, as in Go. *)

Definition in_range (lo hi : N) (c : ascii) : bool :=
  (lo <=? byte_of c)%N && (byte_of c <=? hi)%N.

(** The table [first] of package utf8 with its [acceptRanges]: the size of the
    encoding a byte starts and the range its second byte must lie in; [None]
    for a byte that starts nothing (the entries [xx]) and for ASCII, which the
    caller handles. *)
Definition utf8_first (c : ascii) : option (nat * N * N) :=
  let b := byte_of c in
  if (b <? 0xC2)%N then None
  else if (b <=? 0xDF)%N then Some (2%nat, 0x80, 0xBF)%N
  else if (b =? 0xE0)%N then Some (3%nat, 0xA0, 0xBF)%N
  else if (b =? 0xED)%N then Some (3%nat, 0x80, 0x9F)%N
  else if (b <=? 0xEF)%N then Some (3%nat, 0x80, 0xBF)%N
  else if (b =? 0xF0)%N then Some (4%nat, 0x90, 0xBF)%N
  else if (b <=? 0xF3)%N then Some (4%nat, 0x80, 0xBF)%N
  else if (b =? 0xF4)%N then Some (4%nat, 0x80, 0x8F)%N
  else None.

(** The number of bytes the rune at the head of [String c rest] takes. *)
Definition utf8_size (c : ascii) (rest : string) : nat :=
  if (byte_of c <? 0x80)%N then 1
  else match utf8_first c with
       | None => 1
       | Some (size, lo, hi) =>
           match size, rest with
           | 2%nat, String c1 _ =>
               if in_range lo hi c1 then 2 else 1
           | 3%nat, String c1 (String c2 _) =>
               if in_range lo hi c1 && in_range 0x80 0xBF c2 then 3 else 1
           | 4%nat, String c1 (String c2 (String c3 _)) =>
               if in_range lo hi c1 && in_range 0x80 0xBF c2 && in_range 0x80 0xBF c3
               then 4 else 1
           | _, _ => 1
           end
       end.

(** [skip] bytes of the current rune are still to be passed over. *)
Fixpoint rune_count_from (skip : nat) (s : string) : nat :=
  match s with
  | EmptyString => 0
  | String c rest =>
      match skip with
      | S k => rune_count_from k rest
      | O => S (rune_count_from (Nat.pred (utf8_size c rest)) rest)
      end
  end.

Definition utf8_RuneCountInString (s : string) : Z :=
  Z.of_nat (rune_count_from 0 s).

(** ** float64

    Go's [float64] is IEEE 754 binary64: Rocq's primitive [float], whose
    operations round to nearest, ties to even, as the hardware does.  Every
    operation rounds on its own: [x * y + z] is a product and a sum, not a
    fused multiply-add. *)

Definition float64 := float.

(** [float64(n)] for an integer [n]: the nearest float. *)
Definition float64_of_Z (n : Z) : float64 :=
  SF2Prim (binary_normalize prec emax n 0 false).

(** [math.Round]: "the nearest integer, rounding half away from zero", with
    [Round(±0) = ±0], [Round(±Inf) = ±Inf] and [Round(NaN) = NaN].  A finite
    [x] is [±m·2^e]; for [e < 0] its magnitude rounds to
    [floor(m/2^-e + 1/2)], which is below [2^53] and therefore a float. *)
Definition math_Round (x : float64) : float64 :=
  match Prim2SF x with
  | S754_finite s m e =>
      if (0 <=? e)%Z then x
      else
        let d := (2 ^ (- e))%Z in
        let q := ((2 * Z.pos m + d) / (2 * d))%Z in
        SF2Prim (binary_normalize prec emax (if s then - q else q) 0 s)
  | _ => x
  end.

(** [math.Pow(10, float64(p))] for a small exponent [p >= 0]: the power itself,
    which a float holds exactly up to [10^22]. *)
Definition math_Pow10 (p : nat) : float64 := float64_of_Z (10 ^ Z.of_nat p).

(** *** strconv.ParseFloat on a JSON number

    A number literal is kept as its sign and exact value, together with the
    way it was written: [Integer] for a literal with neither fraction nor
    exponent ([28], [-3]), [Real neg m e] for [m·10^e] written with a fraction
    or an exponent ([28.5] is [Real false 285 (-1)], [1e3] is
    [Real false 1 3]). *)
Inductive number : Type :=
| Integer (neg : bool) (n : N)
| Real (neg : bool) (m : N) (e : Z).

(** The float nearest to [±m·10^e] (ties to even), as a specification-level
    float: for [e < 0] the correctly rounded quotient [m / 10^-e]. *)
Definition nearest_float (neg : bool) (m : N) (e : Z) : spec_float :=
  match m with
  | N0 => S754_zero neg
  | Npos p =>
      if (0 <=? e)%Z
      then binary_normalize prec emax
             (if neg then - (Z.pos p * 10 ^ e) else Z.pos p * 10 ^ e) 0 neg
      else SFdiv prec emax (S754_finite neg p 0)
                           (S754_finite false (Z.to_pos (10 ^ (- e))) 0)
  end.

(** [strconv.ParseFloat(s, 64)]: the nearest float, and [ErrRange] when that
    is an infinity. *)
Definition strconv_ParseFloat (n : number) : result float64 :=
  let sf := match n with
            | Integer neg m => nearest_float neg m 0
            | Real neg m e => nearest_float neg m e
            end in
  match sf with
  | S754_infinity _ => Err "value out of range"
  | _ => Ok (SF2Prim sf)
  end.

(** ** encoding/json

    The syntax of a JSON text.  An object keeps its members in the order
    written, duplicates included. *)
Inductive json : Type :=
| JNull
| JBool (b : bool)
| JNumber (n : number)
| JString (s : string)
| JArray (elems : list json)
| JObject (members : list (string * json)).

(** The bytes of a message as encoding/json reads them: the encoding of a JSON
    value, or bytes that are no JSON text. *)
Inductive bytes : Type :=
| NotJSON
| JSONText (j : json).

(** An [io.ReadCloser] over such bytes; reading may fail instead. *)
Inductive ReadCloser : Type :=
| FailingReader (e : error)
| Reader (b : bytes).

Definition io_ReadAll (body : ReadCloser) : result bytes :=
  match body with
  | FailingReader e => Err e
  | Reader b => Ok b
  end.

(** A value of type [interface{}], tagged with its dynamic type.  Unmarshal
    builds [nil], [bool], [float64], [string], [[]interface{}] and
    [map[string]interface{}]; [int] is the type the resolver's second type
    assertion asks for. *)
Inductive any : Type :=
| any_nil
| any_bool (b : bool)
| any_float64 (f : float64)
| any_int (n : Z)
| any_string (s : string)
| any_slice (l : list any)
| any_map (m : gmap string any).

(** Unmarshal into an [interface{}]: every number becomes a [float64], and a
    number no [float64] holds is an [UnmarshalTypeError].  [decode] is the
    decoder of one value; the elements of an array are decoded in turn, and the
    members of an object are stored into the map in turn, so that a later
    member replaces an earlier one of the same name. *)
Fixpoint interface_elems (decode : json -> result any) (l : list json)
  : result (list any) :=
  match l with
  | [] => Ok []
  | x :: rest =>
      match decode x with
      | Err e => Err e
      | Ok v => match interface_elems decode rest with
                | Err e => Err e
                | Ok vs => Ok (v :: vs)
                end
      end
  end.

Fixpoint interface_members (decode : json -> result any) (acc : gmap string any)
    (l : list (string * json)) : result (gmap string any) :=
  match l with
  | [] => Ok acc
  | (k, x) :: rest =>
      match decode x with
      | Err e => Err e
      | Ok v => interface_members decode (<[k := v]> acc) rest
      end
  end.

Fixpoint json_interface (j : json) : result any :=
  match j with
  | JNull => Ok any_nil
  | JBool b => Ok (any_bool b)
  | JNumber n =>
      match strconv_ParseFloat n with
      | Ok f => Ok (any_float64 f)
      | Err _ => Err "json: cannot unmarshal number into Go value of type float64"
      end
  | JString s => Ok (any_string s)
  | JArray elems =>
      match interface_elems json_interface elems with
      | Ok vs => Ok (any_slice vs)
      | Err e => Err e
      end
  | JObject members =>
      match interface_members json_interface ∅ members with
      | Ok m => Ok (any_map m)
      | Err e => Err e
      end
  end.

(** [json.Unmarshal(body, &result)] for [var result map[string]interface{}]:
    an object fills the map, [null] leaves it nil (empty to a reader), anything
    else is an error. *)
Definition json_Unmarshal_map (body : bytes) : result (gmap string any) :=
  match body with
  | NotJSON => Err "invalid character"
  | JSONText JNull => Ok ∅
  | JSONText (JObject members) => interface_members json_interface ∅ members
  | JSONText _ => Err "json: cannot unmarshal into Go value of type map[string]interface {}"
  end.

(** [m[k]] on a [map[string]interface{}]: the nil interface for a missing key. *)
Definition map_index (m : gmap string any) (k : string) : any :=
  default any_nil (m !! k).

(** The type assertions [v.(string)], [v.(float64)], [v.(int)] and
    [v.(map[string]interface{})] in their two-result form: [None] is
    [ok = false]. *)
Definition assert_string (v : any) : option string :=
  match v with any_string s => Some s | _ => None end.
Definition assert_float64 (v : any) : option float64 :=
  match v with any_float64 f => Some f | _ => None end.
Definition assert_int (v : any) : option Z :=
  match v with any_int n => Some n | _ => None end.
Definition assert_map (v : any) : option (gmap string any) :=
  match v with any_map m => Some m | _ => None end.

(** Matching an object key against a struct field name: [foldName] maps ASCII
    letters to upper case and a non-ASCII rune to the least rune of its fold
    orbit, which is ASCII only for the Kelvin sign (E2 84 AA, to [K]) and the
    long s (C5 BF, to [S]).  A key names the field when it is the name or
    folds to the same text. *)
Definition ascii_upper (c : ascii) : ascii :=
  if in_range 0x61 0x7A c then ascii_of_N (byte_of c - 32) else c.

Definition fold_special (c : ascii) (rest : string) : option (ascii * nat) :=
  match rest with
  | String c1 rest1 =>
      if (byte_of c =? 0xC5)%N && (byte_of c1 =? 0xBF)%N then Some ("S"%char, 1%nat)
      else match rest1 with
           | String c2 _ =>
               if (byte_of c =? 0xE2)%N && (byte_of c1 =? 0x84)%N && (byte_of c2 =? 0xAA)%N
               then Some ("K"%char, 2%nat) else None
           | EmptyString => None
           end
  | EmptyString => None
  end.

Fixpoint foldName_from (skip : nat) (s : string) : string :=
  match s with
  | EmptyString => EmptyString
  | String c rest =>
      match skip with
      | S k => foldName_from k rest
      | O =>
          match fold_special c rest with
          | Some (folded, n) => String folded (foldName_from n rest)
          | None => String (ascii_upper c) (foldName_from 0 rest)
          end
      end
  end.

Definition json_foldName (s : string) : string := foldName_from 0 s.

Definition names_field (field key : string) : bool :=
  String.eqb key field || String.eqb (json_foldName key) (json_foldName field).

(** ** net/url *)

Record URL : Type := {
  Scheme : string;
  Opaque : string;
  Host : string;
  Path : string;
  RawQuery : string;
  Fragment : string
}.

Inductive encoding : Type :=
| encodePath
| encodeHost
| encodeQueryComponent
| encodeFragment.

Definition is_digit (c : ascii) : bool := in_range 0x30 0x39 c.
Definition is_alpha (c : ascii) : bool := in_range 0x61 0x7A c || in_range 0x41 0x5A c.

Definition ishex (c : ascii) : bool :=
  is_digit c || in_range 0x61 0x66 c || in_range 0x41 0x46 c.

Definition unhex (c : ascii) : N :=
  if is_digit c then byte_of c - 0x30
  else if in_range 0x61 0x66 c then byte_of c - 0x61 + 10
  else if in_range 0x41 0x46 c then byte_of c - 0x41 + 10
  else 0.

Definition one_of (set : string) (c : ascii) : bool := strings_ContainsByte set c.

(** [shouldEscape]: whether a byte must be written as a percent escape in the
    given part of a URL. *)
Definition shouldEscape (c : ascii) (mode : encoding) : bool :=
  if is_alpha c || is_digit c then false
  else if match mode with
          | encodeHost => one_of "!$&'()*+,;=:[]<>" c || (byte_of c =? 0x22)%N
          | _ => false
          end
  then false
  else if one_of "-_.~" c then false
  else if one_of "$&+,/:;=?@" c then
    match mode with
    | encodePath => Ascii.eqb c "?"
    | encodeQueryComponent => true
    | encodeFragment => false
    | encodeHost => true
    end
  else if match mode with encodeFragment => one_of "!()*" c | _ => false end
  then false
  else true.

(** [unescape]: percent escapes become the byte they name, and in a query
    component [+] becomes a space.  A [%] that two hex digits do not follow is
    an [EscapeError]; a host admits no escape below [%80] but [%25], and none
    of the ASCII bytes it would have to escape. *)
Fixpoint unescape (s : string) (mode : encoding) : result string :=
  match s with
  | EmptyString => Ok EmptyString
  | String c rest =>
      if Ascii.eqb c "%" then
        match rest with
        | String h1 (String h2 rest') =>
            if negb (ishex h1 && ishex h2) then Err "invalid URL escape"
            else if match mode with
                    | encodeHost =>
                        (unhex h1 <? 8)%N && negb (Ascii.eqb h1 "2" && Ascii.eqb h2 "5")
                    | _ => false
                    end
            then Err "invalid URL escape"
            else match unescape rest' mode with
                 | Ok t => Ok (String (ascii_of_N (16 * unhex h1 + unhex h2)) t)
                 | Err e => Err e
                 end
        | _ => Err "invalid URL escape"
        end
      else if match mode with
              | encodeHost => (byte_of c <? 0x80)%N && shouldEscape c encodeHost
              | _ => false
              end
      then Err "invalid character in host name"
      else match unescape rest mode with
           | Ok t =>
               Ok (String (match mode with
                           | encodeQueryComponent => if Ascii.eqb c "+" then " "%char else c
                           | _ => c
                           end) t)
           | Err e => Err e
           end
  end.

Definition url_QueryUnescape (s : string) : result string :=
  unescape s encodeQueryComponent.

Definition upperhex (n : N) : ascii :=
  if (n <? 10)%N then ascii_of_N (0x30 + n) else ascii_of_N (0x41 + n - 10).

(** [url.QueryEscape]: a space becomes [+], every other byte that must be
    escaped becomes [%XX]. *)
Fixpoint url_QueryEscape (s : string) : string :=
  match s with
  | EmptyString => EmptyString
  | String c rest =>
      if shouldEscape c encodeQueryComponent then
        if Ascii.eqb c " " then String "+" (url_QueryEscape rest)
        else String "%" (String (upperhex (byte_of c / 16))
                           (String (upperhex (byte_of c mod 16)) (url_QueryEscape rest)))
      else String c (url_QueryEscape rest)
  end.

(** [stringContainsCTLByte]: an ASCII control byte occurs in the text. *)
Fixpoint stringContainsCTLByte (s : string) : bool :=
  match s with
  | EmptyString => false
  | String c rest =>
      (byte_of c <? 0x20)%N || (byte_of c =? 0x7F)%N || stringContainsCTLByte rest
  end.

(** [getScheme]: the text before the first [:] when it is made of letters,
    digits, [+], [-] and [.] and starts with a letter; [first] says whether the
    scan is at the start of the text. *)
Fixpoint scan_scheme (first : bool) (s : string) : result (option (string * string)) :=
  match s with
  | EmptyString => Ok None
  | String c rest =>
      if is_alpha c then
        match scan_scheme false rest with
        | Ok (Some (scheme, after)) => Ok (Some (String c scheme, after))
        | other => other
        end
      else if is_digit c || one_of "+-." c then
        if first then Ok None
        else match scan_scheme false rest with
             | Ok (Some (scheme, after)) => Ok (Some (String c scheme, after))
             | other => other
             end
      else if Ascii.eqb c ":" then
        if first then Err "missing protocol scheme"
        else Ok (Some (EmptyString, rest))
      else Ok None
  end.

Definition getScheme (rawURL : string) : result (string * string) :=
  match scan_scheme true rawURL with
  | Err e => Err e
  | Ok None => Ok (EmptyString, rawURL)
  | Ok (Some (scheme, rest)) => Ok (scheme, rest)
  end.

Fixpoint all_digits (s : string) : bool :=
  match s with
  | EmptyString => true
  | String c rest => is_digit c && all_digits rest
  end.

(** [validOptionalPort]: empty, or a colon followed by digits. *)
Definition validOptionalPort (port : string) : bool :=
  match port with
  | EmptyString => true
  | String c digits => Ascii.eqb c ":" && all_digits digits
  end.

(** [parseAuthority] for the authorities this program writes, a host name with
    an optional port.  User information and bracketed IP literals, which it
    nowhere writes, are refused here. *)
Definition parseAuthority (authority : string) : result string :=
  if strings_ContainsByte authority "@" || strings_HasPrefix authority "["
  then Err "authority form outside the model"
  else
    match cut_last authority ":" with
    | Some (_, port) =>
        if validOptionalPort (String ":" port) then unescape authority encodeHost
        else Err "invalid port after host"
    | None => unescape authority encodeHost
    end.

Definition drop2 (s : string) : string :=
  match s with
  | String _ (String _ rest) => rest
  | _ => EmptyString
  end.

(** The internal [parse] of net/url (with [viaRequest = false]) on a URL
    without its fragment. *)
Definition url_parse (rawURL : string) : result URL :=
  if stringContainsCTLByte rawURL then Err "net/url: invalid control character in URL"
  else
    match getScheme rawURL with
    | Err e => Err e
    | Ok (scheme, rest) =>
        let '(rest, query, _) := strings_Cut rest "?" in
        if negb (strings_HasPrefix rest "/") && negb (String.eqb scheme "")
        then Ok {| Scheme := scheme; Opaque := rest; Host := ""; Path := "";
                   RawQuery := query; Fragment := "" |}
        else if negb (strings_HasPrefix rest "/")
                && strings_ContainsByte (fst (fst (strings_Cut rest "/"))) ":"
        then Err "first path segment in URL cannot contain colon"
        else
          let with_path (host path : string) : result URL :=
            match unescape path encodePath with
            | Err e => Err e
            | Ok p => Ok {| Scheme := scheme; Opaque := ""; Host := host; Path := p;
                            RawQuery := query; Fragment := "" |}
            end in
          if (negb (String.eqb scheme "") || negb (strings_HasPrefix rest "///"))
             && strings_HasPrefix rest "//"
          then
            let '(authority, path, found) := strings_Cut (drop2 rest) "/" in
            match parseAuthority authority with
            | Err e => Err e
            | Ok host => with_path host (if found then String "/" path else "")
            end
          else with_path "" rest
    end.

(** [url.Parse]: the fragment is cut off at the first [#] and unescaped last. *)
Definition url_Parse (rawURL : string) : result URL :=
  let '(u, frag, _) := strings_Cut rawURL "#" in
  match url_parse u with
  | Err e => Err e
  | Ok url =>
      if String.eqb frag "" then Ok url
      else match unescape frag encodeFragment with
           | Err e => Err e
           | Ok f => Ok {| Scheme := Scheme url; Opaque := Opaque url; Host := Host url;
                           Path := Path url; RawQuery := RawQuery url; Fragment := f |}
           end
  end.

(** [url.Values] and [ParseQuery]: the pairs separated by [&], each split at its
    first [=]; a pair holding a semicolon or a bad escape is dropped.  [fuel]
    bounds the number of pairs and is the length of the query. *)
Abbreviation Values := (gmap string (list string)).

Fixpoint parseQuery (fuel : nat) (m : Values) (query : string) : Values :=
  match fuel with
  | O => m
  | S fuel' =>
      if String.eqb query "" then m
      else
        let '(key, query', _) := strings_Cut query "&" in
        if strings_ContainsByte key ";" then parseQuery fuel' m query'
        else if String.eqb key "" then parseQuery fuel' m query'
        else
          let '(key, value, _) := strings_Cut key "=" in
          match url_QueryUnescape key, url_QueryUnescape value with
          | Ok k, Ok v =>
              parseQuery fuel' (<[k := (default [] (m !! k) ++ [v])%list]> m) query'
          | _, _ => parseQuery fuel' m query'
          end
  end.

(** [u.Query()]: the parsed query, errors ignored. *)
Definition URL_Query (u : URL) : Values :=
  parseQuery (S (String.length (RawQuery u))) ∅ (RawQuery u).

(** [v.Get(key)]: the first value of the key, or the empty string. *)
Definition Values_Get (v : Values) (key : string) : string :=
  match v !! key with
  | Some (x :: _) => x
  | _ => ""
  end.

(** ** OpenTelemetry: span contexts and the W3C [traceparent] header *)

Record SpanContext : Type := {
  TraceID : N;
  SpanID : N;
  Sampled : bool;
  Remote : bool
}.

(** The zero span context, which is what a context without a span holds. *)
Definition no_span : SpanContext :=
  {| TraceID := 0; SpanID := 0; Sampled := false; Remote := false |}.

Definition IsValid (sc : SpanContext) : bool :=
  negb (TraceID sc =? 0)%N && negb (SpanID sc =? 0)%N.

(** A [context.Context], as far as the handlers use it: the span it carries. *)
Record context : Type := { SpanContextFromContext : SpanContext }.

Definition context_Background : context := {| SpanContextFromContext := no_span |}.

Definition lowerhex (n : N) : ascii :=
  if (n <? 10)%N then ascii_of_N (0x30 + n) else ascii_of_N (0x61 + n - 10).

(** [n] as exactly [width] lower-case hex digits (the low digits of [n]). *)
Fixpoint hex_fixed (width : nat) (n : N) : string :=
  match width with
  | O => EmptyString
  | S w => hex_fixed w (n / 16) ++ String (lowerhex (n mod 16)) EmptyString
  end.

(** The value of a text of lower-case hex digits; [None] for any other text. *)
Fixpoint hex_value (acc : N) (s : string) : option N :=
  match s with
  | EmptyString => Some acc
  | String c rest =>
      if is_digit c || in_range 0x61 0x66 c
      then hex_value (16 * acc + unhex c) rest
      else None
  end.

(** [extractPart]: the text up to the next dash, which must be [n] lower-case
    hex digits, and what follows the dash. *)
Definition extractPart (h : string) (n : nat) : option (N * string) :=
  let '(part, after, _) := strings_Cut h "-" in
  if Nat.eqb (String.length part) n then
    match hex_value 0 part with
    | Some v => Some (v, after)
    | None => None
    end
  else None.

(** The [traceparent] value of a span context:
    [00-<trace id>-<span id>-<flags>]. *)
Definition traceparent (sc : SpanContext) : string :=
  "00-" ++ hex_fixed 32 (TraceID sc) ++ "-" ++ hex_fixed 16 (SpanID sc) ++ "-"
        ++ (if Sampled sc then "01" else "00").

(** Reading a [traceparent] value back ([TraceContext.extract]); the zero span
    context for a value that is not well formed.  The [tracestate] header is
    outside the model. *)
Definition parse_traceparent (h : string) : SpanContext :=
  match extractPart h 2 with
  | None => no_span
  | Some (version, h1) =>
      if (254 <? version)%N then no_span
      else
        match extractPart h1 32 with
        | None => no_span
        | Some (tid, h2) =>
            match extractPart h2 16 with
            | None => no_span
            | Some (sid, h3) =>
                match extractPart h3 2 with
                | None => no_span
                | Some (opts, h4) =>
                    if (version =? 0)%N && (negb (String.eqb h4 "") || (2 <? opts)%N)
                    then no_span
                    else
                      let sc := {| TraceID := tid; SpanID := sid;
                                   Sampled := N.odd opts; Remote := true |} in
                      if IsValid sc then sc else no_span
                end
            end
        end
  end.

(** ** net/http: headers, requests, responses *)

Abbreviation Header := (gmap string (list string)).

Definition is_token_byte (c : ascii) : bool :=
  is_alpha c || is_digit c || one_of "!#$%&'*+-.^_`|~" c.

Fixpoint all_token_bytes (s : string) : bool :=
  match s with
  | EmptyString => true
  | String c rest => is_token_byte c && all_token_bytes rest
  end.

Definition ascii_lower (c : ascii) : ascii :=
  if in_range 0x41 0x5A c then ascii_of_N (byte_of c + 32) else c.

Fixpoint canonical_from (upper : bool) (s : string) : string :=
  match s with
  | EmptyString => EmptyString
  | String c rest =>
      String (if upper then ascii_upper c else ascii_lower c)
             (canonical_from (Ascii.eqb c "-") rest)
  end.

(** [textproto.CanonicalMIMEHeaderKey]: the first letter and every letter after
    a hyphen in upper case, the others in lower case; a key that is no token
    is left as it is. *)
Definition CanonicalMIMEHeaderKey (k : string) : string :=
  if all_token_bytes k then canonical_from true k else k.

Definition Header_Set (h : Header) (key value : string) : Header :=
  <[CanonicalMIMEHeaderKey key := [value]]> h.

Definition Header_Get (h : Header) (key : string) : string :=
  match h !! CanonicalMIMEHeaderKey key with
  | Some (v :: _) => v
  | _ => ""
  end.

Record Request : Type := {
  Method : string;
  URL_ : URL;
  ReqHeader : Header;
  ReqBody : ReadCloser;
  Ctx : context
}.

Record Response : Type := {
  StatusCode : Z;
  RespHeader : Header;
  Body : ReadCloser
}.

Definition http_MethodGet := "GET".
Definition http_StatusOK : Z := 200.
Definition http_StatusNotFound : Z := 404.
Definition http_StatusUnprocessableEntity : Z := 422.
Definition http_StatusInternalServerError : Z := 500.

Definition http_NoBody : ReadCloser := Reader NotJSON.

(** [bodyAllowedForStatus]: the statuses whose response carries a body; the
    informational ones, 204 and 304 carry none. *)
Definition bodyAllowedForStatus (status : Z) : bool :=
  if (100 <=? status)%Z && (status <=? 199)%Z then false
  else if (status =? 204)%Z then false
  else if (status =? 304)%Z then false
  else true.

(** [http.NewRequestWithContext] with a nil body: the method is one of the
    program's constants, so the only failure is the URL's. *)
Definition http_NewRequestWithContext (ctx : context) (method url : string)
  : result Request :=
  match url_Parse url with
  | Err e => Err e
  | Ok u => Ok {| Method := method; URL_ := u; ReqHeader := ∅;
                  ReqBody := http_NoBody; Ctx := ctx |}
  end.

(** [propagation.TraceContext.Extract] on a request's headers. *)
Definition Extract (ctx : context) (carrier : Header) : context :=
  let sc := parse_traceparent (Header_Get carrier "traceparent") in
  if IsValid sc then {| SpanContextFromContext := sc |} else ctx.

(** [propagation.TraceContext.Inject] into a request's headers: nothing for a
    context without a valid span. *)
Definition Inject (ctx : context) (req : Request) : Request :=
  let sc := SpanContextFromContext ctx in
  if IsValid sc then
    {| Method := Method req; URL_ := URL_ req;
       ReqHeader := Header_Set (ReqHeader req) "traceparent" (traceparent sc);
       ReqBody := ReqBody req; Ctx := Ctx req |}
  else req.

(** What a handler writes to its [http.ResponseWriter]: a line of text, or the
    JSON encoding of a struct, kept as its members in order. *)
Inductive chunk : Type :=
| Text (s : string)
| Encoded (members : list (string * any)).

(** The server's [http.ResponseWriter]: the header map the handler edits, and
    once the header is written the status and the headers that went out. *)
Record ResponseWriter : Type := {
  handlerHeader : Header;
  wroteHeader : bool;
  status : Z;
  sentHeader : Header;
  written : list chunk
}.

Definition new_ResponseWriter : ResponseWriter :=
  {| handlerHeader := ∅; wroteHeader := false; status := 0;
     sentHeader := ∅; written := [] |}.

(** ** The running handler: a state monad with panics and [defer] *)

Inductive event : Type :=
| SpanStart (name : string) (sc parent : SpanContext)
| SpanEnd (sc : SpanContext)
| Do (req : Request)
| BodyClose.

Inductive deferred : Type :=
| defer_span_End (sc : SpanContext)
| defer_Body_Close.

(** [trace] is what the goroutine did, oldest first; [supply] feeds the ID
    generator; [defers] is the deferred calls of the function running, the
    latest first. *)
Record goroutine : Type := {
  trace : list event;
  supply : positive;
  w : ResponseWriter;
  defers : list deferred
}.

(** A computation returns a value, or panics ([None]). *)
Definition M (A : Type) : Type := goroutine -> option A * goroutine.

#[global] Instance M_ret : MRet M := fun A (a : A) g => (Some a, g).

#[global] Instance M_bind : MBind M := fun A B (f : A -> M B) (m : M A) g =>
  match m g with
  | (Some a, g') => f a g'
  | (None, g') => (None, g')
  end.

Definition panic {A} : M A := fun g => (None, g).

Definition emit (e : event) : M unit := fun g =>
  (Some tt, {| trace := trace g ++ [e]; supply := supply g; w := w g;
               defers := defers g |}).

(** [defer f()]: the call is pushed on the running function's stack. *)
Definition defer (d : deferred) : M unit := fun g =>
  (Some tt, {| trace := trace g; supply := supply g; w := w g;
               defers := d :: defers g |}).

Definition run_deferred_call (d : deferred) : event :=
  match d with
  | defer_span_End sc => SpanEnd sc
  | defer_Body_Close => BodyClose
  end.

(** A function body: its deferred calls run, latest first, when it returns and
    also when it panics; the panic then goes on to the caller. *)
Definition func {A} (body : M A) : M A := fun g =>
  let '(r, g1) := body {| trace := trace g; supply := supply g; w := w g;
                          defers := [] |} in
  (r, {| trace := trace g1 ++ map run_deferred_call (defers g1);
         supply := supply g1; w := w g1; defers := defers g |}).

(** *** Spans *)

Record Tracer : Type := { instrumentation : string }.

Definition otel_Tracer (name : string) : Tracer := {| instrumentation := name |}.

Definition Span := SpanContext.

(** The span the SDK creates under [parent] with the always-on sampler: it
    joins the parent's trace when the parent is valid and starts a trace
    otherwise; [next] is the ID generator's next value, and [after_span] is
    the generator afterwards. *)
Definition new_span (parent : SpanContext) (next : positive) : SpanContext :=
  {| TraceID := if IsValid parent then TraceID parent else Npos next;
     SpanID := Npos (if IsValid parent then next else Pos.succ next);
     Sampled := true;
     Remote := false |}.

Definition after_span (parent : SpanContext) (next : positive) : positive :=
  Pos.succ (if IsValid parent then next else Pos.succ next).

(** [tracer.Start(ctx, name)]: the new span and the context that carries it. *)
Definition tracer_Start (t : Tracer) (ctx : context) (name : string)
  : M (context * Span) := fun g =>
  let parent := SpanContextFromContext ctx in
  let sc := new_span parent (supply g) in
  (Some ({| SpanContextFromContext := sc |}, sc),
   {| trace := trace g ++ [SpanStart name sc parent];
      supply := after_span parent (supply g);
      w := w g; defers := defers g |}).

Definition span_End (span : Span) : deferred := defer_span_End span.

(** *** The response writer *)

Definition set_w (f : ResponseWriter -> ResponseWriter) : M unit := fun g =>
  (Some tt, {| trace := trace g; supply := supply g; w := f (w g);
               defers := defers g |}).

(** [w.Header().Set(key, value)]. *)
Definition w_Header_Set (key value : string) : M unit :=
  set_w (fun rw =>
    {| handlerHeader := Header_Set (handlerHeader rw) key value;
       wroteHeader := wroteHeader rw; status := status rw;
       sentHeader := sentHeader rw; written := written rw |}).

(** [w.WriteHeader(code)]: nothing once the header is written; a panic for a
    code outside 100..999; an informational code other than 101 goes out and
    leaves the header to be written; any other code is the status, and the
    headers as they are now are the ones sent. *)
Definition w_WriteHeader (code : Z) : M unit := fun g =>
  if wroteHeader (w g) then (Some tt, g)
  else if (code <? 100)%Z || (999 <? code)%Z then panic g
  else if (code <=? 199)%Z && negb (code =? 101)%Z then (Some tt, g)
  else set_w (fun rw =>
         {| handlerHeader := handlerHeader rw; wroteHeader := true; status := code;
            sentHeader := handlerHeader rw; written := written rw |}) g.

(** [w.Write]: writes the header with status 200 first when none is written. *)
Definition w_Write (c : chunk) : M unit :=
  w_WriteHeader http_StatusOK;;
  set_w (fun rw =>
    {| handlerHeader := handlerHeader rw; wroteHeader := wroteHeader rw;
       status := status rw; sentHeader := sentHeader rw;
       written := written rw ++ [c] |}).

(** [http.Error(w, error, code)]: the two headers, the status, and the message
    as a line ([fmt.Fprintln]). *)
Definition newline : string := String (ascii_of_N 10) EmptyString.

Definition http_Error (error : string) (code : Z) : M unit :=
  w_Header_Set "Content-Type" "text/plain; charset=utf-8";;
  w_Header_Set "X-Content-Type-Options" "nosniff";;
  w_WriteHeader code;;
  w_Write (Text (error ++ newline)).

(** [json.NewEncoder(w).Encode(v)] for a struct given by its members: a float
    that is infinite or not a number is an [UnsupportedValueError] and nothing
    is written. *)
Definition marshalable (v : any) : bool :=
  match v with
  | any_float64 f => is_finite f
  | _ => true
  end.

Definition json_Encoder_Encode (members : list (string * any)) : M (option error) :=
  if forallb (fun kv => marshalable (snd kv)) members
  then w_Write (Encoded members);; mret None
  else mret (Some "json: unsupported value").

(** [client.Do(req)]: the request goes out and the transport answers with a
    response or an error. *)
Definition Client_Do (transport : Request -> result Response) (req : Request)
  : M (result Response) :=
  emit (Do req);; mret (transport req).

Definition resp_Body_Close : deferred := defer_Body_Close.

(** [http.Get(url)]: a GET request under the background context, sent by the
    default client. *)
Definition http_Get (transport : Request -> result Response) (url : string)
  : M (result Response) :=
  match http_NewRequestWithContext context_Background http_MethodGet url with
  | Err err => mret (Err err)
  | Ok req => Client_Do transport req
  end.

(** *** Decoding into a struct

    [json.NewDecoder(body).Decode(&v)]: each member of the object whose key
    names a field is stored into it, in the order written; [store] does this
    for one member.  The first error is the one returned, and what was stored
    stays. *)
Fixpoint decode_members {T} (store : string -> json -> T -> T * option error)
    (members : list (string * json)) (v : T) : T * option error :=
  match members with
  | [] => (v, None)
  | (k, x) :: rest =>
      let '(v1, e1) := store k x v in
      let '(v2, e2) := decode_members store rest v1 in
      (v2, match e1 with Some e => Some e | None => e2 end)
  end.

Definition json_Decoder_Decode {T} (store : string -> json -> T -> T * option error)
    (body : ReadCloser) (v : T) : T * option error :=
  match body with
  | FailingReader e => (v, Some e)
  | Reader NotJSON => (v, Some "invalid character")
  | Reader (JSONText JNull) => (v, None)
  | Reader (JSONText (JObject members)) => decode_members store members v
  | Reader (JSONText _) => (v, Some "json: cannot unmarshal into Go value of struct type")
  end.

(** Storing a JSON value into a [string] field and into a [float64] field:
    [null] leaves the field, a value of another kind is an error and leaves it
    too. *)
Definition store_string (x : json) (old : string) : string * option error :=
  match x with
  | JString s => (s, None)
  | JNull => (old, None)
  | _ => (old, Some "json: cannot unmarshal into Go struct field of type string")
  end.

Definition store_float64 (x : json) (old : float64) : float64 * option error :=
  match x with
  | JNumber n =>
      match strconv_ParseFloat n with
      | Ok f => (f, None)
      | Err _ => (old, Some "json: cannot unmarshal number into Go struct field of type float64")
      end
  | JNull => (old, None)
  | _ => (old, Some "json: cannot unmarshal into Go struct field of type float64")
  end.

(** *** The server around a handler

    What the caller receives.  A handler that returns without writing the
    header gets status 200; one that panics gets no response. *)
Record Reply : Type := {
  Code : Z;
  Headers : Header;
  Content : list chunk
}.

Definition finish (rw : ResponseWriter) : Reply :=
  if wroteHeader rw
  then {| Code := status rw; Headers := sentHeader rw; Content := written rw |}
  else {| Code := http_StatusOK; Headers := handlerHeader rw; Content := written rw |}.

Definition new_goroutine (seed : positive) : goroutine :=
  {| trace := []; supply := seed; w := new_ResponseWriter; defers := [] |}.

(** Serving one request: the reply, if any, and what the goroutine did. *)
Definition serve (handler : Request -> M unit) (seed : positive) (r : Request)
  : option Reply * list event :=
  match handler r (new_goroutine seed) with
  | (Some _, g) => (Some (finish (w g)), trace g)
  | (None, g) => (None, trace g)
  end.

End Go.

(** * service-b: the backend (service_b.go) *)

Module ServiceB.
Import Go.
#[local] Open Scope float_scope.

(** [WeatherResponse], with the JSON names of its fields. *)
Record WeatherResponse : Type := {
  Localidade : string;
  TempC : float64;
  TempF : float64;
  TempK : float64
}.

Definition marshal (v : WeatherResponse) : list (string * any) :=
  [("city"%string, any_string (Localidade v)); ("temp_C"%string, any_float64 (TempC v));
   ("temp_F"%string, any_float64 (TempF v)); ("temp_K"%string, any_float64 (TempK v))].

Definition toFixed (num : float64) (precision : nat) : float64 :=
  let precicionBase10 := math_Pow10 precision in
  math_Round (num * precicionBase10) / precicionBase10.

Section handlers.

(** The outbound client's transport (the network and the two providers) and
    the process environment's [WEATHER_API_KEY]. *)
Variable httpClient : Request -> result Response.
Variable WEATHER_API_KEY : string.

Definition getLocation (ctx : context) (tracer : Tracer) (cep : string)
  : M (result string) :=
  func (
    '(ctx, span) ← tracer_Start tracer ctx "getLocation from viacep";
    defer (span_End span);;
    match http_NewRequestWithContext ctx http_MethodGet
            ("http://viacep.com.br/ws/" ++ cep ++ "/json/") with
    | Err err => mret (Err err)
    | Ok req =>
        let req := Inject ctx req in
        resp ← Client_Do httpClient req;
        match resp with
        | Err err => mret (Err err)
        | Ok resp =>
            defer resp_Body_Close;;
            if negb (StatusCode resp =? http_StatusOK)%Z
            then mret (Err "invalid response from ViaCEP"%string)
            else
              match io_ReadAll (Body resp) with
              | Err err => mret (Err err)
              | Ok body =>
                  match json_Unmarshal_map body with
                  | Err err => mret (Err err)
                  | Ok result =>
                      match assert_string (map_index result "localidade") with
                      | None => mret (Err "localidade not found in response"%string)
                      | Some localidade => mret (Ok localidade)
                      end
                  end
              end
        end
    end).

Definition getTemperature (ctx : context) (tracer : Tracer) (location : string)
  : M (result float64) :=
  func (
    '(ctx, span) ← tracer_Start tracer ctx "getTemperature from weatherapi";
    defer (span_End span);;
    let apiKey := WEATHER_API_KEY in
    let url := ("http://api.weatherapi.com/v1/current.json?key=" ++ apiKey
                ++ "&q=" ++ url_QueryEscape location)%string in
    match http_NewRequestWithContext ctx http_MethodGet url with
    | Err err => mret (Err err)
    | Ok req =>
        let req := Inject ctx req in
        resp ← Client_Do httpClient req;
        match resp with
        | Err err => mret (Err err)
        | Ok resp =>
            defer resp_Body_Close;;
            if negb (StatusCode resp =? http_StatusOK)%Z
            then mret (Err "invalid response from WeatherAPI"%string)
            else
              match io_ReadAll (Body resp) with
              | Err err => mret (Err err)
              | Ok body =>
                  match json_Unmarshal_map body with
                  | Err err => mret (Err err)
                  | Ok result =>
                      match assert_map (map_index result "current") with
                      | None =>
                          mret (Err "current weather data not found in response"%string)
                      | Some current =>
                          match assert_float64 (map_index current "temp_c") with
                          | Some tempC => mret (Ok tempC)
                          | None =>
                              match assert_int (map_index current "temp_c") with
                              | None =>
                                  mret (Err "temperature data not found in response"%string)
                              | Some tempCInt => mret (Ok (float64_of_Z tempCInt))
                              end
                          end
                      end
                  end
              end
        end
    end).

Definition getWeatherHandler (r : Request) : M unit :=
  func (
    let tracer := otel_Tracer "getWeatherHandler" in
    let carrier := ReqHeader r in
    let ctx := Ctx r in
    let ctx := Extract ctx carrier in
    '(ctx, span) ← tracer_Start tracer ctx "getWeatherHandler";
    defer (span_End span);;
    let cep := Values_Get (URL_Query (URL_ r)) "cep" in
    if negb (len cep =? 8)%Z
    then http_Error "invalid zipcode" http_StatusUnprocessableEntity
    else
      location ← getLocation ctx tracer cep;
      match location with
      | Err _ => http_Error "can not find zipcode" http_StatusNotFound
      | Ok location =>
          tempC ← getTemperature ctx tracer location;
          match tempC with
          | Err _ =>
              http_Error "error fetching temperature" http_StatusInternalServerError
          | Ok tempC =>
              let tempF := tempC * 1.8 + 32 in
              let tempK := tempC + 273.15 in
              let response := {| Localidade := location;
                                 TempC := toFixed tempC 2;
                                 TempF := toFixed tempF 2;
                                 TempK := toFixed tempK 2 |} in
              w_Header_Set "Content-Type" "application/json";;
              _ ← json_Encoder_Encode (marshal response);
              mret tt
          end
      end).

End handlers.
End ServiceB.

(** * service-a: the edge (service_a.go) *)

Module ServiceA.
Import Go.

Definition CEP_LENGTH : Z := 8.
Definition getTempEndpoint : string := "http://service-b:8000/".

(** [Cep], decoded from the member ["cep"]. *)
Record Cep : Type := { Cep_ : string }.

Definition store_Cep (key : string) (x : json) (c : Cep) : Cep * option error :=
  if names_field "cep" key
  then let '(s, e) := store_string x (Cep_ c) in ({| Cep_ := s |}, e)
  else (c, None).

(** [TemperatureResponse], with the JSON names of its fields. *)
Record TemperatureResponse : Type := {
  Localidade : string;
  TempC : float64;
  TempF : float64;
  TempK : float64
}.

Definition store_TemperatureResponse (key : string) (x : json) (v : TemperatureResponse)
  : TemperatureResponse * option error :=
  if names_field "city" key then
    let '(s, e) := store_string x (Localidade v) in
    ({| Localidade := s; TempC := TempC v; TempF := TempF v; TempK := TempK v |}, e)
  else if names_field "temp_C" key then
    let '(f, e) := store_float64 x (TempC v) in
    ({| Localidade := Localidade v; TempC := f; TempF := TempF v; TempK := TempK v |}, e)
  else if names_field "temp_F" key then
    let '(f, e) := store_float64 x (TempF v) in
    ({| Localidade := Localidade v; TempC := TempC v; TempF := f; TempK := TempK v |}, e)
  else if names_field "temp_K" key then
    let '(f, e) := store_float64 x (TempK v) in
    ({| Localidade := Localidade v; TempC := TempC v; TempF := TempF v; TempK := f |}, e)
  else (v, None).

Definition marshal (v : TemperatureResponse) : list (string * any) :=
  [("city", any_string (Localidade v)); ("temp_C", any_float64 (TempC v));
   ("temp_F", any_float64 (TempF v)); ("temp_K", any_float64 (TempK v))].

Section handlers.

(** The transport of [http.DefaultClient]: the network and the backend. *)
Variable DefaultClient : Request -> result Response.

Definition postCepHandler (r : Request) : M unit :=
  func (
    let carrier := ReqHeader r in
    let ctx := Ctx r in
    let ctx := Extract ctx carrier in
    let tracer := otel_Tracer "intput-api-tracer" in
    '(ctx, span) ← tracer_Start tracer ctx "request-temp-info-to-service-b";
    defer (span_End span);;
    let '(c, err) := json_Decoder_Decode store_Cep (ReqBody r) {| Cep_ := "" |} in
    if bool_decide (is_Some err) || negb (len (Cep_ c) =? CEP_LENGTH)%Z
    then http_Error "invalid zipcode" http_StatusUnprocessableEntity
    else
      let weatherUrl := getTempEndpoint ++ "?cep=" ++ Cep_ c in
      match http_NewRequestWithContext ctx http_MethodGet weatherUrl with
      | Err err =>
          http_Error ("NewRequestWithContext service b error: " ++ err)
                     http_StatusInternalServerError
      | Ok req =>
          let req := Inject ctx req in
          resp ← Client_Do DefaultClient req;
          match resp with
          | Err err =>
              http_Error ("DefaultClient.Do service b error: " ++ err)
                         http_StatusInternalServerError
          | Ok resp =>
              defer resp_Body_Close;;
              let response :=
                fst (json_Decoder_Decode store_TemperatureResponse (Body resp)
                       {| Localidade := ""; TempC := 0%float; TempF := 0%float;
                          TempK := 0%float |}) in
              w_Header_Set "Content-Type" "application/json";;
              w_WriteHeader (StatusCode resp);;
              if (StatusCode resp =? http_StatusNotFound)%Z
              then http_Error "can not find zipcode" http_StatusNotFound
              else _ ← json_Encoder_Encode (marshal response); mret tt
          end
      end).

End handlers.

Section resolver.

Variable DefaultClient : Request -> result Response.
Variable WEATHER_API_KEY : string.

(** The edge's own [getTemperature], which no handler of the edge calls: the
    backend's resolver without a span, sent with [http.Get]. *)
Definition getTemperature (location : string) : M (result float64) :=
  func (
    let apiKey := WEATHER_API_KEY in
    let url := "http://api.weatherapi.com/v1/current.json?key=" ++ apiKey
               ++ "&q=" ++ url_QueryEscape location in
    resp ← http_Get DefaultClient url;
    match resp with
    | Err err => mret (Err err)
    | Ok resp =>
        defer resp_Body_Close;;
        if negb (StatusCode resp =? http_StatusOK)%Z
        then mret (Err "invalid response from WeatherAPI")
        else
          match io_ReadAll (Body resp) with
          | Err err => mret (Err err)
          | Ok body =>
              match json_Unmarshal_map body with
              | Err err => mret (Err err)
              | Ok result =>
                  match assert_map (map_index result "current") with
                  | None => mret (Err "current weather data not found in response")
                  | Some current =>
                      match assert_float64 (map_index current "temp_c") with
                      | Some tempC => mret (Ok tempC)
                      | None =>
                          match assert_int (map_index current "temp_c") with
                          | None => mret (Err "temperature data not found in response")
                          | Some tempCInt => mret (Ok (float64_of_Z tempCInt))
                          end
                      end
                  end
              end
          end
    end).

End resolver.
End ServiceA.

(** * What the statements below speak of *)

Module Spec.
Import Go.

(** ** Reading a trace *)

(** The spans a trace opens and the spans it closes, in order. *)
Definition opened (tr : list event) : list SpanContext :=
  omap (fun e => match e with SpanStart _ sc _ => Some sc | _ => None end) tr.

Definition closed (tr : list event) : list SpanContext :=
  omap (fun e => match e with SpanEnd sc => Some sc | _ => None end) tr.

(** The names of the spans it opens, and the requests it sends. *)
Definition started (tr : list event) : list string :=
  omap (fun e => match e with SpanStart name _ _ => Some name | _ => None end) tr.

Definition requests (tr : list event) : list Request :=
  omap (fun e => match e with Do req => Some req | _ => None end) tr.

(** Every span opened is closed exactly once: no span is opened twice, and
    the spans closed are the spans opened, each as often. *)
Definition spans_balanced (tr : list event) : Prop :=
  NoDup (opened tr) /\ closed tr ≡ₚ opened tr.

(** ** Reading a reply *)

(** The caller gets a reply with this status whose body is this message, as
    [http.Error] writes it. *)
Definition answers (out : option Reply * list event) (code : Z) (message : string)
  : Prop :=
  exists reply, out.1 = Some reply /\ Code reply = code
                /\ Content reply = [Text (message ++ newline)].

(** ** What a provider answered *)

(** The response has a body that reads and decodes to the JSON object [m]. *)
Definition decodes (resp : Response) (m : gmap string any) : Prop :=
  exists body, io_ReadAll (Body resp) = Ok body /\ json_Unmarshal_map body = Ok m.

(** The geocoding provider named the locality [loc]: status 200 and a decoded
    body whose ["localidade"] is that string. *)
Definition names_locality (out : result Response) (loc : string) : Prop :=
  exists resp m, out = Ok resp /\ StatusCode resp = 200%Z /\ decodes resp m
                 /\ map_index m "localidade" = any_string loc.

(** The ways a lookup fails: the transport fails, the provider answers with
    another status than 200, the body does not read or decode, or the decoded
    body has no string ["localidade"]. *)
Inductive lookup_fails : result Response -> Prop :=
| lookup_transport e :
    lookup_fails (Err e)
| lookup_status resp :
    StatusCode resp <> 200%Z -> lookup_fails (Ok resp)
| lookup_format resp :
    StatusCode resp = 200%Z -> (forall m, ~ decodes resp m) -> lookup_fails (Ok resp)
| lookup_no_locality resp m :
    StatusCode resp = 200%Z -> decodes resp m ->
    (forall s, map_index m "localidade" <> any_string s) ->
    lookup_fails (Ok resp).

(** A value a type assertion to [float64] or to [int] accepts. *)
Definition numeric (v : any) : Prop :=
  (exists f, v = any_float64 f) \/ (exists n, v = any_int n).

(** The number as a [float64]. *)
Definition celsius_of (v : any) : option float64 :=
  match v with
  | any_float64 f => Some f
  | any_int n => Some (float64_of_Z n)
  | _ => None
  end.

(** The weather provider gave the reading [c]: status 200 and a decoded body
    whose [current.temp_c] is that number. *)
Definition gives_temp_c (out : result Response) (c : float64) : Prop :=
  exists resp m current,
    out = Ok resp /\ StatusCode resp = 200%Z /\ decodes resp m
    /\ map_index m "current" = any_map current
    /\ celsius_of (map_index current "temp_c") = Some c.

(** The decoded body holds a number at [current.temp_c]. *)
Definition has_temp_c (m : gmap string any) : Prop :=
  exists current, map_index m "current" = any_map current
                  /\ numeric (map_index current "temp_c").

(** The ways fetching the temperature fails: the transport fails, the provider
    answers with another status than 200, the body does not read or decode, or
    the decoded body has no number at [current.temp_c]. *)
Inductive fetch_fails : result Response -> Prop :=
| fetch_transport e :
    fetch_fails (Err e)
| fetch_status resp :
    StatusCode resp <> 200%Z -> fetch_fails (Ok resp)
| fetch_format resp :
    StatusCode resp = 200%Z -> (forall m, ~ decodes resp m) -> fetch_fails (Ok resp)
| fetch_no_temp_c resp m :
    StatusCode resp = 200%Z -> decodes resp m -> ~ has_temp_c m ->
    fetch_fails (Ok resp).

(** ** Codes

    A code made of ASCII letters and digits only. *)
Fixpoint alphanumeric (s : string) : bool :=
  match s with
  | EmptyString => true
  | String c rest => (is_alpha c || is_digit c) && alphanumeric rest
  end.

(** ** The URLs the resolvers ask for *)

Definition lookup_url (cep : string) : string :=
  "http://viacep.com.br/ws/" ++ cep ++ "/json/".

Definition weather_url (key location : string) : string :=
  "http://api.weatherapi.com/v1/current.json?key=" ++ key ++ "&q="
    ++ url_QueryEscape location.

(** ** The report

    Rounding to two decimals, half away from zero, and the report the spec
    describes for a locality and a Celsius reading. *)
Definition round2 (x : float64) : float64 := (math_Round (x * 100) / 100)%float.



(** ** JSON texts *)

(** The member of an object a reader of the decoded object sees under a key:
    the last one written with that key. *)
Fixpoint last_member (key : string) (members : list (string * json)) : option json :=
  match members with
  | [] => None
  | (k, x) :: rest =>
      match last_member key rest with
      | Some y => Some y
      | None => if String.eqb k key then Some x else None
      end
  end.

Definition json_member (key : string) (j : json) : option json :=
  match j with
  | JObject members => last_member key members
  | _ => None
  end.

(** ** The resolvers' results *)

Section resolvers.
Variable httpClient : Request -> result Response.
Variable WEATHER_API_KEY : string.

(** The geocode resolver resolves [cep] to [loc], and the temperature resolver
    obtains [c] for [loc], whatever the span they run under. *)
Definition resolves (cep loc : string) : Prop :=
  forall ctx tracer g,
    (ServiceB.getLocation httpClient ctx tracer cep g).1 = Some (Ok loc).


End resolvers.

(** ** Requests *)

(** An inbound request of the backend with the raw query [q], and an inbound
    request of the edge with the body [b]; neither carries a trace header. *)
Definition get_request (q : string) : Request :=
  {| Method := "GET";
     URL_ := {| Scheme := ""; Opaque := ""; Host := ""; Path := "/";
                RawQuery := q; Fragment := "" |};
     ReqHeader := ∅; ReqBody := http_NoBody; Ctx := context_Background |}.

Definition post_request (b : ReadCloser) : Request :=
  {| Method := "POST";
     URL_ := {| Scheme := ""; Opaque := ""; Host := ""; Path := "/";
                RawQuery := ""; Fragment := "" |};
     ReqHeader := ∅; ReqBody := b; Ctx := context_Background |}.

(** The body [{"cep": code}]. *)
Definition cep_body (code : string) : ReadCloser :=
  Reader (JSONText (JObject [("cep", JString code)])).

(** ** Spans and bodies in a trace *)

(** Each span a trace opens with its parent, in order. *)
Definition parents (tr : list event) : list (SpanContext * SpanContext) :=
  omap (fun e => match e with SpanStart _ sc parent => Some (sc, parent) | _ => None end) tr.

(** The number of response bodies a trace closes, and the responses the
    transport gave to the requests of the trace. *)
Definition bodies_closed (tr : list event) : nat :=
  length (omap (fun e => match e with BodyClose => Some tt | _ => None end) tr).

Definition responses (transport : Request -> result Response) (tr : list event)
  : list Response :=
  omap (fun req => match transport req with Ok resp => Some resp | Err _ => None end)
       (requests tr).

(** A span context as the next service reads it from [traceparent], and the
    identifiers that fit the header: 16 and 8 bytes. *)
Definition remote (sc : SpanContext) : SpanContext :=
  {| TraceID := TraceID sc; SpanID := SpanID sc; Sampled := Sampled sc; Remote := true |}.

Definition fits_header (sc : SpanContext) : Prop :=
  (TraceID sc < 2 ^ 128)%N /\ (SpanID sc < 2 ^ 64)%N.

(** The request carries the span in its [traceparent] header. *)
Definition carries (req : Request) (sc : SpanContext) : Prop :=
  Header_Get (ReqHeader req) "traceparent" = traceparent sc.

(** What one call of the transport under the span [sc] leaves in a trace:
    nothing when no request was built, the request when the transport failed,
    the request and the closing of the body when it answered. *)
Inductive exchange (transport : Request -> result Response) (sc : SpanContext)
  : list event -> Prop :=
| exchange_none :
    exchange transport sc []
| exchange_failed req e :
    transport req = Err e -> carries req sc -> exchange transport sc [Do req]
| exchange_answered req resp :
    transport req = Ok resp -> carries req sc ->
    exchange transport sc [Do req; BodyClose].

(** The events of a function that runs one exchange under a span of its own. *)
Definition spanned (transport : Request -> result Response) (name : string)
    (sc parent : SpanContext) (evs : list event) : Prop :=
  exists io, evs = (SpanStart name sc parent :: io ++ [SpanEnd sc])%list
             /\ exchange transport sc io.

(** ** The edge's report *)

(** The [TemperatureResponse] the edge decodes the backend's body into, and
    what it has when nothing is stored. *)
Definition no_report : ServiceA.TemperatureResponse :=
  {| ServiceA.Localidade := ""; ServiceA.TempC := 0%float; ServiceA.TempF := 0%float;
     ServiceA.TempK := 0%float |}.

Definition decoded_report (resp : Response) : ServiceA.TemperatureResponse :=
  fst (json_Decoder_Decode ServiceA.store_TemperatureResponse (Body resp) no_report).

(** The reports the encoder writes: every number is finite. *)
Definition writable (v : ServiceA.TemperatureResponse) : bool :=
  forallb (fun kv => marshalable (snd kv)) (ServiceA.marshal v).

(** The headers of an answer whose only header was set by
    [w.Header().Set("Content-Type", "application/json")]. *)
Definition json_headers : Header := Header_Set ∅ "Content-Type" "application/json".

End Spec.

(** * Sample providers and requests *)

Module Examples.
Import Go Spec.

Definition response (code : Z) (body : bytes) : Response :=
  {| StatusCode := code; RespHeader := ∅; Body := Reader body |}.

(** What viacep answers for two known codes, and for an unknown one. *)
Definition geo_sao_paulo : Response :=
  response 200 (JSONText (JObject [("cep", JString "01001-000");
                                   ("localidade", JString "São Paulo");
                                   ("uf", JString "SP")])).

Definition geo_rio : Response :=
  response 200 (JSONText (JObject [("cep", JString "20040-020");
                                   ("localidade", JString "Rio de Janeiro");
                                   ("uf", JString "RJ")])).

Definition geo_unknown : Response :=
  response 200 (JSONText (JObject [("erro", JBool true)])).

(** What the weather provider answers: 28.5 degrees, 28 degrees written as an
    integer, a reading of 1e308 degrees, a number of 401 digits, and an
    outage. *)
Definition weather (temp_c : number) : Response :=
  response 200 (JSONText (JObject [("location", JObject [("name", JString "Sao Paulo")]);
                                   ("current", JObject [("temp_c", JNumber temp_c)])])).

Definition weather_28_5 : Response := weather (Real false 285 (-1)).
Definition weather_28 : Response := weather (Integer false 28).
Definition weather_huge : Response := weather (Integer false (10 ^ 400)).
Definition weather_down : Response := response 503 NotJSON.

(** The backend's answer to an unknown code, as the edge receives it. *)
Definition backend_not_found : Response := response 404 NotJSON.

(** The backend's report for 28.5 degrees, its answer when the temperature
    could not be fetched, and an answer whose status line reads 099. *)
Definition backend_report : Response :=
  response 200 (JSONText (JObject [("city", JString "São Paulo");
                                   ("temp_C", JNumber (Real false 285 (-1)));
                                   ("temp_F", JNumber (Real false 833 (-1)));
                                   ("temp_K", JNumber (Real false 30165 (-2)))])).

Definition backend_failed : Response := response 500 NotJSON.

Definition backend_status_099 : Response := response 99 NotJSON.

(** A caller's span, and a request as the backend's server hands it to the
    handler once the edge sent it: the method, path, query and headers of the
    request sent, under the server's own context. *)
Definition caller_span : SpanContext :=
  {| TraceID := 0x4bf92f3577b34da6a3ce929d0e0e4736; SpanID := 0x00f067aa0ba902b7;
     Sampled := true; Remote := false |}.

Definition arriving (req : Request) : Request :=
  {| Method := Method req;
     URL_ := {| Scheme := ""; Opaque := ""; Host := ""; Path := Path (URL_ req);
                RawQuery := RawQuery (URL_ req); Fragment := "" |};
     ReqHeader := ReqHeader req; ReqBody := ReqBody req; Ctx := context_Background |}.

(** A transport that routes by host: [geo] answers for viacep.com.br, [wea]
    for every other host. *)
Definition providers (geo wea : result Response) (req : Request) : result Response :=
  if String.eqb (Host (URL_ req)) "viacep.com.br" then geo else wea.

(** A transport that answers by the request: viacep knows the codes 01001000
    and 20040020 and no other; the weather provider, asked with the key
    ["key"], has a reading for Rio de Janeiro and is out of service for every
    other place. *)
Definition partial_providers (req : Request) : result Response :=
  if String.eqb (Host (URL_ req)) "viacep.com.br" then
    if String.eqb (Path (URL_ req)) "/ws/01001000/json/" then Ok geo_sao_paulo
    else if String.eqb (Path (URL_ req)) "/ws/20040020/json/" then Ok geo_rio
    else Ok geo_unknown
  else if String.eqb (RawQuery (URL_ req)) "key=key&q=Rio+de+Janeiro" then Ok weather_28_5
  else Ok weather_down.

End Examples.

(** * Proofs *)

Import Go Spec Examples.

(** ** Strings and URLs *)

Lemma append_cons (c : ascii) (s t : string) : String c s ++ t = String c (s ++ t).
Proof. reflexivity. Qed.

Lemma append_empty (t : string) : "" ++ t = t.
Proof. reflexivity. Qed.

Lemma append_nil_r (s : string) : s ++ "" = s.
Proof.
  induction s as [|c s IH]; [reflexivity |].
  now rewrite append_cons, IH.
Qed.

Lemma append_assoc (a b c : string) : (a ++ b) ++ c = a ++ (b ++ c).
Proof.
  induction a as [|x a IH]; [reflexivity |].
  now rewrite !append_cons, IH.
Qed.

Lemma strings_ContainsByte_app (p s : string) (c : ascii) :
  strings_ContainsByte (p ++ s) c = strings_ContainsByte p c || strings_ContainsByte s c.
Proof.
  induction p as [|a p IH]; [reflexivity |].
  rewrite append_cons. simpl. rewrite IH. now rewrite orb_assoc.
Qed.

(** Cutting at a separator the prefix does not hold cuts the rest. *)
Lemma strings_Cut_app (p s : string) (c : ascii) :
  strings_ContainsByte p c = false ->
  strings_Cut (p ++ s) c =
    let '(before, after, found) := strings_Cut s c in (p ++ before, after, found).
Proof.
  induction p as [|a p IH]; intros H.
  - rewrite append_empty. now destruct (strings_Cut s c) as [[? ?] ?].
  - simpl in H. apply orb_false_iff in H as [Ha Hp].
    rewrite append_cons. simpl. rewrite Ha, (IH Hp).
    now destruct (strings_Cut s c) as [[? ?] ?].
Qed.

(** Cutting at a separator that follows a prefix without it. *)
Lemma strings_Cut_at (p s : string) (c : ascii) :
  strings_ContainsByte p c = false ->
  strings_Cut (p ++ String c s) c = (p, s, true).
Proof.
  intros H. rewrite (strings_Cut_app _ _ _ H). simpl.
  rewrite Ascii.eqb_refl. now rewrite append_nil_r.
Qed.

Lemma strings_Cut_none (s : string) (k : ascii) :
  strings_ContainsByte s k = false -> strings_Cut s k = (s, "", false).
Proof.
  induction s as [| a s IH]; [reflexivity |]. simpl.
  intros [Ha Hs]%orb_false_iff. now rewrite Ha, (IH Hs).
Qed.

Lemma strings_Cut_shorter (s : string) (c : ascii) :
  s <> "" -> (String.length (strings_Cut s c).1.2 < String.length s)%nat.
Proof.
  induction s as [| a s IH]; [congruence |]. intros _. simpl.
  destruct (Ascii.eqb a c); simpl; [lia |].
  destruct s as [| b s]; [simpl; lia |].
  specialize (IH ltac:(discriminate)).
  destruct (strings_Cut (String b s) c) as [[before after] found]. simpl in *. lia.
Qed.

Lemma stringContainsCTLByte_app (p s : string) :
  stringContainsCTLByte (p ++ s) = stringContainsCTLByte p || stringContainsCTLByte s.
Proof.
  induction p as [| a p IH]; [reflexivity |].
  rewrite append_cons. simpl. rewrite IH. now rewrite !orb_assoc.
Qed.

Lemma getScheme_http (rest : string) : getScheme ("http:" ++ rest) = Ok ("http", rest).
Proof. reflexivity. Qed.

(** A URL [http://host/...] parses, if at all, to one with that host. *)
Lemma url_parse_http_host (host tail : string) (u : URL) :
  strings_ContainsByte host "?" = false ->
  strings_ContainsByte host "/" = false ->
  parseAuthority host = Ok host ->
  url_parse ("http://" ++ host ++ String "/" tail) = Ok u ->
  Host u = host.
Proof.
  intros Hq Hs Hauth. unfold url_parse.
  destruct (stringContainsCTLByte _); [discriminate |].
  change ("http://" ++ host ++ String "/" tail)
    with ("http:" ++ ("//" ++ host) ++ String "/" tail).
  rewrite getScheme_http.
  change (("//" ++ host) ++ String "/" tail) with ("//" ++ host ++ String "/" tail).
  replace ("//" ++ host ++ String "/" tail) with (("//" ++ host ++ "/") ++ tail)
    by (now rewrite !append_assoc).
  rewrite strings_Cut_app
    by (rewrite !strings_ContainsByte_app, Hq; reflexivity).
  destruct (strings_Cut tail "?") as [[path query] found].
  replace (("//" ++ host ++ "/") ++ path) with ("//" ++ host ++ String "/" path)
    by (now rewrite !append_assoc).
  change (strings_HasPrefix ("//" ++ host ++ String "/" path) "/") with true.
  change (strings_HasPrefix ("//" ++ host ++ String "/" path) "//") with true.
  change (drop2 ("//" ++ host ++ String "/" path)) with (host ++ String "/" path).
  rewrite (strings_Cut_at _ _ _ Hs), Hauth.
  cbn [negb andb orb String.eqb Ascii.eqb Bool.eqb].
  destruct (unescape _ _); [| discriminate].
  now intros [= <-].
Qed.

Lemma url_Parse_http_host (host tail : string) (u : URL) :
  strings_ContainsByte host "#" = false ->
  strings_ContainsByte host "?" = false ->
  strings_ContainsByte host "/" = false ->
  parseAuthority host = Ok host ->
  url_Parse ("http://" ++ host ++ String "/" tail) = Ok u ->
  Host u = host.
Proof.
  intros Hh Hq Hs Hauth. unfold url_Parse.
  replace ("http://" ++ host ++ String "/" tail) with (("http://" ++ host ++ "/") ++ tail)
    by (now rewrite !append_assoc).
  rewrite strings_Cut_app
    by (rewrite !strings_ContainsByte_app, Hh; reflexivity).
  destruct (strings_Cut tail "#") as [[before frag] found].
  replace (("http://" ++ host ++ "/") ++ before) with ("http://" ++ host ++ String "/" before)
    by (now rewrite !append_assoc).
  destruct (url_parse _) as [url|] eqn:Hparse; [| discriminate].
  apply url_parse_http_host in Hparse; [| assumption..].
  destruct (String.eqb frag ""); [now intros [= <-] |].
  destruct (unescape frag _); [| discriminate].
  now intros [= <-].
Qed.

Lemma NewRequest_URL (ctx : context) (method url : string) (req : Request) :
  http_NewRequestWithContext ctx method url = Ok req -> url_Parse url = Ok (URL_ req).
Proof.
  unfold http_NewRequestWithContext.
  destruct (url_Parse url); [| discriminate]. now intros [= <-].
Qed.

Lemma NewRequest_Err (ctx : context) (method url : string) (e : error) :
  http_NewRequestWithContext ctx method url = Err e -> url_Parse url = Err e.
Proof.
  unfold http_NewRequestWithContext.
  destruct (url_Parse url); [discriminate |]. now intros [= <-].
Qed.

Lemma Inject_URL (ctx : context) (req : Request) : URL_ (Inject ctx req) = URL_ req.
Proof. unfold Inject. now destruct (IsValid _). Qed.

Lemma location_request_host (ctx : context) (cep : string) (req : Request) :
  http_NewRequestWithContext ctx http_MethodGet
    ("http://viacep.com.br/ws/" ++ cep ++ "/json/") = Ok req ->
  Host (URL_ (Inject ctx req)) = "viacep.com.br".
Proof.
  intros H%NewRequest_URL. rewrite Inject_URL.
  now apply (url_Parse_http_host "viacep.com.br" ("ws/" ++ cep ++ "/json/")).
Qed.

Lemma weather_request_host (ctx : context) (key location : string) (req : Request) :
  http_NewRequestWithContext ctx http_MethodGet
    ("http://api.weatherapi.com/v1/current.json?key=" ++ key ++ "&q="
       ++ url_QueryEscape location) = Ok req ->
  Host (URL_ (Inject ctx req)) = "api.weatherapi.com".
Proof.
  intros H%NewRequest_URL. rewrite Inject_URL.
  now apply (url_Parse_http_host "api.weatherapi.com"
               ("v1/current.json?key=" ++ key ++ "&q=" ++ url_QueryEscape location)).
Qed.

(** Any fuel above the length of the query gives the same values: the fuel
    [URL_Query] passes never runs out. *)
Lemma parseQuery_fuel (fuel fuel' : nat) (m : gmap string (list string)) (query : string) :
  (String.length query < fuel)%nat -> (String.length query < fuel')%nat ->
  parseQuery fuel m query = parseQuery fuel' m query.
Proof.
  revert fuel' m query. induction fuel as [| fuel IH]; intros fuel' m query H H'; [lia |].
  destruct fuel' as [| fuel']; [lia |]. simpl.
  destruct (String.eqb_spec query "") as [-> | Hne]; [reflexivity |].
  pose proof (strings_Cut_shorter query "&" Hne) as Hshort.
  destruct (strings_Cut query "&") as [[key rest] found]. simpl in Hshort.
  assert (Hgo : forall m', parseQuery fuel m' rest = parseQuery fuel' m' rest)
    by (intros m'; apply IH; lia).
  destruct (strings_ContainsByte key ";"); [apply Hgo |].
  destruct (String.eqb key ""); [apply Hgo |].
  destruct (strings_Cut key "=") as [[k v] ?].
  destruct (url_QueryUnescape k), (url_QueryUnescape v); apply Hgo.
Qed.

(** ** Alphanumeric codes in a URL *)

Lemma alphanumeric_byte (a : ascii) :
  is_alpha a || is_digit a = true ->
  (0x30 <= byte_of a <= 0x39 \/ 0x41 <= byte_of a <= 0x5A \/ 0x61 <= byte_of a <= 0x7A)%N.
Proof.
  unfold is_alpha, is_digit, in_range.
  rewrite !orb_true_iff, !andb_true_iff, !N.leb_le. tauto.
Qed.

Lemma byte_of_inj_neq (a k : ascii) : byte_of a <> byte_of k -> Ascii.eqb a k = false.
Proof. intros H. apply Ascii.eqb_neq. congruence. Qed.

(** An alphanumeric text holds no byte that is not a letter or digit. *)
Lemma alphanumeric_ContainsByte (s : string) (k : ascii) :
  alphanumeric s = true -> is_alpha k || is_digit k = false ->
  strings_ContainsByte s k = false.
Proof.
  intros Hs Hk. induction s as [| a s IH]; [reflexivity |].
  simpl in *. apply andb_true_iff in Hs as [Ha Hs].
  rewrite (IH Hs), orb_false_r. apply Ascii.eqb_neq. intros ->. congruence.
Qed.

Lemma alphanumeric_no_CTL (s : string) :
  alphanumeric s = true -> stringContainsCTLByte s = false.
Proof.
  induction s as [| a s IH]; [reflexivity |]. simpl.
  intros [Ha%alphanumeric_byte Hs]%andb_true_iff. rewrite (IH Hs), orb_false_r.
  apply orb_false_iff. split; [apply N.ltb_ge | apply N.eqb_neq]; lia.
Qed.

(** Nothing in it is an escape: unescaping leaves it as it is. *)
Lemma alphanumeric_unescape (s : string) (mode : encoding) :
  alphanumeric s = true -> mode <> encodeHost -> unescape s mode = Ok s.
Proof.
  intros Hs Hmode. induction s as [| a s IH]; [reflexivity |].
  simpl in Hs. apply andb_true_iff in Hs as [Ha Hs].
  pose proof (alphanumeric_byte a Ha) as Hrange.
  simpl. rewrite (IH Hs).
  rewrite (byte_of_inj_neq a "%") by (change (byte_of "%") with 37%N; lia).
  rewrite (byte_of_inj_neq a "+") by (change (byte_of "+") with 43%N; lia).
  now destruct mode.
Qed.

(** The URL the edge builds for an alphanumeric code. *)
Lemma forward_url_parses (code : string) :
  alphanumeric code = true ->
  url_Parse (ServiceA.getTempEndpoint ++ "?cep=" ++ code) =
    Ok {| Scheme := "http"; Opaque := ""; Host := "service-b:8000"; Path := "/";
          RawQuery := "cep=" ++ code; Fragment := "" |}.
Proof.
  intros Hcode. unfold url_Parse, ServiceA.getTempEndpoint.
  rewrite strings_Cut_none
    by (rewrite !strings_ContainsByte_app, (alphanumeric_ContainsByte code "#" Hcode eq_refl);
        reflexivity).
  unfold url_parse.
  rewrite !stringContainsCTLByte_app, (alphanumeric_no_CTL code Hcode).
  change (stringContainsCTLByte "http://service-b:8000/") with false.
  change (stringContainsCTLByte "?cep=") with false.
  cbn [orb].
  change ("http://service-b:8000/" ++ "?cep=" ++ code)
    with ("http:" ++ "//service-b:8000/" ++ String "?" ("cep=" ++ code)).
  rewrite getScheme_http.
  rewrite (strings_Cut_at "//service-b:8000/" ("cep=" ++ code) "?" eq_refl).
  reflexivity.
Qed.

(** Its [cep] query parameter is the code. *)
Lemma forward_query_cep (code : string) :
  alphanumeric code = true ->
  Values_Get (parseQuery (S (String.length ("cep=" ++ code))) ∅ ("cep=" ++ code)) "cep"
  = code.
Proof.
  intros Hcode.
  assert (Hnone : forall k : ascii, is_alpha k || is_digit k = false ->
            strings_ContainsByte "cep=" k = false ->
            strings_ContainsByte ("cep=" ++ code) k = false).
  { intros k Hk Hp. now rewrite strings_ContainsByte_app, Hp,
      (alphanumeric_ContainsByte code k Hcode Hk). }
  cbn [parseQuery].
  change (("cep=" ++ code =? "")%string) with false. cbv iota.
  rewrite (strings_Cut_none _ "&" (Hnone "&"%char eq_refl eq_refl)).
  rewrite (Hnone ";"%char eq_refl eq_refl).
  change (("cep=" ++ code =? "")%string) with false. cbv iota.
  change ("cep=" ++ code) with ("cep" ++ String "=" code).
  rewrite (strings_Cut_at "cep" code "=" eq_refl).
  unfold url_QueryUnescape.
  rewrite (alphanumeric_unescape code encodeQueryComponent Hcode) by discriminate.
  change (unescape "cep" encodeQueryComponent) with (Ok "cep").
  cbv iota beta.
  assert (Hrest : forall fuel (m : Values), parseQuery fuel m "" = m)
    by (now intros [| fuel] m).
  rewrite Hrest. unfold Values_Get. now rewrite lookup_insert_eq.
Qed.

Lemma Header_Get_Set (h : Header) (key value : string) :
  Header_Get (Header_Set h key value) key = value.
Proof. unfold Header_Get, Header_Set. now rewrite lookup_insert_eq. Qed.

(** ** Decoded objects and the JSON text they come from *)

(** A key of the decoded object holds the decoding of the last member written
    under it, and what the map held before for a key no member has. *)
Lemma interface_members_lookup (decode : json -> result any) (members : list (string * json))
    (acc m : gmap string any) (key : string) :
  interface_members decode acc members = Ok m ->
  match last_member key members with
  | Some x => exists v, decode x = Ok v /\ m !! key = Some v
  | None => m !! key = acc !! key
  end.
Proof.
  revert acc. induction members as [| [k x] rest IH]; intros acc Hm; simpl in *.
  - now injection Hm as ->.
  - destruct (decode x) as [v | e] eqn:Hx; [| discriminate].
    specialize (IH _ Hm).
    destruct (last_member key rest) as [y |]; [exact IH |].
    destruct (String.eqb_spec k key) as [-> | Hne].
    + exists v. split; [assumption |]. now rewrite IH, lookup_insert_eq.
    + now rewrite IH, lookup_insert_ne.
Qed.

(** Every value of a decoded object was decoded from a JSON value, or was in
    the map before. *)
Lemma interface_members_values (members : list (string * json)) (acc m : gmap string any)
    (key : string) (v : any) :
  interface_members json_interface acc members = Ok m ->
  m !! key = Some v ->
  acc !! key = Some v \/ exists j, json_interface j = Ok v.
Proof.
  revert acc. induction members as [| [k x] rest IH]; intros acc Hm Hv; simpl in Hm.
  - injection Hm as ->. now left.
  - destruct (json_interface x) as [vx | e] eqn:Hx; [| discriminate].
    destruct (IH _ Hm Hv) as [Hacc | Hj]; [| now right].
    destruct (decide (k = key)) as [-> | Hne].
    + rewrite lookup_insert_eq in Hacc. injection Hacc as <-. right. now exists x.
    + rewrite lookup_insert_ne in Hacc by assumption. now left.
Qed.

(** Unmarshal never builds an [int]: numbers are [float64]. *)
Lemma json_interface_not_int (j : json) (v : any) :
  json_interface j = Ok v -> assert_int v = None.
Proof.
  destruct j; simpl; try (intros [= <-]; reflexivity).
  - destruct (strconv_ParseFloat n); [intros [= <-]; reflexivity | discriminate].
  - destruct (interface_elems _ _); [intros [= <-]; reflexivity | discriminate].
  - destruct (interface_members _ _ _); [intros [= <-]; reflexivity | discriminate].
Qed.

(** In a decoded body no [current.temp_c] is an [int]: the second type
    assertion of [getTemperature] fails whenever the first does. *)
Lemma decoded_temp_c_not_int (body : bytes) (m current : gmap string any) :
  json_Unmarshal_map body = Ok m ->
  map_index m "current" = any_map current ->
  assert_int (map_index current "temp_c") = None.
Proof.
  intros Hm Hcur.
  assert (Hj : exists j, json_interface j = Ok (any_map current)).
  { unfold map_index in Hcur.
    destruct (m !! "current") as [v |] eqn:Hv; [| discriminate]. simpl in Hcur. subst v.
    destruct body as [| j]; [discriminate |].
    destruct j as [| | | | | members]; try discriminate.
    - injection Hm as <-. now rewrite lookup_empty in Hv.
    - destruct (interface_members_values _ _ _ _ _ Hm Hv) as [Hempty | Hj];
        [now rewrite lookup_empty in Hempty | exact Hj]. }
  destruct Hj as [j Hj].
  destruct j as [| | n | | | members]; simpl in Hj; try discriminate.
  - destruct (strconv_ParseFloat n); discriminate.
  - destruct (interface_elems _ _); discriminate.
  - destruct (interface_members json_interface ∅ members) as [m' |] eqn:Hm';
      [| discriminate].
    injection Hj as ->. unfold map_index.
    destruct (current !! "temp_c") as [v |] eqn:Hv; [| reflexivity]. simpl.
    destruct (interface_members_values _ _ _ _ _ Hm' Hv) as [Hempty | [j Hj]].
    + now rewrite lookup_empty in Hempty.
    + now apply (json_interface_not_int j).
Qed.

(** ** What a provider answered *)

Lemma assert_string_Some (v : any) (s : string) :
  assert_string v = Some s -> v = any_string s.
Proof. destruct v; simpl; congruence. Qed.

Lemma assert_string_None (v : any) :
  assert_string v = None -> forall s, v <> any_string s.
Proof. destruct v; simpl; congruence. Qed.

Lemma assert_map_Some (v : any) (m : gmap string any) :
  assert_map v = Some m -> v = any_map m.
Proof. destruct v; simpl; congruence. Qed.

Lemma assert_map_None (v : any) :
  assert_map v = None -> forall m, v <> any_map m.
Proof. destruct v; simpl; congruence. Qed.

Lemma assert_number_None (v : any) :
  assert_float64 v = None -> assert_int v = None -> ~ numeric v.
Proof. intros Hf Hi [[f ->] | [n ->]]; discriminate. Qed.

Lemma status_is_OK (code : Z) : negb (code =? http_StatusOK)%Z = false -> code = 200%Z.
Proof. intros H%negb_false_iff. now apply Z.eqb_eq in H. Qed.

Lemma status_not_OK (code : Z) : negb (code =? http_StatusOK)%Z = true -> code <> 200%Z.
Proof. intros H%negb_true_iff. now apply Z.eqb_neq in H. Qed.

Lemma not_decodes_unreadable (resp : Response) (e : error) :
  io_ReadAll (Body resp) = Err e -> forall m, ~ decodes resp m.
Proof. intros H m (body & Hb & _). congruence. Qed.

Lemma not_decodes_malformed (resp : Response) (body : bytes) (e : error) :
  io_ReadAll (Body resp) = Ok body -> json_Unmarshal_map body = Err e ->
  forall m, ~ decodes resp m.
Proof. intros H1 H2 m (body' & Hb & Hm). congruence. Qed.

Lemma decodes_unique (resp : Response) (m m' : gmap string any) :
  decodes resp m -> decodes resp m' -> m = m'.
Proof. intros (b & Hb & Hm) (b' & Hb' & Hm'). congruence. Qed.

Lemma names_locality_not_fails (out : result Response) (loc : string) :
  names_locality out loc -> lookup_fails out -> False.
Proof.
  intros (resp & m & -> & Hcode & Hm & Hloc) Hfail.
  inversion Hfail as [| ? Hne | ? _ Hno | ? m' _ Hm' Hno]; subst.
  - contradiction.
  - exact (Hno m Hm).
  - rewrite (decodes_unique _ _ _ Hm' Hm) in Hno. exact (Hno loc Hloc).
Qed.

Lemma names_locality_unique (out : result Response) (loc loc' : string) :
  names_locality out loc -> names_locality out loc' -> loc = loc'.
Proof.
  intros (resp & m & -> & _ & Hm & Hloc) (resp' & m' & [= <-] & _ & Hm' & Hloc').
  rewrite (decodes_unique _ _ _ Hm' Hm) in Hloc'. congruence.
Qed.

Lemma celsius_numeric (v : any) (c : float64) : celsius_of v = Some c -> numeric v.
Proof. destruct v; simpl; try discriminate; intros _; [left | right]; eauto. Qed.

Lemma gives_temp_c_not_fails (out : result Response) (c : float64) :
  gives_temp_c out c -> fetch_fails out -> False.
Proof.
  intros (resp & m & cur & -> & Hcode & Hm & Hcur & Hc) Hfail.
  inversion Hfail as [| ? Hne | ? _ Hno | ? m' _ Hm' Hno]; subst.
  - contradiction.
  - exact (Hno m Hm).
  - rewrite (decodes_unique _ _ _ Hm' Hm) in Hno. apply Hno.
    exists cur. split; [assumption |]. eapply celsius_numeric; eassumption.
Qed.

Lemma gives_temp_c_unique (out : result Response) (c c' : float64) :
  gives_temp_c out c -> gives_temp_c out c' -> c = c'.
Proof.
  intros (resp & m & cur & -> & _ & Hm & Hcur & Hc)
         (resp' & m' & cur' & [= <-] & _ & Hm' & Hcur' & Hc').
  rewrite (decodes_unique _ _ _ Hm' Hm) in Hcur'. congruence.
Qed.

(** A body that decodes and holds a number at [current.temp_c] gives that
    number's float as the reading. *)
Lemma number_gives_temp_c (resp : Response) (j current : json) (d : number)
    (m : gmap string any) :
  StatusCode resp = 200%Z ->
  Body resp = Reader (JSONText j) ->
  json_Unmarshal_map (JSONText j) = Ok m ->
  json_member "current" j = Some current ->
  json_member "temp_c" current = Some (JNumber d) ->
  exists f, strconv_ParseFloat d = Ok f /\ gives_temp_c (Ok resp) f.
Proof.
  intros Hcode Hbody Hm Hcur Hnum.
  destruct j as [| | | | | members]; try discriminate. simpl in Hm, Hcur.
  pose proof (interface_members_lookup _ _ _ _ "current" Hm) as Hlook.
  rewrite Hcur in Hlook. destruct Hlook as (v & Hv & Hmv).
  destruct current as [| | | | | members']; try discriminate. simpl in Hv, Hnum.
  destruct (interface_members json_interface ∅ members') as [m' |] eqn:Hm'; [| discriminate].
  injection Hv as <-.
  pose proof (interface_members_lookup _ _ _ _ "temp_c" Hm') as Hlook.
  rewrite Hnum in Hlook. destruct Hlook as (v' & Hv' & Hmv'). simpl in Hv'.
  destruct (strconv_ParseFloat d) as [f |]; [| discriminate]. injection Hv' as <-.
  exists f. split; [reflexivity |].
  exists resp, m, m'. repeat split; try assumption.
  - exists (JSONText (JObject members)). split; [now rewrite Hbody | assumption].
  - unfold map_index. now rewrite Hmv.
  - unfold map_index. now rewrite Hmv'.
Qed.

(** ** Rounding *)


(** [math.Round] on ties and next to them: half goes away from zero. *)
Lemma math_Round_ties :
  (math_Round 0.5 = 1 /\ math_Round (-0.5) = -1
   /\ math_Round 2.5 = 3 /\ math_Round (-2.5) = -3
   /\ math_Round 0.49999999999999994 = 0
   /\ math_Round (-0.3) = -0
   /\ math_Round 4503599627370497 = 4503599627370497)%float.
Proof. repeat split; vm_compute; reflexivity. Qed.

(** The conversions of 28.5 degrees, and a tie at the second decimal. *)
Lemma round2_samples :
  (round2 28.5 = 28.5
   /\ round2 (28.5 * 1.8 + 32) = 83.3
   /\ round2 (28.5 + 273.15) = 301.65
   /\ round2 0.125 = 0.13 /\ round2 (-0.125) = -0.13)%float.
Proof. repeat split; vm_compute; reflexivity. Qed.

(** ** Span identifiers and traces *)

Lemma new_span_IsValid (parent : SpanContext) (next : positive) :
  IsValid (new_span parent next) = true.
Proof.
  unfold IsValid, new_span. simpl.
  destruct (IsValid parent) eqn:Hp; [| reflexivity].
  unfold IsValid in Hp. apply andb_true_iff in Hp as [Hp _]. now rewrite Hp.
Qed.

(** Under a valid parent the span takes the generator's next identifier. *)
Lemma new_span_child (parent : SpanContext) (next : positive) :
  IsValid parent = true ->
  SpanID (new_span parent next) = Npos next /\ after_span parent next = Pos.succ next.
Proof. intros H. unfold new_span, after_span. simpl. now rewrite H. Qed.

(** The identifier a span takes is below the generator afterwards. *)
Lemma new_span_fresh (parent : SpanContext) (next : positive) :
  exists p, SpanID (new_span parent next) = Npos p
            /\ (next <= p)%positive /\ after_span parent next = Pos.succ p.
Proof.
  unfold new_span, after_span. simpl.
  destruct (IsValid parent); eexists; repeat split; lia.
Qed.

Lemma opened_app (t1 t2 : list event) : opened (t1 ++ t2) = (opened t1 ++ opened t2)%list.
Proof. apply omap_app. Qed.

Lemma closed_app (t1 t2 : list event) : closed (t1 ++ t2) = (closed t1 ++ closed t2)%list.
Proof. apply omap_app. Qed.

Lemma started_app (t1 t2 : list event) : started (t1 ++ t2) = (started t1 ++ started t2)%list.
Proof. apply omap_app. Qed.

Lemma requests_app (t1 t2 : list event) : requests (t1 ++ t2) = (requests t1 ++ requests t2)%list.
Proof. apply omap_app. Qed.

Lemma spans_balanced_counts (tr : list event) :
  spans_balanced tr -> length (closed tr) = length (opened tr).
Proof. intros [_ Hperm]. now rewrite Hperm. Qed.

(** The spans of a handler that runs nothing below its own span. *)
Lemma spans_balanced_single (sc : SpanContext) (tr : list event) :
  opened tr = [sc] -> closed tr = [sc] -> spans_balanced tr.
Proof.
  intros Ho Hc. unfold spans_balanced. rewrite Ho, Hc.
  split; [apply NoDup_singleton | reflexivity].
Qed.

Lemma NoDup_two {A} (a b : A) : a <> b -> NoDup [a; b].
Proof.
  intros Hab. apply NoDup_cons. split.
  - now intros ->%list_elem_of_singleton.
  - apply NoDup_singleton.
Qed.

Lemma NoDup_three {A} (a b c : A) : a <> b -> a <> c -> b <> c -> NoDup [a; b; c].
Proof.
  intros Hab Hac Hbc. apply NoDup_cons. split.
  - intros [-> | ->%list_elem_of_singleton]%elem_of_cons; contradiction.
  - now apply NoDup_two.
Qed.

(** ** Running the monad *)

(** Comparisons of known status codes are decided. *)
Ltac is_pos_literal p :=
  lazymatch p with
  | xH => idtac
  | xO ?q => is_pos_literal q
  | xI ?q => is_pos_literal q
  end.

Ltac is_status_literal z :=
  let z' := eval cbv delta [http_StatusOK http_StatusNotFound
                            http_StatusUnprocessableEntity
                            http_StatusInternalServerError] in z in
  lazymatch z' with
  | Z0 => idtac
  | Zpos ?p => is_pos_literal p
  end.

Ltac decide_test a b t :=
  is_status_literal a; is_status_literal b;
  let v := eval vm_compute in t in
  change t with v.

Ltac decide_tests :=
  repeat match goal with
    | |- context [Z.ltb ?a ?b] => decide_test a b (Z.ltb a b)
    | |- context [Z.leb ?a ?b] => decide_test a b (Z.leb a b)
    | |- context [Z.eqb ?a ?b] => decide_test a b (Z.eqb a b)
    end.

(** Symbolic execution: the monad's operations unfold, the library calls
    whose result decides a branch stay folded. *)
Ltac run :=
  repeat (progress
    (unfold mbind, M_bind, mret, M_ret, tracer_Start, defer, emit, http_Error,
       w_Write, w_WriteHeader, w_Header_Set, set_w, Client_Do, func, span_End,
       resp_Body_Close, json_Encoder_Encode;
     cbn -[Extract Header_Set URL_Query Values_Get len IsValid Inject new_span
           after_span http_NewRequestWithContext json_Unmarshal_map io_ReadAll
           url_QueryEscape String.append map_index json_Decoder_Decode
           Z.eqb Z.ltb Z.leb math_Round math_Pow10 PrimFloat.mul PrimFloat.add
           PrimFloat.div is_finite float64_of_Z ServiceB.toFixed
           ServiceB.getLocation ServiceB.getTemperature];
     decide_tests)).

(** A finished resolver: its trace is the old one and what it added, and what
    it added is read off; the clause on the result is left. *)
Ltac finished :=
  eexists; split; [rewrite <- ?app_assoc; reflexivity |];
  simpl; repeat (split; [first [reflexivity | repeat constructor; assumption] |]).

(** Reading a trace made of known events around a resolver's. *)
Ltac read_trace :=
  repeat (progress
    (simpl; rewrite ?opened_app, ?closed_app, ?started_app, ?requests_app)).

(** ** The resolvers *)

Section resolvers_run.
Variable httpClient : Request -> result Response.
Variable WEATHER_API_KEY : string.

(** [getLocation] returns, leaves the response writer alone, opens and closes
    its one span, sends at most one request, to viacep.com.br, and its result
    is what the provider's answer makes it. *)
Lemma getLocation_run (ctx : context) (tracer : Tracer) (cep : string) (g : goroutine) :
  exists res evs,
    ServiceB.getLocation httpClient ctx tracer cep g =
      (Some res,
       {| trace := trace g ++ evs;
          supply := after_span (SpanContextFromContext ctx) (supply g);
          w := w g; defers := defers g |})
    /\ opened evs = [new_span (SpanContextFromContext ctx) (supply g)]
    /\ closed evs = [new_span (SpanContextFromContext ctx) (supply g)]
    /\ started evs = ["getLocation from viacep"]
    /\ Forall (fun req => Host (URL_ req) = "viacep.com.br") (requests evs)
    /\ match res with
       | Ok loc => exists req, requests evs = [req] /\ names_locality (httpClient req) loc
       | Err _ =>
           (requests evs = [] /\ exists e, url_Parse (lookup_url cep) = Err e) \/
           exists req, requests evs = [req] /\ lookup_fails (httpClient req)
       end.
Proof.
  unfold ServiceB.getLocation. run.
  destruct (http_NewRequestWithContext _ _ _) as [req|e] eqn:Hreq; run.
  2:{ exists (Err e). finished. left. split; [reflexivity |]. exists e.
      now apply NewRequest_Err in Hreq. }
  apply location_request_host in Hreq.
  set (sent := Inject _ req) in *.
  assert (Hfail : forall e : error, lookup_fails (httpClient sent) ->
            ([sent] = [] /\ exists e, url_Parse (lookup_url cep) = Err e)
            \/ exists req, [sent] = [req] /\ lookup_fails (httpClient req))
    by (intros _ ?; right; now exists sent).
  destruct (httpClient sent) as [resp|e] eqn:Hresp; run.
  2:{ exists (Err e). finished. apply (Hfail e). constructor. }
  destruct (negb (StatusCode resp =? http_StatusOK)%Z) eqn:Hcode; run.
  { eexists (Err _). finished. apply (Hfail ""), lookup_status. now apply status_not_OK. }
  apply status_is_OK in Hcode.
  destruct (io_ReadAll (Body resp)) as [body|e] eqn:Hread; run.
  2:{ exists (Err e). finished. apply (Hfail e), lookup_format; [assumption |].
      eapply not_decodes_unreadable; eassumption. }
  destruct (json_Unmarshal_map body) as [m|e] eqn:Hdec; run.
  2:{ exists (Err e). finished. apply (Hfail e), lookup_format; [assumption |].
      eapply not_decodes_malformed; eassumption. }
  assert (Hm : decodes resp m) by (exists body; auto).
  destruct (assert_string (map_index m "localidade")) as [loc|] eqn:Hloc; run.
  - exists (Ok loc). finished. exists sent. split; [reflexivity |].
    exists resp, m. repeat split; auto. now apply assert_string_Some.
  - eexists (Err _). finished. apply (Hfail ""). eapply lookup_no_locality; eauto.
    now apply assert_string_None.
Qed.

(** [getTemperature] likewise, with api.weatherapi.com. *)
Lemma getTemperature_run (ctx : context) (tracer : Tracer) (location : string)
    (g : goroutine) :
  exists res evs,
    ServiceB.getTemperature httpClient WEATHER_API_KEY ctx tracer location g =
      (Some res,
       {| trace := trace g ++ evs;
          supply := after_span (SpanContextFromContext ctx) (supply g);
          w := w g; defers := defers g |})
    /\ opened evs = [new_span (SpanContextFromContext ctx) (supply g)]
    /\ closed evs = [new_span (SpanContextFromContext ctx) (supply g)]
    /\ started evs = ["getTemperature from weatherapi"]
    /\ Forall (fun req => Host (URL_ req) = "api.weatherapi.com") (requests evs)
    /\ match res with
       | Ok c => exists req, requests evs = [req] /\ gives_temp_c (httpClient req) c
       | Err _ =>
           (requests evs = []
            /\ exists e, url_Parse (weather_url WEATHER_API_KEY location) = Err e) \/
           exists req, requests evs = [req] /\ fetch_fails (httpClient req)
       end.
Proof.
  unfold ServiceB.getTemperature. run.
  destruct (http_NewRequestWithContext _ _ _) as [req|e] eqn:Hreq; run.
  2:{ exists (Err e). finished. left. split; [reflexivity |]. exists e.
      now apply NewRequest_Err in Hreq. }
  apply weather_request_host in Hreq.
  set (sent := Inject _ req) in *.
  assert (Hfail : forall e : error, fetch_fails (httpClient sent) ->
            ([sent] = []
             /\ exists e, url_Parse (weather_url WEATHER_API_KEY location) = Err e)
            \/ exists req, [sent] = [req] /\ fetch_fails (httpClient req))
    by (intros _ ?; right; now exists sent).
  destruct (httpClient sent) as [resp|e] eqn:Hresp; run.
  2:{ exists (Err e). finished. apply (Hfail e). constructor. }
  destruct (negb (StatusCode resp =? http_StatusOK)%Z) eqn:Hcode; run.
  { eexists (Err _). finished. apply (Hfail ""), fetch_status. now apply status_not_OK. }
  apply status_is_OK in Hcode.
  destruct (io_ReadAll (Body resp)) as [body|e] eqn:Hread; run.
  2:{ exists (Err e). finished. apply (Hfail e), fetch_format; [assumption |].
      eapply not_decodes_unreadable; eassumption. }
  destruct (json_Unmarshal_map body) as [m|e] eqn:Hdec; run.
  2:{ exists (Err e). finished. apply (Hfail e), fetch_format; [assumption |].
      eapply not_decodes_malformed; eassumption. }
  assert (Hm : decodes resp m) by (exists body; auto).
  destruct (assert_map (map_index m "current")) as [current|] eqn:Hcur; run.
  2:{ eexists (Err _). finished. apply (Hfail ""). eapply fetch_no_temp_c; eauto.
      intros (current & Hc & _). eapply assert_map_None; eauto. }
  apply assert_map_Some in Hcur.
  destruct (assert_float64 (map_index current "temp_c")) as [c|] eqn:Hf; run.
  { exists (Ok c). finished. exists sent. split; [reflexivity |].
    exists resp, m, current. repeat split; auto.
    destruct (map_index current "temp_c"); simpl in *; congruence. }
  destruct (assert_int (map_index current "temp_c")) as [n|] eqn:Hi; run.
  - eexists (Ok _). finished. exists sent. split; [reflexivity |].
    exists resp, m, current. repeat split; auto.
    destruct (map_index current "temp_c"); simpl in *; congruence.
  - eexists (Err _). finished. apply (Hfail ""). eapply fetch_no_temp_c; eauto.
    intros (current' & Hc & Hnum). rewrite Hcur in Hc. injection Hc as <-.
    revert Hnum. now apply assert_number_None.
Qed.

End resolvers_run.

(** The call of a resolver in the goal, replaced by its result and events. *)
Ltac call_getLocation res evs Hop Hcl Hst Hreqs Hres :=
  match goal with
  | |- context [ServiceB.getLocation ?c ?x ?t ?s ?g] =>
      let Heq := fresh "Heq" in
      destruct (getLocation_run c x t s g)
        as (res & evs & Heq & Hop & Hcl & Hst & Hreqs & Hres);
      rewrite Heq in *; clear Heq;
      cbn [supply SpanContextFromContext] in Hop, Hcl
  end.

Ltac call_getTemperature res evs Hop Hcl Hst Hreqs Hres :=
  match goal with
  | |- context [ServiceB.getTemperature ?c ?k ?x ?t ?s ?g] =>
      let Heq := fresh "Heq" in
      destruct (getTemperature_run c k x t s g)
        as (res & evs & Heq & Hop & Hcl & Hst & Hreqs & Hres);
      rewrite Heq in *; clear Heq;
      cbn [supply SpanContextFromContext] in Hop, Hcl
  end.

Section providers.
Variable httpClient : Request -> result Response.
Variable WEATHER_API_KEY : string.

(** When the lookup URL is well formed and the geocoding provider names a
    locality, the resolver resolves to it. *)
Lemma resolves_intro (cep loc : string) (u : URL) :
  url_Parse (lookup_url cep) = Ok u ->
  (forall req, Host (URL_ req) = "viacep.com.br" -> names_locality (httpClient req) loc) ->
  resolves httpClient cep loc.
Proof.
  intros Hu Hnames ctx tracer g.
  destruct (getLocation_run httpClient ctx tracer cep g)
    as (res & evs & -> & _ & _ & _ & Hreqs & Hres).
  simpl. destruct res as [loc' | e].
  - destruct Hres as (req & Hreq & Hloc). rewrite Hreq in Hreqs.
    apply Forall_inv in Hreqs.
    now rewrite (names_locality_unique _ _ _ Hloc (Hnames req Hreqs)).
  - exfalso. destruct Hres as [[_ [e' He']] | (req & Hreq & Hfail)]; [congruence |].
    rewrite Hreq in Hreqs. apply Forall_inv in Hreqs.
    exact (names_locality_not_fails _ _ (Hnames req Hreqs) Hfail).
Qed.


End providers.

(** ** The backend's paths *)

(** The backend's validation failure: 422, and no resolver runs. *)
Lemma backend_invalid_run (httpClient : Request -> result Response)
    (WEATHER_API_KEY : string) (seed : positive) (r : Request) :
  len (Values_Get (URL_Query (URL_ r)) "cep") <> 8%Z ->
  let out := serve (ServiceB.getWeatherHandler httpClient WEATHER_API_KEY) seed r in
  answers out http_StatusUnprocessableEntity "invalid zipcode"
  /\ started out.2 = ["getWeatherHandler"]
  /\ requests out.2 = [].
Proof.
  intros Hlen%Z.eqb_neq.
  unfold serve, ServiceB.getWeatherHandler. run. rewrite Hlen. run.
  repeat split. eexists. repeat split.
Qed.

(** The backend past its validation: the geocode resolver runs, and the reply
    is one of 404, 500 and 200. *)
Lemma backend_valid_run (httpClient : Request -> result Response)
    (WEATHER_API_KEY : string) (seed : positive) (r : Request) :
  len (Values_Get (URL_Query (URL_ r)) "cep") = 8%Z ->
  let out := serve (ServiceB.getWeatherHandler httpClient WEATHER_API_KEY) seed r in
  In "getLocation from viacep" (started out.2)
  /\ exists reply, out.1 = Some reply
       /\ (Code reply = http_StatusNotFound \/ Code reply = http_StatusInternalServerError
           \/ Code reply = http_StatusOK).
Proof.
  intros Hlen%Z.eqb_eq.
  unfold serve, ServiceB.getWeatherHandler. run. rewrite Hlen. run.
  call_getLocation res evs Hop Hcl Hst Hreqs Hres. run.
  destruct res as [loc | e]; run.
  2:{ split; [read_trace; rewrite Hst; simpl; auto |]. eexists. split; [reflexivity |]. auto. }
  call_getTemperature res' evs' Hop' Hcl' Hst' Hreqs' Hres'. run.
  destruct res' as [c | e]; run.
  2:{ split; [read_trace; rewrite Hst; simpl; auto |]. eexists. split; [reflexivity |]. auto. }
  destruct (_ && _); run.
  all: split; [read_trace; rewrite Hst; simpl; auto |]; eexists; split; [reflexivity |]; auto.
Qed.

Section backend_spans.
Variable httpClient : Request -> result Response.
Variable WEATHER_API_KEY : string.

Lemma backend_spans_balanced (seed : positive) (r : Request) :
  spans_balanced (serve (ServiceB.getWeatherHandler httpClient WEATHER_API_KEY) seed r).2.
Proof.
  unfold serve, ServiceB.getWeatherHandler. run.
  set (parent := SpanContextFromContext (Extract (Ctx r) (ReqHeader r))).
  pose proof (new_span_IsValid parent seed) as Hvalid.
  destruct (new_span_fresh parent seed) as (p & Hp & Hle & Hafter).
  set (h := new_span parent seed) in *.
  destruct (negb (len _ =? 8)%Z); run.
  { now apply (spans_balanced_single h). }
  call_getLocation res evs Hop Hcl Hst Hreqs Hres. run.
  destruct (new_span_child h (after_span parent seed) Hvalid) as [Hl Hafter_l].
  set (l := new_span h (after_span parent seed)) in *.
  assert (Hhl : h <> l).
  { intros Heq. apply (f_equal SpanID) in Heq. rewrite Hp, Hl, Hafter in Heq.
    injection Heq. lia. }
  destruct res as [loc | e]; run.
  2:{ split; read_trace; rewrite ?Hop, ?Hcl; simpl.
      - now apply NoDup_two.
      - symmetry. apply (Permutation_cons_append [l] h). }
  call_getTemperature res' evs' Hop' Hcl' Hst' Hreqs' Hres'. run.
  destruct (new_span_child h (after_span h (after_span parent seed)) Hvalid) as [Ht _].
  set (t := new_span h (after_span h (after_span parent seed))) in *.
  assert (Hht : h <> t).
  { intros Heq. apply (f_equal SpanID) in Heq. rewrite Hp, Ht, Hafter_l, Hafter in Heq.
    injection Heq. lia. }
  assert (Hlt : l <> t).
  { intros Heq. apply (f_equal SpanID) in Heq. rewrite Hl, Ht, Hafter_l in Heq.
    injection Heq. lia. }
  assert (Hsplit : forall tr : list event,
            opened tr = [h; l; t] -> closed tr = [l; t; h] -> spans_balanced tr).
  { intros tr Ho Hc. split; rewrite ?Ho, ?Hc.
    - now apply NoDup_three.
    - symmetry. apply (Permutation_cons_append [l; t] h). }
  destruct res' as [c | e]; run.
  - destruct (_ && _); run; apply Hsplit; read_trace; now rewrite ?Hop, ?Hcl, ?Hop', ?Hcl'.
  - apply Hsplit; read_trace; now rewrite ?Hop, ?Hcl, ?Hop', ?Hcl'.
Qed.

End backend_spans.

(** ** The edge's paths *)

Lemma edge_test_true (c : ServiceA.Cep) (err : option error) :
  is_Some err \/ len (ServiceA.Cep_ c) <> ServiceA.CEP_LENGTH ->
  bool_decide (is_Some err) || negb (len (ServiceA.Cep_ c) =? ServiceA.CEP_LENGTH)%Z = true.
Proof.
  intros [H | H%Z.eqb_neq].
  - now rewrite bool_decide_eq_true_2.
  - rewrite H. apply orb_true_r.
Qed.

Lemma edge_test_false (c : ServiceA.Cep) :
  len (ServiceA.Cep_ c) = ServiceA.CEP_LENGTH ->
  negb (len (ServiceA.Cep_ c) =? ServiceA.CEP_LENGTH)%Z = false.
Proof. intros H%Z.eqb_eq. now rewrite H. Qed.

Section edge.
Variable DefaultClient : Request -> result Response.

(** The validation failure: 422, and nothing is sent. *)
Lemma edge_invalid_run (seed : positive) (r : Request) (c : ServiceA.Cep) (err : option error) :
  json_Decoder_Decode ServiceA.store_Cep (ReqBody r) {| ServiceA.Cep_ := "" |} = (c, err) ->
  is_Some err \/ len (ServiceA.Cep_ c) <> ServiceA.CEP_LENGTH ->
  let out := serve (ServiceA.postCepHandler DefaultClient) seed r in
  answers out http_StatusUnprocessableEntity "invalid zipcode"
  /\ requests out.2 = [].
Proof.
  intros Hdec Hbad%edge_test_true.
  unfold serve, ServiceA.postCepHandler. run. rewrite Hdec. run. rewrite Hbad. run.
  split; [| reflexivity]. eexists. repeat split.
Qed.

(** A valid body: the trace opens the handler's span, and either the URL does
    not parse and nothing is sent, or exactly one request is sent, which is
    the parsed URL with the span's trace context injected. *)
Lemma edge_valid_run (seed : positive) (r : Request) (c : ServiceA.Cep) :
  json_Decoder_Decode ServiceA.store_Cep (ReqBody r) {| ServiceA.Cep_ := "" |} = (c, None) ->
  len (ServiceA.Cep_ c) = ServiceA.CEP_LENGTH ->
  let out := serve (ServiceA.postCepHandler DefaultClient) seed r in
  let parent := SpanContextFromContext (Extract (Ctx r) (ReqHeader r)) in
  let span := new_span parent seed in
  opened out.2 = [span] /\ closed out.2 = [span] /\
  match http_NewRequestWithContext {| SpanContextFromContext := span |} http_MethodGet
          (ServiceA.getTempEndpoint ++ "?cep=" ++ ServiceA.Cep_ c) with
  | Err e =>
      requests out.2 = []
      /\ answers out http_StatusInternalServerError
           ("NewRequestWithContext service b error: " ++ e)
  | Ok req =>
      let sent := Inject {| SpanContextFromContext := span |} req in
      requests out.2 = [sent] /\
      match DefaultClient sent with
      | Err e =>
          answers out http_StatusInternalServerError
            ("DefaultClient.Do service b error: " ++ e)
      | Ok resp =>
          if (StatusCode resp =? http_StatusNotFound)%Z
          then answers out http_StatusNotFound "can not find zipcode"
          else True
      end
  end.
Proof.
  intros Hdec Hok%edge_test_false.
  unfold serve, ServiceA.postCepHandler. run. rewrite Hdec. run. rewrite Hok. run.
  destruct (http_NewRequestWithContext _ _ _) as [req | e]; run.
  2:{ repeat split. eexists. repeat split. }
  set (sent := Inject _ req).
  destruct (DefaultClient sent) as [resp | e]; run.
  2:{ repeat split. eexists. repeat split. }
  destruct (StatusCode resp =? http_StatusNotFound)%Z eqn:Hcode.
  - apply Z.eqb_eq in Hcode. rewrite Hcode. run. repeat split. eexists. repeat split.
  - run.
    repeat (match goal with |- context [if ?b then _ else _] => destruct b end; run);
      repeat split.
Qed.

(** Every span the edge opens is closed exactly once, on every path. *)
Lemma edge_spans_balanced (seed : positive) (r : Request) :
  spans_balanced (serve (ServiceA.postCepHandler DefaultClient) seed r).2.
Proof.
  destruct (json_Decoder_Decode ServiceA.store_Cep (ReqBody r) {| ServiceA.Cep_ := "" |})
    as [c err] eqn:Hdec.
  assert (Hcases : (is_Some err \/ len (ServiceA.Cep_ c) <> ServiceA.CEP_LENGTH)
                   \/ (err = None /\ len (ServiceA.Cep_ c) = ServiceA.CEP_LENGTH)).
  { destruct err; [left; left; eauto |].
    destruct (Z.eq_dec (len (ServiceA.Cep_ c)) ServiceA.CEP_LENGTH); auto. }
  destruct Hcases as [Hbad%edge_test_true | [-> Hok]].
  - unfold serve, ServiceA.postCepHandler. run. rewrite Hdec. run. rewrite Hbad. run.
    eapply spans_balanced_single; reflexivity.
  - destruct (edge_valid_run seed r c Hdec Hok) as (Ho & Hc & _).
    eapply spans_balanced_single; eassumption.
Qed.

End edge.

Section edge_forward.
Variable DefaultClient : Request -> result Response.

(** C8 for well-behaved codes: an alphanumeric code of 8 bytes is forwarded in
    exactly one GET request to the backend, as its [cep] parameter, with the
    handler's span in the [traceparent] header. *)
Lemma edge_forwards_alphanumeric_code (seed : positive) (r : Request) (c : ServiceA.Cep) :
  json_Decoder_Decode ServiceA.store_Cep (ReqBody r) {| ServiceA.Cep_ := "" |} = (c, None) ->
  len (ServiceA.Cep_ c) = ServiceA.CEP_LENGTH ->
  alphanumeric (ServiceA.Cep_ c) = true ->
  let out := serve (ServiceA.postCepHandler DefaultClient) seed r in
  exists req span,
    requests out.2 = [req] /\ opened out.2 = [span]
    /\ Method req = "GET"
    /\ Host (URL_ req) = "service-b:8000" /\ Path (URL_ req) = "/"
    /\ Values_Get (URL_Query (URL_ req)) "cep" = ServiceA.Cep_ c
    /\ Header_Get (ReqHeader req) "traceparent" = traceparent span.
Proof.
  intros Hdec Hlen Hcode out.
  pose proof (edge_valid_run DefaultClient seed r c Hdec Hlen) as (Hop & _ & Hrun).
  fold out in Hop, Hrun. unfold http_NewRequestWithContext in Hrun.
  rewrite (forward_url_parses _ Hcode) in Hrun. destruct Hrun as [Hone _].
  eexists _, _. split; [exact Hone |]. split; [exact Hop |].
  unfold Inject. cbn [SpanContextFromContext]. rewrite new_span_IsValid.
  cbn [Method URL_ ReqHeader Host Path].
  split; [reflexivity |]. split; [reflexivity |]. split; [reflexivity |].
  split; [apply forward_query_cep, Hcode | apply Header_Get_Set].
Qed.

End edge_forward.

(** The URL of a request the edge builds for a known code, computed. *)
Ltac parse_known_url H :=
  unfold http_NewRequestWithContext in H;
  match type of H with
  | context [url_Parse ?u] =>
      let v := eval vm_compute in (url_Parse u) in
      change (url_Parse u) with v in H
  end;
  cbv beta iota zeta in H.

(** A code with a control character: the URL does not parse, the edge answers
    500 and sends nothing. *)
Lemma edge_refuses_control_character (DefaultClient : Request -> result Response)
    (seed : positive) :
  let code := String (ascii_of_N 9) "1234567" in
  let out := serve (ServiceA.postCepHandler DefaultClient) seed
               (post_request (cep_body code)) in
  len code = 8%Z
  /\ requests out.2 = []
  /\ exists reply, out.1 = Some reply /\ Code reply = http_StatusInternalServerError.
Proof.
  intros code out. split; [reflexivity |].
  pose proof (edge_valid_run DefaultClient seed (post_request (cep_body code))
                {| ServiceA.Cep_ := code |} eq_refl eq_refl) as (_ & _ & Hrun).
  fold out in Hrun. parse_known_url Hrun.
  destruct Hrun as [Hnone (reply & Hreply & Hcode & _)].
  split; [exact Hnone |]. now exists reply.
Qed.

(** ** The sample providers *)

Lemma providers_geo (geo wea : result Response) (req : Request) :
  Host (URL_ req) = "viacep.com.br" -> providers geo wea req = geo.
Proof. intros H. unfold providers. now rewrite H. Qed.


Lemma sao_paulo_named : names_locality (Ok geo_sao_paulo) "São Paulo".
Proof.
  eexists _, _. split; [reflexivity |]. split; [reflexivity |].
  split; [eexists; split; reflexivity |]. vm_compute. reflexivity.
Qed.

Lemma sao_paulo_resolves (wea : result Response) :
  resolves (providers (Ok geo_sao_paulo) wea) "01001000" "São Paulo".
Proof.
  eapply resolves_intro; [vm_compute; reflexivity |].
  intros req Hreq. rewrite (providers_geo _ _ _ Hreq). apply sao_paulo_named.
Qed.



Lemma unknown_code_fails : lookup_fails (Ok geo_unknown).
Proof.
  eapply lookup_no_locality; [reflexivity | eexists; split; reflexivity |].
  intros s. vm_compute. discriminate.
Qed.

(** The transport that answers by the request, on the requests of the two
    resolvers. *)
Lemma partial_providers_Inject (ctx : context) (req : Request) :
  partial_providers (Inject ctx req) = partial_providers req.
Proof. unfold partial_providers. now rewrite Inject_URL. Qed.

Lemma sao_paulo_resolves_partially :
  resolves partial_providers "01001000" "São Paulo".
Proof.
  intros ctx tracer g. unfold ServiceB.getLocation, http_NewRequestWithContext.
  match goal with
  | |- context [url_Parse ?u] =>
      let v := eval vm_compute in (url_Parse u) in change (url_Parse u) with v
  end.
  run. rewrite partial_providers_Inject.
  match goal with
  | |- context [partial_providers ?q] =>
      change (partial_providers q) with (@Ok Response geo_sao_paulo)
  end.
  run. reflexivity.
Qed.

(** What the backend sends over that transport: for the code 99999999 one
    lookup, answered without a locality; for the code 01001000 a lookup and a
    request to the weather provider, which is out of service for São Paulo. *)
Lemma unknown_code_is_looked_up :
  exists lookup,
    requests (serve (ServiceB.getWeatherHandler partial_providers "key")
                1 (get_request "cep=99999999")).2 = [lookup]
    /\ partial_providers lookup = Ok geo_unknown.
Proof. eexists. split; vm_compute; reflexivity. Qed.

Lemma sao_paulo_weather_is_down :
  exists lookup fetch,
    requests (serve (ServiceB.getWeatherHandler partial_providers "key")
                1 (get_request "cep=01001000")).2 = [lookup; fetch]
    /\ Host (URL_ lookup) = "viacep.com.br"
    /\ partial_providers fetch = Ok weather_down.
Proof.
  eexists _, _. split; [vm_compute; reflexivity |]. split; vm_compute; reflexivity.
Qed.

(** * The claims *)




(** C2. On every path of either handler, every span that was opened is closed
    exactly once; in particular as many spans are closed as were opened.  The
    backend's trace holds the spans of the two resolvers it calls. *)
Theorem spans_closed_exactly_once (DefaultClient httpClient : Request -> result Response)
    (WEATHER_API_KEY : string) (seed seed' : positive) (r r' : Request) :
  let edge := (serve (ServiceA.postCepHandler DefaultClient) seed r).2 in
  let backend :=
    (serve (ServiceB.getWeatherHandler httpClient WEATHER_API_KEY) seed' r').2 in
  (spans_balanced edge /\ length (closed edge) = length (opened edge))
  /\ (spans_balanced backend /\ length (closed backend) = length (opened backend)).
Proof.
  pose proof (edge_spans_balanced DefaultClient seed r) as He.
  pose proof (backend_spans_balanced httpClient WEATHER_API_KEY seed' r') as Hb.
  cbv zeta. repeat split; try apply He; try apply Hb; now apply spans_balanced_counts.
Qed.

(** C3. A body that does not decode into a [Cep], or whose code is not 8 bytes
    long, is answered with 422 "invalid zipcode", and no request is sent. *)
Theorem edge_rejects_invalid_body (DefaultClient : Request -> result Response)
    (seed : positive) (r : Request) (c : ServiceA.Cep) (err : option error) :
  json_Decoder_Decode ServiceA.store_Cep (ReqBody r) {| ServiceA.Cep_ := "" |} = (c, err) ->
  is_Some err \/ len (ServiceA.Cep_ c) <> ServiceA.CEP_LENGTH ->
  let out := serve (ServiceA.postCepHandler DefaultClient) seed r in
  answers out http_StatusUnprocessableEntity "invalid zipcode"
  /\ requests out.2 = [].
Proof. apply edge_invalid_run. Qed.

Lemma edge_rejects_invalid_body_witness :
  let out := serve (ServiceA.postCepHandler (fun _ => Ok backend_not_found)) 1
               (post_request (cep_body "1234567")) in
  answers out 422 "invalid zipcode" /\ requests out.2 = [].
Proof.
  apply (edge_rejects_invalid_body (fun _ => Ok backend_not_found) 1
           (post_request (cep_body "1234567")) {| ServiceA.Cep_ := "1234567" |} None).
  - reflexivity.
  - right. vm_compute. discriminate.
Defined.

(** C4. A backend request whose [cep] parameter is not 8 bytes long, a missing
    one included, is answered with 422 "invalid zipcode"; no resolver span is
    opened and no request is sent. *)
Theorem backend_rejects_other_lengths (httpClient : Request -> result Response)
    (WEATHER_API_KEY : string) (seed : positive) (r : Request) :
  len (Values_Get (URL_Query (URL_ r)) "cep") <> 8%Z ->
  let out := serve (ServiceB.getWeatherHandler httpClient WEATHER_API_KEY) seed r in
  answers out http_StatusUnprocessableEntity "invalid zipcode"
  /\ started out.2 = ["getWeatherHandler"]
  /\ requests out.2 = [].
Proof. apply backend_invalid_run. Qed.

Lemma backend_rejects_other_lengths_witness :
  let out := serve (ServiceB.getWeatherHandler
                      (providers (Ok geo_sao_paulo) (Ok weather_28_5)) "key")
               1 (get_request "") in
  answers out 422 "invalid zipcode"
  /\ started out.2 = ["getWeatherHandler"]
  /\ requests out.2 = [].
Proof.
  apply (backend_rejects_other_lengths
           (providers (Ok geo_sao_paulo) (Ok weather_28_5)) "key" 1 (get_request "")).
  vm_compute. discriminate.
Defined.

(** C5. For a code of 8 bytes, when the geocoding provider fails the lookup
    of this run, that is, each request the handler sent to viacep.com.br was
    answered by a failure (the transport fails, the status is not 200, the
    body does not read or decode, or the decoded body has no string
    ["localidade"]), the backend answers 404 "can not find zipcode"; the only
    spans opened are the handler's and the geocode resolver's, and every
    request sent went to viacep.com.br, so the temperature resolver did not
    run.  Nothing is asked of what the provider answers to other requests. *)
Theorem geocode_failure_is_404 (httpClient : Request -> result Response)
    (WEATHER_API_KEY : string) (seed : positive) (r : Request) :
  len (Values_Get (URL_Query (URL_ r)) "cep") = 8%Z ->
  let out := serve (ServiceB.getWeatherHandler httpClient WEATHER_API_KEY) seed r in
  (forall req, In req (requests out.2) -> Host (URL_ req) = "viacep.com.br" ->
               lookup_fails (httpClient req)) ->
  answers out http_StatusNotFound "can not find zipcode"
  /\ started out.2 = ["getWeatherHandler"; "getLocation from viacep"]
  /\ Forall (fun req => Host (URL_ req) = "viacep.com.br") (requests out.2).
Proof.
  intros Hlen%Z.eqb_eq out. subst out.
  unfold serve, ServiceB.getWeatherHandler. run. rewrite Hlen. run.
  call_getLocation res evs Hop Hcl Hst Hreqs Hres. run.
  destruct res as [loc | e]; run.
  2:{ intros _. repeat split.
      - eexists. repeat split.
      - read_trace. now rewrite Hst.
      - read_trace. now rewrite app_nil_r. }
  intros Hfails. exfalso.
  destruct Hres as (req & Hreq & Hloc). rewrite Hreq in Hreqs. apply Forall_inv in Hreqs.
  apply (names_locality_not_fails _ _ Hloc). apply Hfails; [| exact Hreqs].
  call_getTemperature res' evs' Hop' Hcl' Hst' Hreqs' Hres'. run.
  assert (Hin : forall tail : list event,
            In req (requests ((SpanStart "getWeatherHandler"
                                 (new_span (SpanContextFromContext
                                              (Extract (Ctx r) (ReqHeader r))) seed)
                                 (SpanContextFromContext (Extract (Ctx r) (ReqHeader r)))
                               :: evs ++ evs') ++ tail)%list)).
  { intros tail. read_trace. rewrite Hreq. now left. }
  destruct res' as [c | e]; run; [destruct (_ && _); run |]; apply Hin.
Qed.

Lemma geocode_failure_is_404_witness :
  let out := serve (ServiceB.getWeatherHandler partial_providers "key")
               1 (get_request "cep=99999999") in
  answers out 404 "can not find zipcode"
  /\ started out.2 = ["getWeatherHandler"; "getLocation from viacep"]
  /\ Forall (fun req => Host (URL_ req) = "viacep.com.br") (requests out.2).
Proof.
  apply (geocode_failure_is_404 partial_providers "key" 1 (get_request "cep=99999999")).
  - reflexivity.
  - destruct unknown_code_is_looked_up as (lookup & Hsent & Hlookup).
    intros req Hin _. rewrite Hsent in Hin. destruct Hin as [Hreq | []]. subst req.
    rewrite Hlookup. apply unknown_code_fails.
Defined.

(** C6. For a code of 8 bytes that the geocode resolver resolves to a locality,
    when the weather provider fails the request of this run, that is, each
    request the handler sent to api.weatherapi.com was answered by a failure
    (the transport fails, the status is not 200, the body does not read or
    decode, or the decoded body has no number at [current.temp_c]), the
    backend answers 500 "error fetching temperature".  Nothing is asked of
    what the provider answers to other requests. *)
Theorem temperature_failure_is_500 (httpClient : Request -> result Response)
    (WEATHER_API_KEY : string) (seed : positive) (r : Request) (loc : string) :
  len (Values_Get (URL_Query (URL_ r)) "cep") = 8%Z ->
  resolves httpClient (Values_Get (URL_Query (URL_ r)) "cep") loc ->
  let out := serve (ServiceB.getWeatherHandler httpClient WEATHER_API_KEY) seed r in
  (forall req, In req (requests out.2) -> Host (URL_ req) = "api.weatherapi.com" ->
               fetch_fails (httpClient req)) ->
  answers out http_StatusInternalServerError "error fetching temperature".
Proof.
  intros Hlen%Z.eqb_eq Hloc out. subst out.
  unfold serve, ServiceB.getWeatherHandler. run. rewrite Hlen. run.
  match goal with |- context [ServiceB.getLocation ?c ?x ?t ?s ?g] =>
    pose proof (Hloc x t g) as Hrun end.
  call_getLocation res evs Hop Hcl Hst Hreqs Hres.
  simpl in Hrun. injection Hrun as ->. run.
  call_getTemperature res' evs' Hop' Hcl' Hst' Hreqs' Hres'. run.
  destruct res' as [c | e]; run.
  2:{ intros _. eexists. repeat split. }
  destruct Hres' as (req & Hreq & Hc). rewrite Hreq in Hreqs'. apply Forall_inv in Hreqs'.
  assert (Hin : forall tail : list event,
            In req (requests ((SpanStart "getWeatherHandler"
                                 (new_span (SpanContextFromContext
                                              (Extract (Ctx r) (ReqHeader r))) seed)
                                 (SpanContextFromContext (Extract (Ctx r) (ReqHeader r)))
                               :: evs ++ evs') ++ tail)%list)).
  { intros tail. read_trace. rewrite Hreq, !in_app_iff. left. right. now left. }
  destruct (_ && _); run; intros Hfails; exfalso;
    apply (gives_temp_c_not_fails _ _ Hc); (apply Hfails; [apply Hin | exact Hreqs']).
Qed.

Lemma temperature_failure_is_500_witness :
  answers (serve (ServiceB.getWeatherHandler partial_providers "key")
             1 (get_request "cep=01001000"))
          500 "error fetching temperature".
Proof.
  apply (temperature_failure_is_500 partial_providers "key" 1
           (get_request "cep=01001000") "São Paulo").
  - reflexivity.
  - apply sao_paulo_resolves_partially.
  - destruct sao_paulo_weather_is_down as (lookup & fetch & Hsent & Hlookup & Hfetch).
    intros req Hin Hhost. rewrite Hsent in Hin.
    destruct Hin as [Hreq | [Hreq | []]]; subst req.
    + rewrite Hlookup in Hhost. discriminate Hhost.
    + rewrite Hfetch. apply fetch_status. vm_compute. discriminate.
Defined.

(** C7. When the response to the request the edge forwarded has status 404,
    the edge answers 404 "can not find zipcode", whatever the body of that
    response. *)
Theorem edge_relays_404 (DefaultClient : Request -> result Response)
    (seed : positive) (r : Request) (req : Request) (resp : Response) :
  let out := serve (ServiceA.postCepHandler DefaultClient) seed r in
  In req (requests out.2) ->
  DefaultClient req = Ok resp ->
  StatusCode resp = http_StatusNotFound ->
  answers out http_StatusNotFound "can not find zipcode".
Proof.
  intros out Hsent Hresp Hcode.
  destruct (json_Decoder_Decode ServiceA.store_Cep (ReqBody r) {| ServiceA.Cep_ := "" |})
    as [c err] eqn:Hdec.
  assert (Hcases : (is_Some err \/ len (ServiceA.Cep_ c) <> ServiceA.CEP_LENGTH)
                   \/ (err = None /\ len (ServiceA.Cep_ c) = ServiceA.CEP_LENGTH)).
  { destruct err; [left; left; eauto |].
    destruct (Z.eq_dec (len (ServiceA.Cep_ c)) ServiceA.CEP_LENGTH); auto. }
  destruct Hcases as [Hbad | [-> Hok]].
  - destruct (edge_invalid_run DefaultClient seed r c err Hdec Hbad) as [_ Hnone].
    fold out in Hnone. rewrite Hnone in Hsent. destruct Hsent.
  - pose proof (edge_valid_run DefaultClient seed r c Hdec Hok) as (_ & _ & Hrun).
    fold out in Hrun.
    destruct (http_NewRequestWithContext _ _ _) as [req0 | e].
    2:{ destruct Hrun as [Hnone _]. rewrite Hnone in Hsent. destruct Hsent. }
    destruct Hrun as [Hone Hrun]. rewrite Hone in Hsent.
    destruct Hsent as [<- | []]. rewrite Hresp, Hcode in Hrun. exact Hrun.
Qed.

Lemma edge_relays_404_witness :
  answers (serve (ServiceA.postCepHandler (fun _ => Ok backend_not_found)) 1
             (post_request (cep_body "99999999")))
          404 "can not find zipcode".
Proof.
  eapply (edge_relays_404 (fun _ => Ok backend_not_found) 1
            (post_request (cep_body "99999999")) _ backend_not_found).
  - vm_compute. left. reflexivity.
  - reflexivity.
  - reflexivity.
Defined.

(** C8, at the input on which the code departs from it.  The code [1234&678]
    is 8 bytes long and is forwarded, in one request, but written into the
    query unescaped: the [cep] parameter of the request is [1234]. *)
Theorem edge_forwards_code_unescaped (DefaultClient : Request -> result Response)
    (seed : positive) :
  let out := serve (ServiceA.postCepHandler DefaultClient) seed
               (post_request (cep_body "1234&678")) in
  exists req,
    requests out.2 = [req]
    /\ RawQuery (URL_ req) = "cep=1234&678"
    /\ Values_Get (URL_Query (URL_ req)) "cep" = "1234".
Proof.
  intros out.
  pose proof (edge_valid_run DefaultClient seed (post_request (cep_body "1234&678"))
                {| ServiceA.Cep_ := "1234&678" |} eq_refl eq_refl) as (_ & _ & Hrun).
  fold out in Hrun. parse_known_url Hrun.
  destruct Hrun as [Hone _].
  eexists. split; [exact Hone |].
  rewrite Inject_URL. split; vm_compute; reflexivity.
Qed.

(** C9, amended.  For every 200 response the temperature resolver receives
    whose body decodes and holds a number at [current.temp_c], written as an
    integer or with a fraction or an exponent, the resolver returns the float
    nearest to that number. *)
Theorem temp_c_number_is_returned (httpClient : Request -> result Response)
    (WEATHER_API_KEY : string) (ctx : context) (tracer : Tracer) (location : string)
    (g : goroutine) (req : Request) (resp : Response) (j current : json) (d : number)
    (m : gmap string any) :
  let run := ServiceB.getTemperature httpClient WEATHER_API_KEY ctx tracer location g in
  requests (trace run.2) = (requests (trace g) ++ [req])%list ->
  httpClient req = Ok resp ->
  StatusCode resp = http_StatusOK ->
  Body resp = Reader (JSONText j) ->
  json_Unmarshal_map (JSONText j) = Ok m ->
  json_member "current" j = Some current ->
  json_member "temp_c" current = Some (JNumber d) ->
  exists f, strconv_ParseFloat d = Ok f /\ run.1 = Some (Ok f).
Proof.
  intros run Hsent Hresp Hcode Hbody Hm Hcur Hnum.
  destruct (number_gives_temp_c resp j current d m Hcode Hbody Hm Hcur Hnum)
    as (f & Hf & Hgives).
  exists f. split; [assumption |].
  subst run.
  destruct (getTemperature_run httpClient WEATHER_API_KEY ctx tracer location g)
    as (res & evs & Heq & _ & _ & _ & _ & Hres).
  rewrite Heq in *. simpl in *.
  rewrite requests_app in Hsent. apply app_inv_head in Hsent.
  rewrite <- Hresp in Hgives.
  destruct res as [c | e].
  - destruct Hres as (req' & Hreq' & Hc). rewrite Hsent in Hreq'. injection Hreq' as <-.
    now rewrite (gives_temp_c_unique _ _ _ Hc Hgives).
  - exfalso. destruct Hres as [[Hnone _] | (req' & Hreq' & Hfail)].
    + now rewrite Hsent in Hnone.
    + rewrite Hsent in Hreq'. injection Hreq' as <-.
      exact (gives_temp_c_not_fails _ _ Hgives Hfail).
Qed.

Lemma temp_c_number_is_returned_witness :
  exists f,
    strconv_ParseFloat (Integer false 28) = Ok f
    /\ (ServiceB.getTemperature (fun _ => Ok weather_28) "key" context_Background
          (otel_Tracer "getWeatherHandler") "Rio" (new_goroutine 1)).1 = Some (Ok f).
Proof.
  eapply (temp_c_number_is_returned (fun _ => Ok weather_28) "key" context_Background
            (otel_Tracer "getWeatherHandler") "Rio" (new_goroutine 1) _ weather_28).
  - vm_compute. reflexivity.
  - reflexivity.
  - reflexivity.
  - reflexivity.
  - reflexivity.
  - reflexivity.
  - reflexivity.
Defined.

(** C9 as stated fails: a 200 response whose [current.temp_c] is a number, an
    integer of 401 digits, is refused by the resolver, because json.Unmarshal
    refuses a number that no float64 holds. *)
Lemma huge_integer_temp_c_is_refused :
  StatusCode weather_huge = 200%Z
  /\ (exists j current,
        Body weather_huge = Reader (JSONText j)
        /\ json_member "current" j = Some current
        /\ json_member "temp_c" current = Some (JNumber (Integer false (10 ^ 400))))
  /\ (exists e,
        (ServiceB.getTemperature (fun _ => Ok weather_huge) "key" context_Background
           (otel_Tracer "getWeatherHandler") "Rio" (new_goroutine 1)).1
        = Some (Err e)).
Proof.
  split; [reflexivity |]. split.
  - eexists _, _. split; [reflexivity |]. split; reflexivity.
  - eexists. vm_compute. reflexivity.
Qed.

(** C10. Both handlers compare the byte length of the code with 8, not its
    number of characters: a code of 8 characters one of which takes two bytes
    is rejected with 422 by both, and a code of four two-byte characters is
    taken as valid by both: the edge forwards it and the backend goes on to
    the geocode resolver and answers with another status than 422. *)
Theorem validation_counts_bytes :
  (exists code,
      utf8_RuneCountInString code = 8%Z
      /\ (forall DefaultClient seed,
            answers (serve (ServiceA.postCepHandler DefaultClient) seed
                       (post_request (cep_body code)))
                    http_StatusUnprocessableEntity "invalid zipcode")
      /\ (forall httpClient key seed,
            answers (serve (ServiceB.getWeatherHandler httpClient key) seed
                       (get_request ("cep=" ++ url_QueryEscape code)))
                    http_StatusUnprocessableEntity "invalid zipcode"))
  /\ (exists code,
        (utf8_RuneCountInString code < 8)%Z
        /\ len code = 8%Z
        /\ (forall DefaultClient seed,
              exists req,
                requests (serve (ServiceA.postCepHandler DefaultClient) seed
                            (post_request (cep_body code))).2 = [req]
                /\ Values_Get (URL_Query (URL_ req)) "cep" = code)
        /\ (forall httpClient key seed,
              let out := serve (ServiceB.getWeatherHandler httpClient key) seed
                           (get_request ("cep=" ++ url_QueryEscape code)) in
              In "getLocation from viacep" (started out.2)
              /\ exists reply, out.1 = Some reply
                               /\ Code reply <> http_StatusUnprocessableEntity)).
Proof.
  split.
  - exists "1234567é". split; [reflexivity |]. split.
    + intros client seed.
      refine (proj1 (edge_invalid_run client seed (post_request (cep_body "1234567é"))
                       {| ServiceA.Cep_ := "1234567é" |} None eq_refl _)).
      right. vm_compute. discriminate.
    + intros httpClient key seed.
      refine (proj1 (backend_invalid_run httpClient key seed
                       (get_request ("cep=" ++ url_QueryEscape "1234567é")) _)).
      vm_compute. discriminate.
  - exists "éééé". split; [reflexivity |]. split; [reflexivity |]. split.
    + intros client seed.
      pose proof (edge_valid_run client seed (post_request (cep_body "éééé"))
                    {| ServiceA.Cep_ := "éééé" |} eq_refl eq_refl) as (_ & _ & Hrun).
      parse_known_url Hrun. destruct Hrun as [Hone _].
      eexists. split; [exact Hone |].
      rewrite Inject_URL. vm_compute. reflexivity.
    + intros httpClient key seed.
      destruct (backend_valid_run httpClient key seed
                  (get_request ("cep=" ++ url_QueryEscape "éééé")) eq_refl)
        as (Hloc & reply & Hreply & Hcode).
      split; [exact Hloc |]. exists reply. split; [exact Hreply |].
      unfold http_StatusNotFound, http_StatusInternalServerError, http_StatusOK,
        http_StatusUnprocessableEntity in *.
      lia.
Qed.

(** * More of the two programs

    What follows goes beyond the claims: the helper lemmas first, then the
    properties themselves, for the backend, its resolvers, the edge, and the
    two services together. *)

(** ** Query escaping *)

Ltac each_byte c := destruct c as [[] [] [] [] [] [] [] []].

(** What [url.QueryEscape] writes for the byte in the goal, computed. *)
Ltac escaped_byte :=
  match goal with
  | |- context [url_QueryEscape ?x] =>
      let v := eval vm_compute in (url_QueryEscape x) in
      change (url_QueryEscape x) with v
  end.

Lemma QueryEscape_cons (c : ascii) (s : string) :
  url_QueryEscape (String c s) = url_QueryEscape (String c "") ++ url_QueryEscape s.
Proof.
  simpl. destruct (shouldEscape c encodeQueryComponent); [| reflexivity].
  destruct (Ascii.eqb c " "); reflexivity.
Qed.

(** Unescaping what was written for one byte gives the byte back. *)
Lemma unescape_escaped_byte (c : ascii) (t : string) :
  unescape (url_QueryEscape (String c "") ++ t) encodeQueryComponent =
    match unescape t encodeQueryComponent with
    | Ok u => Ok (String c u)
    | Err e => Err e
    end.
Proof.
  each_byte c;
    escaped_byte;
    rewrite ?append_cons, append_empty; simpl;
    destruct (unescape t encodeQueryComponent); reflexivity.
Qed.

Lemma QueryUnescape_QueryEscape (s : string) :
  url_QueryUnescape (url_QueryEscape s) = Ok s.
Proof.
  unfold url_QueryUnescape. induction s as [| c s IH]; [reflexivity |].
  now rewrite QueryEscape_cons, unescape_escaped_byte, IH.
Qed.

(** The bytes it writes: those that need no escape, [%] and [+]. *)
Lemma escaped_byte_bytes (c x : ascii) :
  strings_ContainsByte (url_QueryEscape (String c "")) x = true ->
  shouldEscape x encodeQueryComponent = false \/ x = "%"%char \/ x = "+"%char.
Proof.
  each_byte c;
    escaped_byte;
    cbn [strings_ContainsByte];
    repeat match goal with
      | |- context [Ascii.eqb ?a x] =>
          destruct (Ascii.eqb_spec a x) as [<- | _]; [intros _; vm_compute; auto |]
      end;
    discriminate.
Qed.

Lemma QueryEscape_bytes (s : string) (x : ascii) :
  shouldEscape x encodeQueryComponent = true -> x <> "%"%char -> x <> "+"%char ->
  strings_ContainsByte (url_QueryEscape s) x = false.
Proof.
  intros Hx Hp Hq. induction s as [| c s IH]; [reflexivity |].
  rewrite QueryEscape_cons, strings_ContainsByte_app, IH, orb_false_r.
  destruct (strings_ContainsByte (url_QueryEscape (String c "")) x) eqn:H; [| reflexivity].
  apply escaped_byte_bytes in H as [H | [H | H]]; congruence.
Qed.

Lemma QueryEscape_no_CTL (s : string) : stringContainsCTLByte (url_QueryEscape s) = false.
Proof.
  induction s as [| c s IH]; [reflexivity |].
  rewrite QueryEscape_cons, stringContainsCTLByte_app, IH, orb_false_r.
  each_byte c; reflexivity.
Qed.

(** ** The URLs the resolvers build *)

(** A text without [%] (and, in a query, without [+]) is its own unescaping. *)
Lemma unescape_plain (s : string) (mode : encoding) :
  mode <> encodeHost ->
  strings_ContainsByte s "%" = false ->
  (mode = encodeQueryComponent -> strings_ContainsByte s "+" = false) ->
  unescape s mode = Ok s.
Proof.
  intros Hmode. induction s as [| a s IH]; [reflexivity |].
  cbn [strings_ContainsByte]. intros [Ha Hs]%orb_false_iff Hplus.
  assert (Hplus' : mode = encodeQueryComponent ->
                   Ascii.eqb a "+" = false /\ strings_ContainsByte s "+" = false)
    by (intros Hq; apply orb_false_iff, Hplus, Hq).
  cbn [unescape]. rewrite Ha, IH; [| assumption | intros Hq; apply Hplus', Hq].
  destruct mode; try reflexivity; try contradiction.
  now destruct (Hplus' eq_refl) as [-> _].
Qed.

(** The weather URL parses for every location, when the key is alphanumeric. *)
Lemma weather_url_parses (key location : string) :
  alphanumeric key = true ->
  url_Parse (weather_url key location) =
    Ok {| Scheme := "http"; Opaque := ""; Host := "api.weatherapi.com";
          Path := "/v1/current.json";
          RawQuery := "key=" ++ key ++ "&q=" ++ url_QueryEscape location;
          Fragment := "" |}.
Proof.
  intros Hkey. unfold url_Parse, weather_url.
  rewrite strings_Cut_none.
  2:{ rewrite !strings_ContainsByte_app, (alphanumeric_ContainsByte key "#" Hkey eq_refl),
        (QueryEscape_bytes location "#" eq_refl) by discriminate. reflexivity. }
  unfold url_parse.
  rewrite !stringContainsCTLByte_app, (alphanumeric_no_CTL key Hkey), QueryEscape_no_CTL.
  change (stringContainsCTLByte "http://api.weatherapi.com/v1/current.json?key=") with false.
  change (stringContainsCTLByte "&q=") with false.
  cbn [orb].
  change ("http://api.weatherapi.com/v1/current.json?key=" ++ key ++ "&q="
            ++ url_QueryEscape location)
    with ("http:" ++ "//api.weatherapi.com/v1/current.json"
            ++ String "?" ("key=" ++ key ++ "&q=" ++ url_QueryEscape location)).
  rewrite getScheme_http.
  rewrite (strings_Cut_at "//api.weatherapi.com/v1/current.json" _ "?" eq_refl).
  reflexivity.
Qed.

(** The lookup URL parses for an alphanumeric code. *)
Lemma lookup_url_parses (cep : string) :
  alphanumeric cep = true ->
  url_Parse (lookup_url cep) =
    Ok {| Scheme := "http"; Opaque := ""; Host := "viacep.com.br";
          Path := "/ws/" ++ cep ++ "/json/"; RawQuery := ""; Fragment := "" |}.
Proof.
  intros Hcep. unfold url_Parse, lookup_url.
  assert (Hnone : forall k : ascii, is_alpha k || is_digit k = false ->
            strings_ContainsByte "http://viacep.com.br/ws/" k = false ->
            strings_ContainsByte "/json/" k = false ->
            strings_ContainsByte ("http://viacep.com.br/ws/" ++ cep ++ "/json/") k = false).
  { intros k Hk Hp Hs.
    now rewrite !strings_ContainsByte_app, Hp, Hs, (alphanumeric_ContainsByte cep k Hcep Hk). }
  rewrite (strings_Cut_none _ "#" (Hnone "#"%char eq_refl eq_refl eq_refl)).
  unfold url_parse.
  rewrite !stringContainsCTLByte_app, (alphanumeric_no_CTL cep Hcep).
  change (stringContainsCTLByte "http://viacep.com.br/ws/") with false.
  change (stringContainsCTLByte "/json/") with false.
  cbn [orb].
  change ("http://viacep.com.br/ws/" ++ cep ++ "/json/")
    with ("http:" ++ "//viacep.com.br/ws/" ++ cep ++ "/json/").
  rewrite getScheme_http.
  rewrite strings_Cut_none.
  2:{ now rewrite !strings_ContainsByte_app, (alphanumeric_ContainsByte cep "?" Hcep eq_refl). }
  change (strings_HasPrefix ("//viacep.com.br/ws/" ++ cep ++ "/json/") "/") with true.
  change (strings_HasPrefix ("//viacep.com.br/ws/" ++ cep ++ "/json/") "//") with true.
  change (drop2 ("//viacep.com.br/ws/" ++ cep ++ "/json/"))
    with ("viacep.com.br" ++ String "/" ("ws/" ++ cep ++ "/json/")).
  rewrite (strings_Cut_at "viacep.com.br" _ "/" eq_refl).
  change (parseAuthority "viacep.com.br") with (Ok "viacep.com.br").
  cbn [negb andb orb String.eqb Ascii.eqb Bool.eqb].
  change (String "/" ("ws/" ++ cep ++ "/json/")) with ("/ws/" ++ cep ++ "/json/").
  rewrite unescape_plain; [reflexivity | discriminate | | discriminate].
  now rewrite !strings_ContainsByte_app, (alphanumeric_ContainsByte cep "%" Hcep eq_refl).
Qed.

(** A URL with a control byte before any [#] does not parse. *)
Lemma url_Parse_control_byte (rawURL : string) :
  strings_ContainsByte rawURL "#" = false -> stringContainsCTLByte rawURL = true ->
  url_Parse rawURL = Err "net/url: invalid control character in URL".
Proof.
  intros Hhash Hctl. unfold url_Parse. rewrite (strings_Cut_none _ _ Hhash).
  unfold url_parse. now rewrite Hctl.
Qed.

(** ** Queries *)

Lemma parseQuery_empty (fuel : nat) (m : Values) : parseQuery fuel m "" = m.
Proof. now destruct fuel. Qed.

(** One pair [k=v] of a query, followed by others or not. *)
Lemma parseQuery_pair (fuel : nat) (m : Values) (rawk rawv k v rest : string) :
  strings_ContainsByte (rawk ++ String "=" rawv) "&" = false ->
  strings_ContainsByte (rawk ++ String "=" rawv) ";" = false ->
  strings_ContainsByte rawk "=" = false ->
  url_QueryUnescape rawk = Ok k -> url_QueryUnescape rawv = Ok v ->
  parseQuery (S fuel) m (rawk ++ String "=" rawv ++ String "&" rest) =
    parseQuery fuel (<[k := (default [] (m !! k) ++ [v])%list]> m) rest
  /\ parseQuery (S fuel) m (rawk ++ String "=" rawv) =
       <[k := (default [] (m !! k) ++ [v])%list]> m.
Proof.
  intros Hamp Hsemi Heq Hk Hv.
  assert (Hne : forall t, String.eqb (rawk ++ String "=" t) "" = false)
    by (intros t; destruct rawk; reflexivity).
  split; cbn [parseQuery].
  - replace (rawk ++ String "=" rawv ++ String "&" rest)
      with ((rawk ++ String "=" rawv) ++ String "&" rest)
      by (now rewrite append_assoc, append_cons).
    replace (String.eqb ((rawk ++ String "=" rawv) ++ String "&" rest) "") with false
      by (now destruct rawk).
    rewrite (strings_Cut_at _ _ _ Hamp), Hsemi, Hne, (strings_Cut_at _ _ _ Heq), Hk, Hv.
    reflexivity.
  - rewrite Hne, (strings_Cut_none _ _ Hamp), Hsemi, Hne, (strings_Cut_at _ _ _ Heq), Hk, Hv.
    apply parseQuery_empty.
Qed.

(** A later pair of a query does not change the first value of a key. *)
Lemma parseQuery_keeps_first (fuel : nat) (m : Values) (query key x : string) :
  Values_Get m key = x -> is_Some (m !! key) -> m !! key <> Some [] ->
  Values_Get (parseQuery fuel m query) key = x
  /\ is_Some (parseQuery fuel m query !! key)
  /\ parseQuery fuel m query !! key <> Some [].
Proof.
  revert m query. induction fuel as [| fuel IH]; intros m query Hget Hsome Hne; [auto |].
  cbn [parseQuery]. destruct (String.eqb query ""); [auto |].
  destruct (strings_Cut query "&") as [[pair rest] found].
  destruct (strings_ContainsByte pair ";"); [now apply IH |].
  destruct (String.eqb pair ""); [now apply IH |].
  destruct (strings_Cut pair "=") as [[rawk rawv] found'].
  destruct (url_QueryUnescape rawk) as [k |]; [| now apply IH].
  destruct (url_QueryUnescape rawv) as [v |]; [| now apply IH].
  apply IH.
  - unfold Values_Get in *. destruct (decide (k = key)) as [-> | Hk].
    + rewrite lookup_insert_eq. destruct (m !! key) as [[| y ys] |]; simpl;
        [congruence | exact Hget | now destruct Hsome].
    + now rewrite lookup_insert_ne.
  - destruct (decide (k = key)) as [-> | Hk];
      [rewrite lookup_insert_eq; eauto | now rewrite lookup_insert_ne].
  - destruct (decide (k = key)) as [-> | Hk]; [| now rewrite lookup_insert_ne].
    rewrite lookup_insert_eq. intros [= H]. now destruct (default [] (m !! key)).
Qed.

Lemma length_cons (c : ascii) (s : string) : String.length (String c s) = S (String.length s).
Proof. reflexivity. Qed.

(** The two parameters of the weather request. *)
Lemma weather_query (key location : string) :
  alphanumeric key = true ->
  let q := parseQuery (S (String.length ("key=" ++ key ++ "&q=" ++ url_QueryEscape location)))
             ∅ ("key=" ++ key ++ "&q=" ++ url_QueryEscape location) in
  Values_Get q "key" = key /\ Values_Get q "q" = location.
Proof.
  intros Hkey.
  assert (Hk : forall x : ascii, is_alpha x || is_digit x = false ->
            strings_ContainsByte ("key" ++ String "=" key) x
            = strings_ContainsByte "key=" x).
  { intros x Hx. change ("key" ++ String "=" key) with ("key=" ++ key).
    now rewrite strings_ContainsByte_app, (alphanumeric_ContainsByte key x Hkey Hx), orb_false_r. }
  assert (Hq : forall x : ascii, shouldEscape x encodeQueryComponent = true ->
            x <> "%"%char -> x <> "+"%char ->
            strings_ContainsByte ("q" ++ String "=" (url_QueryEscape location)) x
            = strings_ContainsByte "q=" x).
  { intros x H1 H2 H3. change ("q" ++ String "=" (url_QueryEscape location))
      with ("q=" ++ url_QueryEscape location).
    now rewrite strings_ContainsByte_app, (QueryEscape_bytes location x H1 H2 H3), orb_false_r. }
  change ("key=" ++ key ++ "&q=" ++ url_QueryEscape location)
    with ("key" ++ String "=" key ++ String "&" ("q" ++ String "=" (url_QueryEscape location))).
  cbv zeta.
  rewrite (proj1 (parseQuery_pair _ ∅ "key" key "key" key _
                    (Hk "&"%char eq_refl) (Hk ";"%char eq_refl) eq_refl eq_refl
                    (alphanumeric_unescape key encodeQueryComponent Hkey ltac:(discriminate)))).
  rewrite !append_cons, length_cons.
  rewrite (proj2 (parseQuery_pair _ _ "q" (url_QueryEscape location) "q" location ""
                    (Hq "&"%char eq_refl ltac:(discriminate) ltac:(discriminate))
                    (Hq ";"%char eq_refl ltac:(discriminate) ltac:(discriminate))
                    eq_refl eq_refl (QueryUnescape_QueryEscape location))).
  unfold Values_Get. split.
  - rewrite lookup_insert_ne by discriminate. now rewrite lookup_insert_eq.
  - now rewrite lookup_insert_eq, lookup_insert_ne, lookup_empty by discriminate.
Qed.

(** The backend reads a code back from the query it was escaped into. *)
Lemma escaped_query_cep (code : string) :
  Values_Get (URL_Query (URL_ (get_request ("cep=" ++ url_QueryEscape code)))) "cep" = code.
Proof.
  unfold URL_Query, get_request. cbn [URL_ RawQuery].
  assert (Hq : forall x : ascii, shouldEscape x encodeQueryComponent = true ->
            x <> "%"%char -> x <> "+"%char ->
            strings_ContainsByte ("cep" ++ String "=" (url_QueryEscape code)) x
            = strings_ContainsByte "cep=" x).
  { intros x H1 H2 H3. change ("cep" ++ String "=" (url_QueryEscape code))
      with ("cep=" ++ url_QueryEscape code).
    now rewrite strings_ContainsByte_app, (QueryEscape_bytes code x H1 H2 H3), orb_false_r. }
  change ("cep=" ++ url_QueryEscape code) with ("cep" ++ String "=" (url_QueryEscape code)).
  rewrite (proj2 (parseQuery_pair _ ∅ "cep" (url_QueryEscape code) "cep" code ""
                    (Hq "&"%char eq_refl ltac:(discriminate) ltac:(discriminate))
                    (Hq ";"%char eq_refl ltac:(discriminate) ltac:(discriminate))
                    eq_refl eq_refl (QueryUnescape_QueryEscape code))).
  unfold Values_Get. now rewrite lookup_insert_eq, lookup_empty.
Qed.

(** ** The [traceparent] header *)

Lemma string_length_app (s t : string) :
  String.length (s ++ t) = (String.length s + String.length t)%nat.
Proof. induction s as [| a s IH]; [reflexivity |]. rewrite append_cons. simpl. now rewrite IH. Qed.

Lemma hex_fixed_length (width : nat) (n : N) : String.length (hex_fixed width n) = width.
Proof.
  revert n. induction width as [| w IH]; intros n; [reflexivity |].
  cbn [hex_fixed]. rewrite string_length_app, IH. simpl. lia.
Qed.

Lemma hex_value_app (acc : N) (s t : string) :
  hex_value acc (s ++ t) =
    match hex_value acc s with Some a => hex_value a t | None => None end.
Proof.
  revert acc. induction s as [| c s IH]; intros acc; [reflexivity |].
  rewrite append_cons. simpl. now destruct (_ || _).
Qed.

(** A hex digit: not a dash, and read back as its value. *)
Lemma lowerhex_digit (d : N) :
  (d < 16)%N ->
  Ascii.eqb (lowerhex d) "-" = false
  /\ forall acc, hex_value acc (String (lowerhex d) "") = Some (16 * acc + d)%N.
Proof.
  intros Hd.
  assert (Hcases : In d [0; 1; 2; 3; 4; 5; 6; 7; 8; 9; 10; 11; 12; 13; 14; 15]%N)
    by (simpl; lia).
  simpl in Hcases.
  repeat (destruct Hcases as [<- | Hcases]; [split; [reflexivity | intros acc; reflexivity] |]).
  destruct Hcases.
Qed.

Lemma hex_fixed_no_dash (width : nat) (n : N) :
  strings_ContainsByte (hex_fixed width n) "-" = false.
Proof.
  revert n. induction width as [| w IH]; intros n; [reflexivity |].
  cbn [hex_fixed]. rewrite strings_ContainsByte_app, IH. simpl.
  destruct (lowerhex_digit (n mod 16)) as [-> _]; [| reflexivity].
  now apply N.mod_lt.
Qed.

Lemma hex_value_fixed (width : nat) (n acc : N) :
  hex_value acc (hex_fixed width n)
  = Some (acc * 16 ^ N.of_nat width + n mod 16 ^ N.of_nat width)%N.
Proof.
  revert n acc. induction width as [| w IH]; intros n acc.
  - simpl. rewrite N.mod_1_r. f_equal. lia.
  - cbn [hex_fixed]. rewrite hex_value_app, IH.
    destruct (lowerhex_digit (n mod 16)) as [_ ->]; [now apply N.mod_lt |].
    f_equal. rewrite Nat2N.inj_succ, N.pow_succ_r', (N.Div0.mod_mul_r n 16). lia.
Qed.

(** A field of the header is read back, up to its width. *)
Lemma extractPart_fixed (width : nat) (n : N) (rest : string) :
  extractPart (hex_fixed width n ++ String "-" rest) width
  = Some (n mod 16 ^ N.of_nat width, rest)%N.
Proof.
  unfold extractPart.
  rewrite (strings_Cut_at _ _ _ (hex_fixed_no_dash width n)), hex_fixed_length,
    Nat.eqb_refl, hex_value_fixed.
  now rewrite N.mul_0_l, N.add_0_l.
Qed.

(** Reading back what [Inject] wrote: the same span context, now remote. *)
Lemma parse_traceparent_traceparent (sc : SpanContext) :
  IsValid sc = true -> fits_header sc ->
  parse_traceparent (traceparent sc) = remote sc.
Proof.
  intros Hvalid [Htid Hsid]. unfold parse_traceparent, traceparent.
  change (extractPart ("00-" ++ ?x) 2) with (Some (0%N, x)). cbv iota beta.
  change (254 <? 0)%N with false. cbv iota.
  change ("-" ++ ?x) with (String "-" x).
  rewrite extractPart_fixed. cbv iota beta.
  change ("-" ++ ?x) with (String "-" x).
  rewrite extractPart_fixed. cbv iota beta.
  rewrite (N.mod_small (TraceID sc)), (N.mod_small (SpanID sc)) by assumption.
  assert (Hvalid' : IsValid {| TraceID := TraceID sc; SpanID := SpanID sc;
                               Sampled := Sampled sc; Remote := true |} = true)
    by exact Hvalid.
  destruct (Sampled sc) eqn:Hs; vm_compute extractPart; cbv iota beta;
    cbn [N.eqb andb orb negb String.eqb N.ltb N.compare Pos.compare Pos.compare_cont N.odd];
    unfold remote; rewrite Hs.
  all: change (N.odd 1) with true; change (N.odd 0) with false.
  all: now rewrite Hvalid'.
Qed.

Lemma remote_IsValid (sc : SpanContext) : IsValid (remote sc) = IsValid sc.
Proof. reflexivity. Qed.

(** A request that carries a span's header is extracted to that span. *)
Lemma Extract_carried (ctx : context) (h : Header) (sc : SpanContext) :
  IsValid sc = true -> fits_header sc ->
  Header_Get h "traceparent" = traceparent sc ->
  Extract ctx h = {| SpanContextFromContext := remote sc |}.
Proof.
  intros Hvalid Hfits Hh. unfold Extract.
  now rewrite Hh, parse_traceparent_traceparent, remote_IsValid, Hvalid.
Qed.

Lemma carries_Inject (sc : SpanContext) (req : Request) :
  IsValid sc = true -> carries (Inject {| SpanContextFromContext := sc |} req) sc.
Proof.
  intros H. unfold carries, Inject. cbn [SpanContextFromContext]. rewrite H.
  cbn [ReqHeader]. apply Header_Get_Set.
Qed.

(** ** Headers *)

Lemma Header_Get_Set_other (h : Header) (key key' value : string) :
  CanonicalMIMEHeaderKey key <> CanonicalMIMEHeaderKey key' ->
  Header_Get (Header_Set h key' value) key = Header_Get h key.
Proof. intros H. unfold Header_Get, Header_Set. now rewrite lookup_insert_ne. Qed.

(** The headers [http.Error] sends, and those of a JSON answer. *)
Lemma error_headers_type (h : Header) :
  Header_Get (Header_Set (Header_Set h "Content-Type" "text/plain; charset=utf-8")
                "X-Content-Type-Options" "nosniff") "Content-Type"
  = "text/plain; charset=utf-8".
Proof. rewrite Header_Get_Set_other by discriminate. apply Header_Get_Set. Qed.

Lemma json_headers_type :
  Header_Get json_headers "Content-Type" = "application/json"
  /\ Header_Get json_headers "X-Content-Type-Options" = "".
Proof. split; [apply Header_Get_Set |]. unfold json_headers. now rewrite Header_Get_Set_other. Qed.

(** ** Reading spans, parents and bodies off the events *)

Lemma parents_app (t1 t2 : list event) : parents (t1 ++ t2) = (parents t1 ++ parents t2)%list.
Proof. apply omap_app. Qed.

Lemma bodies_closed_app (t1 t2 : list event) :
  bodies_closed (t1 ++ t2) = (bodies_closed t1 + bodies_closed t2)%nat.
Proof. unfold bodies_closed. now rewrite omap_app, length_app. Qed.

Lemma responses_app (transport : Request -> result Response) (t1 t2 : list event) :
  responses transport (t1 ++ t2)
  = (responses transport t1 ++ responses transport t2)%list.
Proof. unfold responses. now rewrite requests_app, omap_app. Qed.

(** What a function's span around its exchange shows. *)
Lemma spanned_reading (transport : Request -> result Response) (name : string)
    (sc parent : SpanContext) (evs : list event) :
  spanned transport name sc parent evs ->
  parents evs = [(sc, parent)] /\ opened evs = [sc] /\ closed evs = [sc]
  /\ started evs = [name]
  /\ bodies_closed evs = length (responses transport evs)
  /\ Forall (fun req => carries req sc) (requests evs).
Proof.
  intros (io & -> & Hio).
  destruct Hio as [| req e Hreq Hcar | req resp Hreq Hcar];
    unfold bodies_closed, responses; simpl; rewrite ?Hreq;
    repeat split; auto.
Qed.

(** A resolver sends at most one request. *)
Lemma spanned_requests (transport : Request -> result Response) (name : string)
    (sc parent : SpanContext) (evs : list event) :
  spanned transport name sc parent evs -> (length (requests evs) <= 1)%nat.
Proof.
  intros (io & -> & Hio). destruct Hio; simpl; lia.
Qed.

Lemma new_span_TraceID (parent : SpanContext) (next : positive) :
  IsValid parent = true -> TraceID (new_span parent next) = TraceID parent.
Proof. intros H. unfold new_span. simpl. now rewrite H. Qed.

(** The spans and requests of a trace inside a span. *)
Lemma opened_around (name : string) (sc parent sc' : SpanContext) (mid : list event) :
  opened (SpanStart name sc parent :: mid ++ [SpanEnd sc']) = sc :: opened mid.
Proof. simpl. rewrite opened_app. simpl. now rewrite app_nil_r. Qed.

Lemma requests_around (name : string) (sc parent sc' : SpanContext) (mid : list event) :
  requests (SpanStart name sc parent :: mid ++ [SpanEnd sc']) = requests mid.
Proof. simpl. rewrite requests_app. simpl. now rewrite app_nil_r. Qed.

(** ** The events and requests of the resolvers *)

Ltac read_sent := read_trace; rewrite ?app_nil_r; reflexivity.

Section resolver_events.
Variable httpClient : Request -> result Response.
Variable WEATHER_API_KEY : string.

(** A leaf of the symbolic run of a resolver: the events are the span's
    around the exchange that took place. *)
Ltac spanned_leaf :=
  eexists; split; [rewrite <- ?app_assoc; reflexivity |];
  first [ exists []; split; [reflexivity | apply exchange_none]
        | eexists [Do _; BodyClose]; split;
          [reflexivity
          | eapply exchange_answered; [eassumption | apply carries_Inject, new_span_IsValid] ]
        | eexists [Do _]; split;
          [reflexivity
          | eapply exchange_failed; [eassumption | apply carries_Inject, new_span_IsValid] ] ].

Lemma getLocation_events (ctx : context) (tracer : Tracer) (cep : string) (g : goroutine) :
  exists evs,
    trace (ServiceB.getLocation httpClient ctx tracer cep g).2 = (trace g ++ evs)%list
    /\ spanned httpClient "getLocation from viacep"
         (new_span (SpanContextFromContext ctx) (supply g)) (SpanContextFromContext ctx) evs.
Proof.
  unfold ServiceB.getLocation. run.
  destruct (http_NewRequestWithContext _ _ _) as [req|e] eqn:Hreq; run; [| spanned_leaf].
  destruct (httpClient (Inject _ req)) as [resp|e] eqn:Hresp; run; [| spanned_leaf].
  destruct (negb (StatusCode resp =? http_StatusOK)%Z); run; [spanned_leaf |].
  destruct (io_ReadAll (Body resp)) as [body|e]; run; [| spanned_leaf].
  destruct (json_Unmarshal_map body) as [m|e]; run; [| spanned_leaf].
  destruct (assert_string (map_index m "localidade")); run; spanned_leaf.
Qed.

Lemma getTemperature_events (ctx : context) (tracer : Tracer) (location : string)
    (g : goroutine) :
  exists evs,
    trace (ServiceB.getTemperature httpClient WEATHER_API_KEY ctx tracer location g).2
    = (trace g ++ evs)%list
    /\ spanned httpClient "getTemperature from weatherapi"
         (new_span (SpanContextFromContext ctx) (supply g)) (SpanContextFromContext ctx) evs.
Proof.
  unfold ServiceB.getTemperature. run.
  destruct (http_NewRequestWithContext _ _ _) as [req|e] eqn:Hreq; run; [| spanned_leaf].
  destruct (httpClient (Inject _ req)) as [resp|e] eqn:Hresp; run; [| spanned_leaf].
  destruct (negb (StatusCode resp =? http_StatusOK)%Z); run; [spanned_leaf |].
  destruct (io_ReadAll (Body resp)) as [body|e]; run; [| spanned_leaf].
  destruct (json_Unmarshal_map body) as [m|e]; run; [| spanned_leaf].
  destruct (assert_map (map_index m "current")) as [current|]; run; [| spanned_leaf].
  destruct (assert_float64 (map_index current "temp_c")); run; [spanned_leaf |].
  destruct (assert_int (map_index current "temp_c")); run; spanned_leaf.
Qed.

(** The request a resolver sends when its URL parses: a GET for that URL, with
    the resolver's span injected. *)
Lemma getLocation_request (ctx : context) (tracer : Tracer) (cep : string) (g : goroutine)
    (u : URL) :
  url_Parse (lookup_url cep) = Ok u ->
  let sc := {| SpanContextFromContext := new_span (SpanContextFromContext ctx) (supply g) |} in
  requests (trace (ServiceB.getLocation httpClient ctx tracer cep g).2)
  = (requests (trace g)
     ++ [Inject sc {| Method := http_MethodGet; URL_ := u; ReqHeader := ∅;
                      ReqBody := http_NoBody; Ctx := sc |}])%list.
Proof.
  intros Hurl. unfold ServiceB.getLocation, http_NewRequestWithContext.
  fold (lookup_url cep). rewrite Hurl. run.
  destruct (httpClient _) as [resp|e]; run; [| read_sent].
  destruct (negb (StatusCode resp =? http_StatusOK)%Z); run; [read_sent |].
  destruct (io_ReadAll (Body resp)) as [body|e]; run; [| read_sent].
  destruct (json_Unmarshal_map body) as [m|e]; run; [| read_sent].
  destruct (assert_string (map_index m "localidade")); run; read_sent.
Qed.

Lemma getTemperature_request (ctx : context) (tracer : Tracer) (location : string)
    (g : goroutine) (u : URL) :
  url_Parse (weather_url WEATHER_API_KEY location) = Ok u ->
  let sc := {| SpanContextFromContext := new_span (SpanContextFromContext ctx) (supply g) |} in
  requests (trace (ServiceB.getTemperature httpClient WEATHER_API_KEY ctx tracer location g).2)
  = (requests (trace g)
     ++ [Inject sc {| Method := http_MethodGet; URL_ := u; ReqHeader := ∅;
                      ReqBody := http_NoBody; Ctx := sc |}])%list.
Proof.
  intros Hurl. unfold ServiceB.getTemperature, http_NewRequestWithContext.
  fold (weather_url WEATHER_API_KEY location). rewrite Hurl. run.
  destruct (httpClient _) as [resp|e]; run; [| read_sent].
  destruct (negb (StatusCode resp =? http_StatusOK)%Z); run; [read_sent |].
  destruct (io_ReadAll (Body resp)) as [body|e]; run; [| read_sent].
  destruct (json_Unmarshal_map body) as [m|e]; run; [| read_sent].
  destruct (assert_map (map_index m "current")) as [current|]; run; [| read_sent].
  destruct (assert_float64 (map_index current "temp_c")); run; [read_sent |].
  destruct (assert_int (map_index current "temp_c")); run; read_sent.
Qed.

(** When the lookup URL does not parse, the geocode resolver fails with the
    parser's error, having sent nothing. *)
Lemma getLocation_unparsed (ctx : context) (tracer : Tracer) (cep : string) (g : goroutine)
    (e : error) :
  url_Parse (lookup_url cep) = Err e ->
  let sc := new_span (SpanContextFromContext ctx) (supply g) in
  ServiceB.getLocation httpClient ctx tracer cep g
  = (Some (Err e),
     {| trace := trace g ++ [SpanStart "getLocation from viacep" sc
                               (SpanContextFromContext ctx); SpanEnd sc];
        supply := after_span (SpanContextFromContext ctx) (supply g);
        w := w g; defers := defers g |}).
Proof.
  intros Hurl. unfold ServiceB.getLocation, http_NewRequestWithContext.
  fold (lookup_url cep). rewrite Hurl. run. now rewrite <- app_assoc.
Qed.

End resolver_events.

(** The events of a resolver as the two lemmas on it give them. *)
Ltac call_with_events call_resolver events_lemma res evs Hsp Hreqs Hres :=
  let evs' := fresh "evs" in
  let Htr := fresh "Htr" in
  let Hop := fresh "Hop" in
  let Hcl := fresh "Hcl" in
  let Hst := fresh "Hst" in
  events_lemma evs' Htr Hsp;
  call_resolver res evs Hop Hcl Hst Hreqs Hres;
  cbn [trace snd] in Htr; apply app_inv_head in Htr; subst evs';
  cbn [supply SpanContextFromContext] in Hsp;
  clear Hop Hcl.

Ltac getLocation_events_at evs Htr Hsp :=
  match goal with
  | |- context [ServiceB.getLocation ?c ?x ?t ?s ?g] =>
      destruct (getLocation_events c x t s g) as (evs & Htr & Hsp)
  end.

Ltac getTemperature_events_at evs Htr Hsp :=
  match goal with
  | |- context [ServiceB.getTemperature ?c ?k ?x ?t ?s ?g] =>
      destruct (getTemperature_events c k x t s g) as (evs & Htr & Hsp)
  end.

(** ** The backend's events *)

Section backend_events.
Variable httpClient : Request -> result Response.
Variable WEATHER_API_KEY : string.

(** The backend's trace: the handler's span around nothing, around the geocode
    resolver's events, or around those and then the temperature resolver's;
    both resolvers run under the handler's span. *)
Lemma backend_events (seed : positive) (r : Request) :
  let out := serve (ServiceB.getWeatherHandler httpClient WEATHER_API_KEY) seed r in
  let parent := SpanContextFromContext (Extract (Ctx r) (ReqHeader r)) in
  let h := new_span parent seed in
  exists mid,
    out.2 = (SpanStart "getWeatherHandler" h parent :: mid ++ [SpanEnd h])%list
    /\ (mid = []
        \/ (exists s, spanned httpClient "getLocation from viacep" (new_span h s) h mid)
        \/ (exists s s' m1 m2,
              mid = (m1 ++ m2)%list
              /\ spanned httpClient "getLocation from viacep" (new_span h s) h m1
              /\ spanned httpClient "getTemperature from weatherapi" (new_span h s') h m2)).
Proof.
  unfold serve, ServiceB.getWeatherHandler. run.
  set (parent := SpanContextFromContext (Extract (Ctx r) (ReqHeader r))).
  set (h := new_span parent seed).
  destruct (negb (len _ =? 8)%Z); run.
  { exists []. split; [reflexivity | now left]. }
  call_with_events call_getLocation getLocation_events_at res evs Hsp Hreqs Hres. run.
  destruct res as [loc | e]; run.
  { call_with_events call_getTemperature getTemperature_events_at res' evs' Hsp' Hreqs' Hres'.
    run.
    assert (Hall : forall tail : list event,
              exists mid,
                ((SpanStart "getWeatherHandler" h parent :: evs ++ evs') ++ tail
                 = SpanStart "getWeatherHandler" h parent :: mid ++ tail)%list
                /\ (mid = []
                    \/ (exists s, spanned httpClient "getLocation from viacep"
                                    (new_span h s) h mid)
                    \/ (exists s s' m1 m2,
                          mid = (m1 ++ m2)%list
                          /\ spanned httpClient "getLocation from viacep" (new_span h s) h m1
                          /\ spanned httpClient "getTemperature from weatherapi"
                               (new_span h s') h m2))).
    { intros tail. exists (evs ++ evs')%list. split; [reflexivity |].
      right; right. eexists _, _, evs, evs'. eauto. }
    destruct res' as [c | e]; run; [destruct (_ && _); run |]; apply Hall. }
  exists evs. split; [reflexivity | right; left; eauto].
Qed.

End backend_events.

(** The backend's spans after a request that carries a span. *)
Lemma backend_joins (httpClient : Request -> result Response)
    (WEATHER_API_KEY : string) (seed : positive) (r : Request) (sc : SpanContext) :
  IsValid sc = true -> fits_header sc -> carries r sc ->
  let tr := (serve (ServiceB.getWeatherHandler httpClient WEATHER_API_KEY) seed r).2 in
  (exists h rest, parents tr = (h, remote sc) :: rest)
  /\ Forall (fun s => TraceID s = TraceID sc) (opened tr)
  /\ Forall (fun req => exists s, In s (opened tr) /\ carries req s) (requests tr).
Proof.
  intros Hvalid Hfits Hcar tr. subst tr.
  destruct (backend_events httpClient WEATHER_API_KEY seed r) as (mid & -> & Hmid).
  rewrite (Extract_carried (Ctx r) (ReqHeader r) sc Hvalid Hfits Hcar) in *.
  cbn [SpanContextFromContext] in *.
  pose proof (new_span_IsValid (remote sc) seed) as Hh.
  pose proof (new_span_TraceID (remote sc) seed Hvalid) as Hid.
  set (h := new_span (remote sc) seed) in *.
  change (TraceID (remote sc)) with (TraceID sc) in Hid.
  split; [eexists _, _; reflexivity |].
  rewrite opened_around, requests_around.
  assert (Hsub : forall (name : string) (s : positive) (m : list event),
            spanned httpClient name (new_span h s) h m ->
            Forall (fun x => TraceID x = TraceID sc) (opened m)
            /\ forall req, In req (requests m) ->
                           exists x, In x (opened m) /\ carries req x).
  { intros name s m (_ & Ho & _ & _ & _ & Hc)%spanned_reading. rewrite Ho. split.
    - repeat constructor. now rewrite new_span_TraceID.
    - intros req Hreq. exists (new_span h s). split; [now left |].
      revert req Hreq. now apply List.Forall_forall. }
  destruct Hmid as [-> | [(s & Hl) | (s & s' & m1 & m2 & -> & Hl & Ht)]].
  - split; repeat constructor. exact Hid.
  - destruct (Hsub _ _ _ Hl) as [Ho Hr]. split.
    + constructor; [exact Hid | exact Ho].
    + apply List.Forall_forall. intros req (x & Hx & Hc)%Hr. exists x.
      split; [now right | exact Hc].
  - destruct (Hsub _ _ _ Hl) as [Ho Hr]. destruct (Hsub _ _ _ Ht) as [Ho' Hr'].
    rewrite opened_app, requests_app. split.
    + constructor; [exact Hid |]. apply Forall_app. now split.
    + apply List.Forall_forall.
      intros req [(x & Hx & Hc)%Hr | (x & Hx & Hc)%Hr']%in_app_or; exists x;
        (split; [right; apply in_or_app; auto | exact Hc]).
Qed.

(** ** The edge's events and replies *)

Section edge_runs.
Variable DefaultClient : Request -> result Response.

(** The edge's trace, on every path: the handler's span around at most one
    exchange with the backend. *)
Lemma edge_events (seed : positive) (r : Request) :
  let parent := SpanContextFromContext (Extract (Ctx r) (ReqHeader r)) in
  spanned DefaultClient "request-temp-info-to-service-b" (new_span parent seed) parent
    (serve (ServiceA.postCepHandler DefaultClient) seed r).2.
Proof.
  unfold serve, ServiceA.postCepHandler. run.
  destruct (json_Decoder_Decode ServiceA.store_Cep (ReqBody r) _) as [c err]. run.
  destruct (_ || _); run.
  { exists []. split; [reflexivity | constructor]. }
  destruct (http_NewRequestWithContext _ _ _) as [req | e]; run.
  2:{ exists []. split; [reflexivity | constructor]. }
  destruct (DefaultClient (Inject _ req)) as [resp | e] eqn:Hresp; run.
  2:{ eexists [Do _]. split; [reflexivity |].
      eapply exchange_failed; [eassumption | apply carries_Inject, new_span_IsValid]. }
  assert (Hio : exchange DefaultClient
                  (new_span (SpanContextFromContext (Extract (Ctx r) (ReqHeader r))) seed)
                  [Do (Inject {| SpanContextFromContext :=
                                   new_span (SpanContextFromContext
                                               (Extract (Ctx r) (ReqHeader r))) seed |} req);
                   BodyClose])
    by (eapply exchange_answered; [eassumption | apply carries_Inject, new_span_IsValid]).
  repeat (match goal with |- context [if ?b then _ else _] => destruct b end; run);
    (eexists [Do _; BodyClose]; split; [reflexivity | exact Hio]).
Qed.

(** A request the edge sent: the body held a code of 8 bytes, the URL built
    from it parsed, and the request is that URL with the span injected. *)
Lemma edge_sent (seed : positive) (r : Request) (sent : Request) :
  In sent (requests (serve (ServiceA.postCepHandler DefaultClient) seed r).2) ->
  let ctx := {| SpanContextFromContext :=
                  new_span (SpanContextFromContext (Extract (Ctx r) (ReqHeader r))) seed |} in
  exists c req,
    json_Decoder_Decode ServiceA.store_Cep (ReqBody r) {| ServiceA.Cep_ := "" |} = (c, None)
    /\ len (ServiceA.Cep_ c) = ServiceA.CEP_LENGTH
    /\ http_NewRequestWithContext ctx http_MethodGet
         (ServiceA.getTempEndpoint ++ "?cep=" ++ ServiceA.Cep_ c) = Ok req
    /\ sent = Inject ctx req
    /\ requests (serve (ServiceA.postCepHandler DefaultClient) seed r).2 = [sent].
Proof.
  intros Hsent ctx.
  destruct (json_Decoder_Decode ServiceA.store_Cep (ReqBody r) {| ServiceA.Cep_ := "" |})
    as [c err] eqn:Hdec.
  assert (Hcases : (is_Some err \/ len (ServiceA.Cep_ c) <> ServiceA.CEP_LENGTH)
                   \/ (err = None /\ len (ServiceA.Cep_ c) = ServiceA.CEP_LENGTH)).
  { destruct err; [left; left; eauto |].
    destruct (Z.eq_dec (len (ServiceA.Cep_ c)) ServiceA.CEP_LENGTH); auto. }
  destruct Hcases as [Hbad | [-> Hok]].
  - destruct (edge_invalid_run DefaultClient seed r c err Hdec Hbad) as [_ Hnone].
    rewrite Hnone in Hsent. destruct Hsent.
  - pose proof (edge_valid_run DefaultClient seed r c Hdec Hok) as (_ & _ & Hrun).
    fold ctx in Hrun.
    destruct (http_NewRequestWithContext ctx _ _) as [req | e] eqn:Hreq.
    2:{ destruct Hrun as [Hnone _]. rewrite Hnone in Hsent. destruct Hsent. }
    destruct Hrun as [Hone _]. rewrite Hone in Hsent. destruct Hsent as [<- | []].
    exists c, req. repeat split; first [assumption | reflexivity].
Qed.

(** The reply to a request the backend answered with a status in 200..999:
    the status is relayed under the JSON content type, with the fixed message
    for 404 and the re-encoded report otherwise. *)
Lemma edge_relay_run (seed : positive) (r : Request) (sent : Request) (resp : Response) :
  In sent (requests (serve (ServiceA.postCepHandler DefaultClient) seed r).2) ->
  DefaultClient sent = Ok resp ->
  (200 <= StatusCode resp <= 999)%Z ->
  (serve (ServiceA.postCepHandler DefaultClient) seed r).1
  = Some {| Code := StatusCode resp;
            Headers := json_headers;
            Content :=
              if (StatusCode resp =? http_StatusNotFound)%Z
              then [Text ("can not find zipcode" ++ newline)]
              else if writable (decoded_report resp)
                   then [Encoded (ServiceA.marshal (decoded_report resp))]
                   else [] |}.
Proof.
  intros (c & req & Hdec & Hok%edge_test_false & Hreq & -> & _)%edge_sent Hresp Hcode.
  assert (Hlow : (StatusCode resp <? 100)%Z = false) by (apply Z.ltb_ge; lia).
  assert (Hhigh : (999 <? StatusCode resp)%Z = false) by (apply Z.ltb_ge; lia).
  assert (Hinfo : (StatusCode resp <=? 199)%Z = false) by (apply Z.leb_gt; lia).
  unfold serve, ServiceA.postCepHandler. run. rewrite Hdec. run. rewrite Hok. run.
  rewrite Hreq. run. rewrite Hresp. run. rewrite Hlow, Hhigh, Hinfo. run.
  destruct (StatusCode resp =? http_StatusNotFound)%Z eqn:H404; run.
  - apply Z.eqb_eq in H404. now rewrite H404.
  - unfold writable, decoded_report, no_report. cbn [ServiceA.marshal forallb snd].
    destruct (_ && _); run; reflexivity.
Qed.

(** The reply when the backend's status is no status a server may write: the
    handler panics. *)
Lemma edge_panic_run (seed : positive) (r : Request) (sent : Request) (resp : Response) :
  In sent (requests (serve (ServiceA.postCepHandler DefaultClient) seed r).2) ->
  DefaultClient sent = Ok resp ->
  (StatusCode resp < 100 \/ 999 < StatusCode resp)%Z ->
  (serve (ServiceA.postCepHandler DefaultClient) seed r).1 = None.
Proof.
  intros (c & req & Hdec & Hok%edge_test_false & Hreq & -> & _)%edge_sent Hresp Hcode.
  assert (Hout : (StatusCode resp <? 100)%Z || (999 <? StatusCode resp)%Z = true).
  { apply orb_true_iff. destruct Hcode; [left | right]; apply Z.ltb_lt; lia. }
  unfold serve, ServiceA.postCepHandler. run. rewrite Hdec. run. rewrite Hok. run.
  rewrite Hreq. run. rewrite Hresp. run. rewrite Hout. run. reflexivity.
Qed.

(** The reply when the transport failed. *)
Lemma edge_failed_run (seed : positive) (r : Request) (sent : Request) (e : error) :
  In sent (requests (serve (ServiceA.postCepHandler DefaultClient) seed r).2) ->
  DefaultClient sent = Err e ->
  answers (serve (ServiceA.postCepHandler DefaultClient) seed r)
    http_StatusInternalServerError ("DefaultClient.Do service b error: " ++ e).
Proof.
  intros (c & req & Hdec & Hok & Hreq & -> & _)%edge_sent Hresp.
  pose proof (edge_valid_run DefaultClient seed r c Hdec Hok) as (_ & _ & Hrun).
  rewrite Hreq in Hrun. destruct Hrun as [_ Hrun]. now rewrite Hresp in Hrun.
Qed.

(** The edge's handler returns, whatever the request, unless the backend
    answered with a status below 100 or above 999. *)
Lemma edge_returns (seed : positive) (r : Request) :
  (exists reply, (serve (ServiceA.postCepHandler DefaultClient) seed r).1 = Some reply)
  \/ exists sent resp,
       In sent (requests (serve (ServiceA.postCepHandler DefaultClient) seed r).2)
       /\ DefaultClient sent = Ok resp
       /\ (StatusCode resp < 100 \/ 999 < StatusCode resp)%Z.
Proof.
  unfold serve, ServiceA.postCepHandler. run.
  destruct (json_Decoder_Decode ServiceA.store_Cep (ReqBody r) _) as [c err]. run.
  destruct (_ || _); run; [left; eauto |].
  destruct (http_NewRequestWithContext _ _ _) as [req | e]; run; [| left; eauto].
  destruct (DefaultClient (Inject _ req)) as [resp | e] eqn:Hresp; run; [| left; eauto].
  destruct ((StatusCode resp <? 100)%Z || (999 <? StatusCode resp)%Z) eqn:Hcode; run.
  - right. eexists _, resp. split; [left; reflexivity |]. split; [exact Hresp |].
    apply orb_true_iff in Hcode as [H | H]; apply Z.ltb_lt in H; auto.
  - left.
    repeat (match goal with |- context [if ?b then _ else _] => destruct b end; run);
      eauto.
Qed.

End edge_runs.

Lemma no_object_no_report (resp : Response) :
  (forall members, Body resp <> Reader (JSONText (JObject members))) ->
  decoded_report resp = no_report.
Proof.
  intros H. unfold decoded_report. destruct (Body resp) as [e | [| j]]; try reflexivity.
  destruct j; try reflexivity. now destruct (H members).
Qed.

(** Decoding into [Cep]: a member that names the field and holds neither a
    string nor [null] is an error, whatever the other members hold. *)
Lemma decode_members_Cep_error (members : list (string * json)) (k : string) (x : json)
    (v : ServiceA.Cep) :
  In (k, x) members -> names_field "cep" k = true ->
  (forall s, x <> JString s) -> x <> JNull ->
  is_Some (decode_members ServiceA.store_Cep members v).2.
Proof.
  revert v. induction members as [| [k' x'] rest IH]; intros v Hin Hk Hs Hn; [destruct Hin |].
  cbn [decode_members].
  destruct (ServiceA.store_Cep k' x' v) as [v1 e1] eqn:Hstore.
  destruct (decode_members ServiceA.store_Cep rest v1) as [v2 e2] eqn:Hrest.
  cbn [snd]. destruct Hin as [[= -> ->] | Hin].
  - unfold ServiceA.store_Cep in Hstore. rewrite Hk in Hstore.
    destruct x; try (injection Hstore as _ <-; eauto).
    + now destruct Hn.
    + now destruct (Hs s).
  - specialize (IH v1 Hin Hk Hs Hn). rewrite Hrest in IH. cbn [snd] in IH.
    destruct e1; eauto.
Qed.

(** ** Tracing and the answers *)

Section transparent.
Variable transport : Request -> result Response.
Hypothesis by_URL : forall req req', URL_ req = URL_ req' -> transport req = transport req'.

(** The answer to a request is the answer to its URL. *)
Lemma by_URL_Inject (ctx : context) (method : string) (u : URL) (c : context) :
  transport (Inject ctx {| Method := method; URL_ := u; ReqHeader := ∅;
                           ReqBody := http_NoBody; Ctx := c |})
  = transport {| Method := method; URL_ := u; ReqHeader := ∅;
                 ReqBody := http_NoBody; Ctx := context_Background |}.
Proof. apply by_URL. now rewrite Inject_URL. Qed.

Ltac same_result := eexists _, _; repeat split.

(** The result of a resolver does not depend on the span it runs under: it
    is the result of the resolver run on its own; and the resolver leaves the
    response writer alone. *)
Lemma getLocation_result (ctx : context) (tracer : Tracer) (cep : string) (g : goroutine) :
  exists res g1,
    ServiceB.getLocation transport ctx tracer cep g = (Some res, g1)
    /\ w g1 = w g /\ defers g1 = defers g
    /\ Some res = (ServiceB.getLocation transport context_Background (otel_Tracer "") cep
                     (new_goroutine 1)).1.
Proof.
  unfold ServiceB.getLocation, http_NewRequestWithContext.
  destruct (url_Parse _) as [u | e]; run; [| same_result].
  rewrite !by_URL_Inject.
  destruct (transport _) as [resp | e]; run; [| same_result].
  destruct (negb (StatusCode resp =? http_StatusOK)%Z); run; [same_result |].
  destruct (io_ReadAll (Body resp)) as [body|e]; run; [| same_result].
  destruct (json_Unmarshal_map body) as [m|e]; run; [| same_result].
  destruct (assert_string (map_index m "localidade")); run; same_result.
Qed.

Lemma getTemperature_result (key : string) (ctx : context) (tracer : Tracer)
    (location : string) (g : goroutine) :
  exists res g1,
    ServiceB.getTemperature transport key ctx tracer location g = (Some res, g1)
    /\ w g1 = w g /\ defers g1 = defers g
    /\ Some res = (ServiceB.getTemperature transport key context_Background (otel_Tracer "")
                     location (new_goroutine 1)).1.
Proof.
  unfold ServiceB.getTemperature, http_NewRequestWithContext.
  destruct (url_Parse _) as [u | e]; run; [| same_result].
  rewrite !by_URL_Inject.
  destruct (transport _) as [resp | e]; run; [| same_result].
  destruct (negb (StatusCode resp =? http_StatusOK)%Z); run; [same_result |].
  destruct (io_ReadAll (Body resp)) as [body|e]; run; [| same_result].
  destruct (json_Unmarshal_map body) as [m|e]; run; [| same_result].
  destruct (assert_map (map_index m "current")) as [current|]; run; [| same_result].
  destruct (assert_float64 (map_index current "temp_c")); run; [same_result |].
  destruct (assert_int (map_index current "temp_c")); run; same_result.
Qed.

(** The backend's reply is decided by the URL of the request. *)
Lemma backend_reply_by_URL (key : string) (seed seed' : positive) (r r' : Request) :
  URL_ r = URL_ r' ->
  (serve (ServiceB.getWeatherHandler transport key) seed r).1
  = (serve (ServiceB.getWeatherHandler transport key) seed' r').1.
Proof.
  intros Hsame. unfold serve, ServiceB.getWeatherHandler. run. rewrite <- Hsame.
  destruct (negb (len _ =? 8)%Z); run; [reflexivity |].
  match goal with |- context [ServiceB.getLocation transport ?c ?t ?s ?g] =>
    destruct (getLocation_result c t s g) as (res1 & g1 & -> & Hw1 & _ & Hres1) end.
  match goal with |- context [ServiceB.getLocation transport ?c ?t ?s ?g] =>
    destruct (getLocation_result c t s g) as (res2 & g2 & -> & Hw2 & _ & Hres2) end.
  rewrite <- Hres1 in Hres2. injection Hres2 as ->. clear Hres1.
  cbn [w] in Hw1, Hw2. run.
  destruct res1 as [loc | e]; run; [| now rewrite Hw1, Hw2].
  match goal with |- context [ServiceB.getTemperature transport ?k ?c ?t ?s ?g] =>
    destruct (getTemperature_result k c t s g) as (res3 & g3 & -> & Hw3 & _ & Hres3) end.
  match goal with |- context [ServiceB.getTemperature transport ?k ?c ?t ?s ?g] =>
    destruct (getTemperature_result k c t s g) as (res4 & g4 & -> & Hw4 & _ & Hres4) end.
  rewrite <- Hres3 in Hres4. injection Hres4 as ->. clear Hres3.
  cbn [w] in Hw3, Hw4. rewrite Hw1 in Hw3. rewrite Hw2 in Hw4. run.
  destruct res3 as [c | e]; run; [destruct (_ && _); run |]; now rewrite Hw3, Hw4.
Qed.

(** The edge's reply is decided by the body of the request. *)
Lemma edge_reply_by_body (seed seed' : positive) (r r' : Request) :
  ReqBody r = ReqBody r' ->
  (serve (ServiceA.postCepHandler transport) seed r).1
  = (serve (ServiceA.postCepHandler transport) seed' r').1.
Proof.
  intros Hsame. unfold serve, ServiceA.postCepHandler. run. rewrite <- Hsame.
  destruct (json_Decoder_Decode ServiceA.store_Cep (ReqBody r) _) as [c err]. run.
  destruct (_ || _); run; [reflexivity |].
  unfold http_NewRequestWithContext.
  destruct (url_Parse _) as [u | e]; run; [| reflexivity].
  rewrite !by_URL_Inject.
  destruct (transport _) as [resp | e]; run; [| reflexivity].
  repeat (match goal with |- context [if ?b then _ else _] => destruct b end; run);
    reflexivity.
Qed.

End transparent.

(** * Further properties of the backend *)

(** X1. The backend never panics: every request is answered, with status 200,
    404, 422 or 500; the answer is typed [application/json] when the status is
    200 and as plain text otherwise; and at most two requests are sent. *)
Theorem backend_always_answers (httpClient : Request -> result Response)
    (WEATHER_API_KEY : string) (seed : positive) (r : Request) :
  let out := serve (ServiceB.getWeatherHandler httpClient WEATHER_API_KEY) seed r in
  exists reply,
    out.1 = Some reply
    /\ In (Code reply) [200; 404; 422; 500]%Z
    /\ Header_Get (Headers reply) "Content-Type"
       = (if (Code reply =? 200)%Z then "application/json"
          else "text/plain; charset=utf-8")
    /\ (length (requests out.2) <= 2)%nat.
Proof.
  unfold serve, ServiceB.getWeatherHandler. run.
  destruct (negb (len _ =? 8)%Z); run.
  { eexists. split; [reflexivity |]. cbn [Code Headers].
    split; [simpl; auto |]. split; [apply error_headers_type | simpl; lia]. }
  call_with_events call_getLocation getLocation_events_at res evs Hsp Hreqs Hres. run.
  apply spanned_requests in Hsp.
  destruct res as [loc | e]; run.
  2:{ eexists. split; [reflexivity |]. cbn [Code Headers].
      split; [simpl; auto |]. split; [apply error_headers_type |].
      read_trace. rewrite app_nil_r. lia. }
  call_with_events call_getTemperature getTemperature_events_at res' evs' Hsp' Hreqs' Hres'.
  run. apply spanned_requests in Hsp'.
  assert (Hcount : forall tail : list event, requests tail = [] ->
            (length (requests ((SpanStart "getWeatherHandler"
                       (new_span (SpanContextFromContext (Extract (Ctx r) (ReqHeader r))) seed)
                       (SpanContextFromContext (Extract (Ctx r) (ReqHeader r)))
                     :: evs ++ evs') ++ tail)%list) <= 2)%nat).
  { intros tail Htail. read_trace. rewrite Htail, app_nil_r, length_app. lia. }
  destruct res' as [c | e]; run.
  2:{ eexists. split; [reflexivity |]. cbn [Code Headers].
      split; [simpl; auto |]. split; [apply error_headers_type | now apply Hcount]. }
  destruct (_ && _); run;
    (eexists; split; [reflexivity |]; cbn [Code Headers];
     split; [simpl; auto |]; split; [apply Header_Get_Set | now apply Hcount]).
Qed.

(** X2. The backend validates the code as it was before escaping: for every
    code, the query [cep=] followed by its escaping is read back as the code,
    so the request is refused with 422 exactly when the code is not 8 bytes
    long. *)
Theorem backend_validates_decoded_code (httpClient : Request -> result Response)
    (WEATHER_API_KEY : string) (seed : positive) (code : string) :
  let r := get_request ("cep=" ++ url_QueryEscape code) in
  let out := serve (ServiceB.getWeatherHandler httpClient WEATHER_API_KEY) seed r in
  Values_Get (URL_Query (URL_ r)) "cep" = code
  /\ (len code <> 8%Z -> answers out http_StatusUnprocessableEntity "invalid zipcode")
  /\ (len code = 8%Z ->
      In "getLocation from viacep" (started out.2)
      /\ exists reply, out.1 = Some reply /\ Code reply <> http_StatusUnprocessableEntity).
Proof.
  intros r out. pose proof (escaped_query_cep code) as Hcep. fold r in Hcep.
  split; [exact Hcep |]. split.
  - intros Hlen. apply backend_invalid_run. now rewrite Hcep.
  - intros Hlen.
    destruct (backend_valid_run httpClient WEATHER_API_KEY seed r) as (Hst & reply & Hr & Hc).
    { now rewrite Hcep. }
    split; [exact Hst |]. exists reply. split; [exact Hr |].
    unfold http_StatusNotFound, http_StatusInternalServerError, http_StatusOK,
      http_StatusUnprocessableEntity in *.
    lia.
Qed.

(** X3. The first [cep] parameter decides: whatever follows it in the query, the
    backend answers as it does to the query that holds this parameter alone. *)
Theorem first_cep_parameter_decides (httpClient : Request -> result Response)
    (WEATHER_API_KEY : string) (seed : positive) (code rest : string) :
  serve (ServiceB.getWeatherHandler httpClient WEATHER_API_KEY) seed
    (get_request ("cep=" ++ url_QueryEscape code ++ "&" ++ rest))
  = serve (ServiceB.getWeatherHandler httpClient WEATHER_API_KEY) seed
      (get_request ("cep=" ++ url_QueryEscape code)).
Proof.
  assert (Hcep : Values_Get (URL_Query (URL_ (get_request
                   ("cep=" ++ url_QueryEscape code ++ "&" ++ rest)))) "cep" = code).
  { unfold URL_Query, get_request. cbn [URL_ RawQuery].
    assert (Hq : forall x : ascii, shouldEscape x encodeQueryComponent = true ->
              x <> "%"%char -> x <> "+"%char ->
              strings_ContainsByte ("cep" ++ String "=" (url_QueryEscape code)) x
              = strings_ContainsByte "cep=" x).
    { intros x H1 H2 H3. change ("cep" ++ String "=" (url_QueryEscape code))
        with ("cep=" ++ url_QueryEscape code).
      now rewrite strings_ContainsByte_app, (QueryEscape_bytes code x H1 H2 H3), orb_false_r. }
    change ("cep=" ++ url_QueryEscape code ++ "&" ++ rest)
      with ("cep" ++ String "=" (url_QueryEscape code ++ String "&" rest)).
    rewrite (proj1 (parseQuery_pair _ ∅ "cep" (url_QueryEscape code) "cep" code rest
                      (Hq "&"%char eq_refl ltac:(discriminate) ltac:(discriminate))
                      (Hq ";"%char eq_refl ltac:(discriminate) ltac:(discriminate))
                      eq_refl eq_refl (QueryUnescape_QueryEscape code))).
    apply parseQuery_keeps_first.
    - unfold Values_Get. now rewrite lookup_insert_eq, lookup_empty.
    - rewrite lookup_insert_eq. eauto.
    - rewrite lookup_insert_eq, lookup_empty. discriminate. }
  unfold serve, ServiceB.getWeatherHandler.
  rewrite Hcep, (escaped_query_cep code). reflexivity.
Qed.

(** X4. A code the lookup URL cannot be built from, such as one with a control
    byte or a malformed percent escape, is answered 404 by the backend without
    any request to a provider. *)
Theorem unparsed_code_is_404 (httpClient : Request -> result Response)
    (WEATHER_API_KEY : string) (seed : positive) (r : Request) (e : error) :
  len (Values_Get (URL_Query (URL_ r)) "cep") = 8%Z ->
  url_Parse (lookup_url (Values_Get (URL_Query (URL_ r)) "cep")) = Err e ->
  let out := serve (ServiceB.getWeatherHandler httpClient WEATHER_API_KEY) seed r in
  answers out http_StatusNotFound "can not find zipcode"
  /\ requests out.2 = [].
Proof.
  intros Hlen%Z.eqb_eq Hurl.
  unfold serve, ServiceB.getWeatherHandler. run. rewrite Hlen. run.
  rewrite (getLocation_unparsed httpClient _ _ _ _ e Hurl). run.
  split; [| reflexivity]. eexists. repeat split.
Qed.

Lemma unparsed_code_is_404_witness :
  let out := serve (ServiceB.getWeatherHandler
                      (providers (Ok geo_sao_paulo) (Ok weather_28_5)) "key")
               1 (get_request "cep=%091234567") in
  answers out 404 "can not find zipcode" /\ requests out.2 = [].
Proof.
  apply (unparsed_code_is_404 (providers (Ok geo_sao_paulo) (Ok weather_28_5)) "key" 1
           (get_request "cep=%091234567") "net/url: invalid control character in URL").
  - reflexivity.
  - vm_compute. reflexivity.
Defined.

(** X5. The backend asks the weather provider about the locality the geocoding
    provider named: for a code of 8 bytes resolved to [loc], whatever the bytes
    of [loc], and an alphanumeric API key, the backend sends two requests, the
    first to viacep.com.br and the second to api.weatherapi.com with [loc] as
    its [q] parameter. *)
Theorem weather_is_asked_for_named_locality (httpClient : Request -> result Response)
    (WEATHER_API_KEY : string) (seed : positive) (r : Request) (loc : string) :
  len (Values_Get (URL_Query (URL_ r)) "cep") = 8%Z ->
  resolves httpClient (Values_Get (URL_Query (URL_ r)) "cep") loc ->
  alphanumeric WEATHER_API_KEY = true ->
  let out := serve (ServiceB.getWeatherHandler httpClient WEATHER_API_KEY) seed r in
  exists lookup fetch,
    requests out.2 = [lookup; fetch]
    /\ Host (URL_ lookup) = "viacep.com.br"
    /\ Host (URL_ fetch) = "api.weatherapi.com"
    /\ Values_Get (URL_Query (URL_ fetch)) "q" = loc.
Proof.
  intros Hlen%Z.eqb_eq Hloc Hkey.
  unfold serve, ServiceB.getWeatherHandler. run. rewrite Hlen. run.
  match goal with |- context [ServiceB.getLocation ?c ?x ?t ?s ?g] =>
    pose proof (Hloc x t g) as Hrun end.
  call_getLocation res evs Hop Hcl Hst Hreqs Hres.
  simpl in Hrun. injection Hrun as ->. run.
  destruct Hres as (lookup & Hlookup & _). rewrite Hlookup in Hreqs.
  apply Forall_inv in Hreqs.
  match goal with |- context [ServiceB.getTemperature ?c ?k ?x ?t ?s ?g] =>
    pose proof (getTemperature_request c k x t s g _ (weather_url_parses k s Hkey)) as Hsent
  end.
  call_getTemperature res' evs' Hop' Hcl' Hst' Hreqs' Hres'.
  cbn [trace snd supply SpanContextFromContext] in Hsent.
  rewrite requests_app in Hsent. apply app_inv_head in Hsent.
  assert (Hall : forall tail : list event, requests tail = [] ->
            exists lookup fetch,
              requests ((SpanStart "getWeatherHandler"
                           (new_span (SpanContextFromContext
                                        (Extract (Ctx r) (ReqHeader r))) seed)
                           (SpanContextFromContext (Extract (Ctx r) (ReqHeader r)))
                         :: evs ++ evs') ++ tail)%list = [lookup; fetch]
              /\ Host (URL_ lookup) = "viacep.com.br"
              /\ Host (URL_ fetch) = "api.weatherapi.com"
              /\ Values_Get (URL_Query (URL_ fetch)) "q" = loc).
  { intros tail Htail. eexists _, _. split.
    { read_trace. rewrite Hlookup, Hsent, Htail. reflexivity. }
    split; [exact Hreqs |]. rewrite Inject_URL. cbn [URL_ Host].
    split; [reflexivity |]. apply (weather_query WEATHER_API_KEY loc Hkey). }
  run. destruct res' as [c | e]; run; [destruct (_ && _); run |]; now apply Hall.
Qed.

Lemma weather_is_asked_for_named_locality_witness :
  let out := serve (ServiceB.getWeatherHandler
                      (providers (Ok geo_sao_paulo) (Ok weather_28_5)) "key")
               1 (get_request "cep=01001000") in
  exists lookup fetch,
    requests out.2 = [lookup; fetch]
    /\ Host (URL_ lookup) = "viacep.com.br"
    /\ Host (URL_ fetch) = "api.weatherapi.com"
    /\ Values_Get (URL_Query (URL_ fetch)) "q" = "São Paulo".
Proof.
  apply (weather_is_asked_for_named_locality
           (providers (Ok geo_sao_paulo) (Ok weather_28_5)) "key" 1
           (get_request "cep=01001000") "São Paulo").
  - reflexivity.
  - apply sao_paulo_resolves.
  - reflexivity.
Defined.

(** X6. The backend's spans nest: the handler's span is opened first, under the
    caller's span if the request carries one; the resolvers' spans are its
    children in its trace, opened in the order geocode, temperature, and each is
    closed before the handler's, which is closed last. *)
Theorem backend_spans_nest (httpClient : Request -> result Response)
    (WEATHER_API_KEY : string) (seed : positive) (r : Request) :
  let tr := (serve (ServiceB.getWeatherHandler httpClient WEATHER_API_KEY) seed r).2 in
  exists h children,
    parents tr = (h, SpanContextFromContext (Extract (Ctx r) (ReqHeader r)))
                 :: map (fun sc => (sc, h)) children
    /\ Forall (fun sc => TraceID sc = TraceID h) children
    /\ closed tr = (children ++ [h])%list
    /\ started tr = take (S (length children))
                      ["getWeatherHandler"; "getLocation from viacep";
                       "getTemperature from weatherapi"].
Proof.
  intros tr. subst tr.
  destruct (backend_events httpClient WEATHER_API_KEY seed r) as (mid & -> & Hmid).
  set (parent := SpanContextFromContext (Extract (Ctx r) (ReqHeader r))) in *.
  pose proof (new_span_IsValid parent seed) as Hvalid.
  set (h := new_span parent seed) in *.
  exists h.
  destruct Hmid as [-> | [(s & Hl) | (s & s' & m1 & m2 & -> & Hl & Ht)]].
  - exists []. repeat split; constructor.
  - apply spanned_reading in Hl as (Hp & _ & Hc & Hs & _).
    exists [new_span h s]. read_trace. rewrite parents_app, Hp, Hc, Hs.
    repeat split. repeat constructor. now apply new_span_TraceID.
  - apply spanned_reading in Hl as (Hp & _ & Hc & Hs & _).
    apply spanned_reading in Ht as (Hp' & _ & Hc' & Hs' & _).
    exists [new_span h s; new_span h s']. read_trace.
    rewrite !parents_app, Hp, Hp', Hc, Hc', Hs, Hs'.
    repeat split. repeat constructor; now apply new_span_TraceID.
Qed.

(** X7. The backend joins the caller's trace: when the request carries a span in
    its [traceparent] header, the handler's span is a child of that span, every
    span the backend opens is in the caller's trace, and every request the
    backend sends to a provider carries one of these spans. *)
Theorem backend_joins_trace (httpClient : Request -> result Response)
    (WEATHER_API_KEY : string) (seed : positive) (r : Request) (sc : SpanContext) :
  IsValid sc = true -> fits_header sc -> carries r sc ->
  let tr := (serve (ServiceB.getWeatherHandler httpClient WEATHER_API_KEY) seed r).2 in
  (exists h rest, parents tr = (h, remote sc) :: rest)
  /\ Forall (fun s => TraceID s = TraceID sc) (opened tr)
  /\ Forall (fun req => exists s, In s (opened tr) /\ carries req s) (requests tr).
Proof. apply backend_joins. Qed.

Lemma backend_joins_trace_witness :
  let r := Inject {| SpanContextFromContext := caller_span |} (get_request "cep=01001000") in
  let tr := (serve (ServiceB.getWeatherHandler
                      (providers (Ok geo_sao_paulo) (Ok weather_28_5)) "key") 1 r).2 in
  (exists h rest, parents tr = (h, remote caller_span) :: rest)
  /\ Forall (fun s => TraceID s = TraceID caller_span) (opened tr)
  /\ Forall (fun req => exists s, In s (opened tr) /\ carries req s) (requests tr).
Proof.
  apply (backend_joins_trace (providers (Ok geo_sao_paulo) (Ok weather_28_5)) "key" 1
           (Inject {| SpanContextFromContext := caller_span |} (get_request "cep=01001000"))
           caller_span).
  - reflexivity.
  - split; vm_compute; reflexivity.
  - now apply carries_Inject.
Defined.

(** * Further properties of the resolvers *)

(** X8. The geocode resolver asks for the code it was given: for an alphanumeric
    code it sends one GET request for [http://viacep.com.br/ws/<code>/json/],
    without a query. *)
Theorem lookup_request_names_code (httpClient : Request -> result Response)
    (ctx : context) (tracer : Tracer) (cep : string) (g : goroutine) :
  alphanumeric cep = true ->
  let run := ServiceB.getLocation httpClient ctx tracer cep g in
  exists req,
    requests (trace run.2) = (requests (trace g) ++ [req])%list
    /\ Method req = "GET"
    /\ Scheme (URL_ req) = "http" /\ Host (URL_ req) = "viacep.com.br"
    /\ Path (URL_ req) = "/ws/" ++ cep ++ "/json/"
    /\ RawQuery (URL_ req) = "".
Proof.
  intros Hcep run. subst run.
  eexists. split.
  { apply getLocation_request, lookup_url_parses, Hcep. }
  rewrite Inject_URL. unfold Inject. cbn [SpanContextFromContext]. rewrite new_span_IsValid.
  cbn [Method URL_ Scheme Host Path RawQuery]. repeat split.
Qed.

Lemma lookup_request_names_code_witness :
  exists req,
    requests (trace (ServiceB.getLocation (fun _ => Ok geo_sao_paulo) context_Background
                       (otel_Tracer "getWeatherHandler") "01001000"
                       (new_goroutine 1)).2) = [req]
    /\ Method req = "GET"
    /\ Scheme (URL_ req) = "http" /\ Host (URL_ req) = "viacep.com.br"
    /\ Path (URL_ req) = "/ws/" ++ "01001000" ++ "/json/"
    /\ RawQuery (URL_ req) = "".
Proof.
  apply (lookup_request_names_code (fun _ => Ok geo_sao_paulo) context_Background
           (otel_Tracer "getWeatherHandler") "01001000" (new_goroutine 1)).
  reflexivity.
Defined.

(** X9. The code is written into the lookup URL as it is: of a code [a?b] the
    geocode resolver asks for the path [/ws/a], with [b/json/] as the query. *)
Theorem lookup_code_is_not_escaped (httpClient : Request -> result Response)
    (ctx : context) (tracer : Tracer) (a b : string) (g : goroutine) :
  alphanumeric a = true -> alphanumeric b = true ->
  let run := ServiceB.getLocation httpClient ctx tracer (a ++ "?" ++ b) g in
  exists req,
    requests (trace run.2) = (requests (trace g) ++ [req])%list
    /\ Host (URL_ req) = "viacep.com.br"
    /\ Path (URL_ req) = "/ws/" ++ a
    /\ RawQuery (URL_ req) = b ++ "/json/".
Proof.
  intros Ha Hb run. subst run.
  assert (Hurl : url_Parse (lookup_url (a ++ "?" ++ b)) =
            Ok {| Scheme := "http"; Opaque := ""; Host := "viacep.com.br";
                  Path := "/ws/" ++ a; RawQuery := b ++ "/json/"; Fragment := "" |}).
  { unfold url_Parse, lookup_url.
    rewrite strings_Cut_none.
    2:{ now rewrite !strings_ContainsByte_app, (alphanumeric_ContainsByte a "#" Ha eq_refl),
          (alphanumeric_ContainsByte b "#" Hb eq_refl). }
    unfold url_parse.
    rewrite !stringContainsCTLByte_app, (alphanumeric_no_CTL a Ha), (alphanumeric_no_CTL b Hb).
    change (stringContainsCTLByte "http://viacep.com.br/ws/") with false.
    change (stringContainsCTLByte "?") with false.
    change (stringContainsCTLByte "/json/") with false.
    cbn [orb].
    replace ("http://viacep.com.br/ws/" ++ (a ++ "?" ++ b) ++ "/json/")
      with ("http:" ++ ("//viacep.com.br/ws/" ++ a) ++ String "?" (b ++ "/json/"))
      by (now rewrite !append_assoc).
    rewrite getScheme_http.
    rewrite strings_Cut_at
      by (now rewrite strings_ContainsByte_app, (alphanumeric_ContainsByte a "?" Ha eq_refl)).
    change (strings_HasPrefix ("//viacep.com.br/ws/" ++ a) "/") with true.
    change (strings_HasPrefix ("//viacep.com.br/ws/" ++ a) "//") with true.
    change (drop2 ("//viacep.com.br/ws/" ++ a))
      with ("viacep.com.br" ++ String "/" ("ws/" ++ a)).
    rewrite (strings_Cut_at "viacep.com.br" _ "/" eq_refl).
    change (parseAuthority "viacep.com.br") with (Ok "viacep.com.br").
    cbn [negb andb orb String.eqb Ascii.eqb Bool.eqb].
    change (String "/" ("ws/" ++ a)) with ("/ws/" ++ a).
    rewrite unescape_plain; [reflexivity | discriminate | | discriminate].
    now rewrite !strings_ContainsByte_app, (alphanumeric_ContainsByte a "%" Ha eq_refl). }
  eexists. split; [apply getLocation_request, Hurl |].
  rewrite Inject_URL. cbn [URL_ Host Path RawQuery]. repeat split.
Qed.

Lemma lookup_code_is_not_escaped_witness :
  exists req,
    requests (trace (ServiceB.getLocation (fun _ => Ok geo_sao_paulo) context_Background
                       (otel_Tracer "getWeatherHandler") ("0100" ++ "?" ++ "000")
                       (new_goroutine 1)).2) = [req]
    /\ Host (URL_ req) = "viacep.com.br"
    /\ Path (URL_ req) = "/ws/" ++ "0100"
    /\ RawQuery (URL_ req) = "000" ++ "/json/".
Proof.
  apply (lookup_code_is_not_escaped (fun _ => Ok geo_sao_paulo) context_Background
           (otel_Tracer "getWeatherHandler") "0100" "000" (new_goroutine 1));
    reflexivity.
Defined.

(** X10. The temperature resolver asks for the location it was given: for every
    location, whatever its bytes, and an alphanumeric API key, it sends one GET
    request to api.weatherapi.com/v1/current.json whose [q] parameter is the
    location and whose [key] parameter is the key. *)
Theorem weather_request_names_location (httpClient : Request -> result Response)
    (WEATHER_API_KEY : string) (ctx : context) (tracer : Tracer) (location : string)
    (g : goroutine) :
  alphanumeric WEATHER_API_KEY = true ->
  let run := ServiceB.getTemperature httpClient WEATHER_API_KEY ctx tracer location g in
  exists req,
    requests (trace run.2) = (requests (trace g) ++ [req])%list
    /\ Method req = "GET"
    /\ Scheme (URL_ req) = "http" /\ Host (URL_ req) = "api.weatherapi.com"
    /\ Path (URL_ req) = "/v1/current.json"
    /\ Values_Get (URL_Query (URL_ req)) "key" = WEATHER_API_KEY
    /\ Values_Get (URL_Query (URL_ req)) "q" = location.
Proof.
  intros Hkey run. subst run.
  eexists. split.
  { apply getTemperature_request, weather_url_parses, Hkey. }
  rewrite Inject_URL. unfold Inject. cbn [SpanContextFromContext]. rewrite new_span_IsValid.
  cbn [Method URL_ Scheme Host Path].
  repeat (split; [reflexivity |]).
  apply (weather_query WEATHER_API_KEY location Hkey).
Qed.

Lemma weather_request_names_location_witness :
  exists req,
    requests (trace (ServiceB.getTemperature (fun _ => Ok weather_28_5) "0123abcd"
                       context_Background (otel_Tracer "getWeatherHandler")
                       "São Paulo" (new_goroutine 1)).2) = [req]
    /\ Method req = "GET"
    /\ Scheme (URL_ req) = "http" /\ Host (URL_ req) = "api.weatherapi.com"
    /\ Path (URL_ req) = "/v1/current.json"
    /\ Values_Get (URL_Query (URL_ req)) "key" = "0123abcd"
    /\ Values_Get (URL_Query (URL_ req)) "q" = "São Paulo".
Proof.
  apply (weather_request_names_location (fun _ => Ok weather_28_5) "0123abcd"
           context_Background (otel_Tracer "getWeatherHandler") "São Paulo"
           (new_goroutine 1)).
  reflexivity.
Defined.

(** X11. The temperature the resolver returns is always the [float64] that
    [json.Unmarshal] stored at [current.temp_c]: the fallback on an [int] is
    never taken, because Unmarshal stores no [int] into an [interface{}]. *)
Theorem temperature_is_a_decoded_float64 (httpClient : Request -> result Response)
    (WEATHER_API_KEY : string) (ctx : context) (tracer : Tracer) (location : string)
    (g : goroutine) (c : float64) :
  let run := ServiceB.getTemperature httpClient WEATHER_API_KEY ctx tracer location g in
  run.1 = Some (Ok c) ->
  exists req resp m current,
    In req (requests (trace run.2))
    /\ httpClient req = Ok resp /\ StatusCode resp = 200%Z /\ decodes resp m
    /\ map_index m "current" = any_map current
    /\ map_index current "temp_c" = any_float64 c.
Proof.
  intros run. subst run.
  destruct (getTemperature_run httpClient WEATHER_API_KEY ctx tracer location g)
    as (res & evs & -> & _ & _ & _ & _ & Hres).
  cbn [fst snd trace]. intros [= ->].
  destruct Hres as (req & Hreq & resp & m & current & Hresp & Hcode & Hm & Hcur & Hc).
  exists req, resp, m, current.
  split; [rewrite requests_app, Hreq; apply in_or_app; right; now left |].
  repeat (split; [assumption |]).
  destruct Hm as (body & _ & Hbody).
  pose proof (decoded_temp_c_not_int body m current Hbody Hcur) as Hint.
  destruct (map_index current "temp_c"); simpl in *; congruence.
Qed.

Lemma temperature_is_a_decoded_float64_witness :
  exists req resp m current,
    In req (requests (trace (ServiceB.getTemperature (fun _ => Ok weather_28) "key"
                               context_Background (otel_Tracer "getWeatherHandler")
                               "Rio" (new_goroutine 1)).2))
    /\ Ok weather_28 = Ok resp
    /\ StatusCode resp = 200%Z /\ decodes resp m
    /\ map_index m "current" = any_map current
    /\ map_index current "temp_c" = any_float64 28%float.
Proof.
  apply (temperature_is_a_decoded_float64 (fun _ => Ok weather_28) "key" context_Background
           (otel_Tracer "getWeatherHandler") "Rio" (new_goroutine 1) 28%float).
  vm_compute. reflexivity.
Defined.

(** * Further properties of the edge *)

(** X12. On every path the edge opens exactly one span, named
    [request-temp-info-to-service-b], under the caller's span if the request
    carries one, and sends at most one request, which carries the edge's span in
    its [traceparent] header. *)
Theorem edge_runs_under_one_span (DefaultClient : Request -> result Response)
    (seed : positive) (r : Request) :
  let tr := (serve (ServiceA.postCepHandler DefaultClient) seed r).2 in
  exists span,
    parents tr = [(span, SpanContextFromContext (Extract (Ctx r) (ReqHeader r)))]
    /\ started tr = ["request-temp-info-to-service-b"]
    /\ (length (requests tr) <= 1)%nat
    /\ Forall (fun req => carries req span) (requests tr).
Proof.
  intros tr. subst tr.
  pose proof (edge_events DefaultClient seed r) as Hsp. cbv zeta in Hsp.
  pose proof (spanned_requests _ _ _ _ _ Hsp) as Hone.
  apply spanned_reading in Hsp as (Hp & _ & _ & Hs & _ & Hc).
  eexists. split; [exact Hp |]. split; [exact Hs |]. split; [exact Hone | exact Hc].
Qed.

(** X13. The edge relays the backend's status: for a status in 200..999 other
    than 404 that admits a body, the caller gets that status, the JSON content
    type, and the re-encoding of the report the backend's body was decoded into
    (nothing, should the report hold a number that is not finite). *)
Theorem edge_relays_status (DefaultClient : Request -> result Response)
    (seed : positive) (r : Request) (sent : Request) (resp : Response) :
  let out := serve (ServiceA.postCepHandler DefaultClient) seed r in
  In sent (requests out.2) ->
  DefaultClient sent = Ok resp ->
  (200 <= StatusCode resp <= 999)%Z ->
  StatusCode resp <> http_StatusNotFound ->
  bodyAllowedForStatus (StatusCode resp) = true ->
  exists reply,
    out.1 = Some reply
    /\ Code reply = StatusCode resp
    /\ Header_Get (Headers reply) "Content-Type" = "application/json"
    /\ Content reply =
         if writable (decoded_report resp)
         then [Encoded (ServiceA.marshal (decoded_report resp))]
         else [].
Proof.
  intros out Hsent Hresp Hcode Hne%Z.eqb_neq _. subst out.
  rewrite (edge_relay_run DefaultClient seed r sent resp Hsent Hresp Hcode), Hne.
  eexists. split; [reflexivity |]. cbn [Code Headers Content].
  split; [reflexivity |]. split; [apply json_headers_type | reflexivity].
Qed.

Lemma edge_relays_status_witness :
  exists reply,
    (serve (ServiceA.postCepHandler (fun _ => Ok backend_report)) 1
       (post_request (cep_body "01001000"))).1 = Some reply
    /\ Code reply = 200%Z
    /\ Header_Get (Headers reply) "Content-Type" = "application/json"
    /\ Content reply =
         [Encoded [("city", any_string "São Paulo"); ("temp_C", any_float64 28.5%float);
                   ("temp_F", any_float64 83.3%float);
                   ("temp_K", any_float64 301.65%float)]].
Proof.
  eapply (edge_relays_status (fun _ => Ok backend_report) 1
            (post_request (cep_body "01001000")) _ backend_report).
  - vm_compute. left. reflexivity.
  - reflexivity.
  - vm_compute. split; discriminate.
  - vm_compute. discriminate.
  - reflexivity.
Defined.

(** X14. The backend's error messages do not reach the caller: when the backend
    answers with a status in 200..999 other than 404 that admits a body, and the
    body is no JSON object (as the text [http.Error] writes for 422 and 500),
    the edge answers with that status and a report of an empty city and three
    zeros. *)
Theorem edge_answers_empty_report (DefaultClient : Request -> result Response)
    (seed : positive) (r : Request) (sent : Request) (resp : Response) :
  let out := serve (ServiceA.postCepHandler DefaultClient) seed r in
  In sent (requests out.2) ->
  DefaultClient sent = Ok resp ->
  (200 <= StatusCode resp <= 999)%Z ->
  StatusCode resp <> http_StatusNotFound ->
  bodyAllowedForStatus (StatusCode resp) = true ->
  (forall members, Body resp <> Reader (JSONText (JObject members))) ->
  exists reply,
    out.1 = Some reply
    /\ Code reply = StatusCode resp
    /\ Content reply =
         [Encoded [("city", any_string ""); ("temp_C", any_float64 0%float);
                   ("temp_F", any_float64 0%float); ("temp_K", any_float64 0%float)]].
Proof.
  intros out Hsent Hresp Hcode Hne%Z.eqb_neq _ Hbody. subst out.
  rewrite (edge_relay_run DefaultClient seed r sent resp Hsent Hresp Hcode), Hne.
  rewrite (no_object_no_report resp Hbody).
  eexists. split; [reflexivity |]. split; reflexivity.
Qed.

Lemma edge_answers_empty_report_witness :
  exists reply,
    (serve (ServiceA.postCepHandler (fun _ => Ok backend_failed)) 1
       (post_request (cep_body "01001000"))).1 = Some reply
    /\ Code reply = 500%Z
    /\ Content reply =
         [Encoded [("city", any_string ""); ("temp_C", any_float64 0%float);
                   ("temp_F", any_float64 0%float); ("temp_K", any_float64 0%float)]].
Proof.
  eapply (edge_answers_empty_report (fun _ => Ok backend_failed) 1
            (post_request (cep_body "01001000")) _ backend_failed).
  - vm_compute. left. reflexivity.
  - reflexivity.
  - vm_compute. split; discriminate.
  - vm_compute. discriminate.
  - reflexivity.
  - intros members. discriminate.
Defined.

(** X15. The 404 the edge relays keeps the JSON content type, although its body
    is the plain-text message: the header was written, with the status, before
    [http.Error] set its own headers, which are not sent. *)
Theorem relayed_404_is_typed_json (DefaultClient : Request -> result Response)
    (seed : positive) (r : Request) (sent : Request) (resp : Response) :
  let out := serve (ServiceA.postCepHandler DefaultClient) seed r in
  In sent (requests out.2) ->
  DefaultClient sent = Ok resp ->
  StatusCode resp = http_StatusNotFound ->
  exists reply,
    out.1 = Some reply
    /\ Code reply = http_StatusNotFound
    /\ Header_Get (Headers reply) "Content-Type" = "application/json"
    /\ Header_Get (Headers reply) "X-Content-Type-Options" = ""
    /\ Content reply = [Text ("can not find zipcode" ++ newline)].
Proof.
  intros out Hsent Hresp Hcode. subst out.
  rewrite (edge_relay_run DefaultClient seed r sent resp Hsent Hresp), Hcode
    by (rewrite Hcode; unfold http_StatusNotFound; lia).
  eexists. split; [reflexivity |]. cbn [Code Headers Content].
  split; [reflexivity |]. split; [apply json_headers_type |].
  split; [apply json_headers_type | reflexivity].
Qed.

Lemma relayed_404_is_typed_json_witness :
  exists reply,
    (serve (ServiceA.postCepHandler (fun _ => Ok backend_not_found)) 1
       (post_request (cep_body "99999999"))).1 = Some reply
    /\ Code reply = 404%Z
    /\ Header_Get (Headers reply) "Content-Type" = "application/json"
    /\ Header_Get (Headers reply) "X-Content-Type-Options" = ""
    /\ Content reply = [Text ("can not find zipcode" ++ newline)].
Proof.
  eapply (relayed_404_is_typed_json (fun _ => Ok backend_not_found) 1
            (post_request (cep_body "99999999")) _ backend_not_found).
  - vm_compute. left. reflexivity.
  - reflexivity.
  - reflexivity.
Defined.

(** X16. A backend status below 100 or above 999 makes the edge's handler panic
    in [WriteHeader]: the caller gets no reply; the span is ended and the body
    is closed all the same. *)
Theorem edge_panics_on_invalid_status (DefaultClient : Request -> result Response)
    (seed : positive) (r : Request) (sent : Request) (resp : Response) :
  let out := serve (ServiceA.postCepHandler DefaultClient) seed r in
  In sent (requests out.2) ->
  DefaultClient sent = Ok resp ->
  (StatusCode resp < 100 \/ 999 < StatusCode resp)%Z ->
  out.1 = None
  /\ closed out.2 = opened out.2
  /\ bodies_closed out.2 = 1%nat.
Proof.
  intros out Hsent Hresp Hcode. subst out.
  split; [now apply (edge_panic_run DefaultClient seed r sent resp) |].
  pose proof (edge_events DefaultClient seed r) as Hsp.
  pose proof (spanned_reading _ _ _ _ _ Hsp) as (_ & Ho & Hc & _ & Hb & _).
  rewrite Ho, Hc, Hb. split; [reflexivity |].
  destruct (edge_sent DefaultClient seed r sent Hsent) as (_ & _ & _ & _ & _ & _ & Hone).
  unfold responses. rewrite Hone. simpl. now rewrite Hresp.
Qed.

Lemma edge_panics_on_invalid_status_witness :
  let out := serve (ServiceA.postCepHandler (fun _ => Ok backend_status_099)) 1
               (post_request (cep_body "01001000")) in
  out.1 = None /\ closed out.2 = opened out.2 /\ bodies_closed out.2 = 1%nat.
Proof.
  eapply (edge_panics_on_invalid_status (fun _ => Ok backend_status_099) 1
            (post_request (cep_body "01001000")) _ backend_status_099).
  - vm_compute. left. reflexivity.
  - reflexivity.
  - left. vm_compute. reflexivity.
Defined.

(** X17. The edge's handler panics only when the backend's status is no status a
    server may write: whenever the caller gets no reply, the edge had sent its
    request and the response to it had a status below 100 or above 999. *)
Theorem edge_panics_only_on_invalid_status (DefaultClient : Request -> result Response)
    (seed : positive) (r : Request) :
  let out := serve (ServiceA.postCepHandler DefaultClient) seed r in
  out.1 = None ->
  exists sent resp,
    In sent (requests out.2)
    /\ DefaultClient sent = Ok resp
    /\ (StatusCode resp < 100 \/ 999 < StatusCode resp)%Z.
Proof.
  intros out Hnone. subst out.
  destruct (edge_returns DefaultClient seed r) as [[reply Hreply] | H]; [congruence | exact H].
Qed.

Lemma edge_panics_only_on_invalid_status_witness :
  let out := serve (ServiceA.postCepHandler (fun _ => Ok backend_status_099)) 1
               (post_request (cep_body "01001000")) in
  exists sent resp,
    In sent (requests out.2)
    /\ Ok backend_status_099 = Ok resp
    /\ (StatusCode resp < 100 \/ 999 < StatusCode resp)%Z.
Proof.
  apply (edge_panics_only_on_invalid_status (fun _ => Ok backend_status_099) 1
           (post_request (cep_body "01001000"))).
  reflexivity.
Defined.

(** X18. When the transport fails, the edge answers 500 with the transport's
    error in the message, and closes no body. *)
Theorem transport_failure_is_500 (DefaultClient : Request -> result Response)
    (seed : positive) (r : Request) (sent : Request) (e : error) :
  let out := serve (ServiceA.postCepHandler DefaultClient) seed r in
  In sent (requests out.2) ->
  DefaultClient sent = Err e ->
  answers out http_StatusInternalServerError ("DefaultClient.Do service b error: " ++ e)
  /\ bodies_closed out.2 = 0%nat.
Proof.
  intros out Hsent Hresp. subst out.
  split; [now apply (edge_failed_run DefaultClient seed r sent e) |].
  pose proof (edge_events DefaultClient seed r) as Hsp.
  pose proof (spanned_reading _ _ _ _ _ Hsp) as (_ & _ & _ & _ & Hb & _).
  rewrite Hb.
  destruct (edge_sent DefaultClient seed r sent Hsent) as (_ & _ & _ & _ & _ & _ & Hone).
  unfold responses. rewrite Hone. simpl. now rewrite Hresp.
Qed.

Lemma transport_failure_is_500_witness :
  let out := serve (ServiceA.postCepHandler (fun _ => Err "connection refused")) 1
               (post_request (cep_body "01001000")) in
  answers out 500 "DefaultClient.Do service b error: connection refused"
  /\ bodies_closed out.2 = 0%nat.
Proof.
  eapply (transport_failure_is_500 (fun _ => Err "connection refused") 1
            (post_request (cep_body "01001000")) _ "connection refused").
  - vm_compute. left. reflexivity.
  - reflexivity.
Defined.

(** X19. A code of 8 bytes with a control byte (and no [#], which would start a
    fragment) is not forwarded: the URL built from it does not parse, and the
    edge answers 500 with the parser's error, having sent nothing. *)
Theorem edge_refuses_control_bytes (DefaultClient : Request -> result Response)
    (seed : positive) (r : Request) (c : ServiceA.Cep) :
  json_Decoder_Decode ServiceA.store_Cep (ReqBody r) {| ServiceA.Cep_ := "" |} = (c, None) ->
  len (ServiceA.Cep_ c) = ServiceA.CEP_LENGTH ->
  strings_ContainsByte (ServiceA.Cep_ c) "#" = false ->
  stringContainsCTLByte (ServiceA.Cep_ c) = true ->
  let out := serve (ServiceA.postCepHandler DefaultClient) seed r in
  requests out.2 = []
  /\ exists e, answers out http_StatusInternalServerError
                 ("NewRequestWithContext service b error: " ++ e).
Proof.
  intros Hdec Hlen Hhash Hctl out.
  pose proof (edge_valid_run DefaultClient seed r c Hdec Hlen) as (_ & _ & Hrun).
  fold out in Hrun. unfold http_NewRequestWithContext in Hrun.
  rewrite url_Parse_control_byte in Hrun.
  - destruct Hrun as [Hnone Hans]. split; [exact Hnone | eexists; exact Hans].
  - now rewrite !strings_ContainsByte_app, Hhash.
  - now rewrite !stringContainsCTLByte_app, Hctl, !orb_true_r.
Qed.

Lemma edge_refuses_control_bytes_witness :
  let out := serve (ServiceA.postCepHandler (fun _ => Ok backend_report)) 1
               (post_request (cep_body (String (ascii_of_N 9) "1234567"))) in
  requests out.2 = []
  /\ exists e, answers out 500 ("NewRequestWithContext service b error: " ++ e).
Proof.
  apply (edge_refuses_control_bytes (fun _ => Ok backend_report) 1
           (post_request (cep_body (String (ascii_of_N 9) "1234567")))
           {| ServiceA.Cep_ := String (ascii_of_N 9) "1234567" |});
    reflexivity.
Defined.

(** X20. A body whose [cep] member (under any casing of the key) is a number, a
    boolean, an array or an object is refused with 422, even when another member
    gives a code of 8 bytes; nothing is sent. *)
Theorem edge_rejects_mistyped_cep (DefaultClient : Request -> result Response)
    (seed : positive) (r : Request) (members : list (string * json)) (k : string)
    (x : json) :
  ReqBody r = Reader (JSONText (JObject members)) ->
  In (k, x) members -> names_field "cep" k = true ->
  (forall s, x <> JString s) -> x <> JNull ->
  let out := serve (ServiceA.postCepHandler DefaultClient) seed r in
  answers out http_StatusUnprocessableEntity "invalid zipcode"
  /\ requests out.2 = [].
Proof.
  intros Hbody Hin Hk Hs Hn.
  pose proof (decode_members_Cep_error members k x {| ServiceA.Cep_ := "" |} Hin Hk Hs Hn)
    as Herr.
  destruct (decode_members ServiceA.store_Cep members {| ServiceA.Cep_ := "" |})
    as [c err] eqn:Hdec.
  apply (edge_invalid_run DefaultClient seed r c err).
  - now rewrite Hbody.
  - now left.
Qed.

Lemma edge_rejects_mistyped_cep_witness :
  let out := serve (ServiceA.postCepHandler (fun _ => Ok backend_report)) 1
               (post_request (Reader (JSONText
                  (JObject [("cep", JNumber (Integer false 1001000));
                            ("cep", JString "01001000")])))) in
  answers out 422 "invalid zipcode" /\ requests out.2 = [].
Proof.
  apply (edge_rejects_mistyped_cep (fun _ => Ok backend_report) 1 _
           [("cep", JNumber (Integer false 1001000)); ("cep", JString "01001000")]
           "cep" (JNumber (Integer false 1001000))).
  - reflexivity.
  - left. reflexivity.
  - reflexivity.
  - discriminate.
  - discriminate.
Defined.

(** X21. The key of the code is matched without regard to case: a body whose
    only member is named [cep] under any casing and holds an alphanumeric code
    of 8 bytes is forwarded like [{"cep": code}]. *)
Theorem edge_accepts_any_casing (DefaultClient : Request -> result Response)
    (seed : positive) (key code : string) :
  names_field "cep" key = true ->
  len code = 8%Z -> alphanumeric code = true ->
  let out := serve (ServiceA.postCepHandler DefaultClient) seed
               (post_request (Reader (JSONText (JObject [(key, JString code)])))) in
  exists req,
    requests out.2 = [req]
    /\ Values_Get (URL_Query (URL_ req)) "cep" = code.
Proof.
  intros Hkey Hlen Hcode out.
  destruct (edge_forwards_alphanumeric_code DefaultClient seed
              (post_request (Reader (JSONText (JObject [(key, JString code)]))))
              {| ServiceA.Cep_ := code |})
    as (req & span & Hone & _ & _ & _ & _ & Hcep & _).
  - cbn [post_request ReqBody json_Decoder_Decode decode_members].
    unfold ServiceA.store_Cep. now rewrite Hkey.
  - exact Hlen.
  - exact Hcode.
  - exists req. split; [exact Hone | exact Hcep].
Qed.

Lemma edge_accepts_any_casing_witness :
  let out := serve (ServiceA.postCepHandler (fun _ => Ok backend_report)) 1
               (post_request (Reader (JSONText (JObject [("CEP", JString "01001000")])))) in
  exists req,
    requests out.2 = [req]
    /\ Values_Get (URL_Query (URL_ req)) "cep" = "01001000".
Proof.
  apply (edge_accepts_any_casing (fun _ => Ok backend_report) 1 "CEP" "01001000");
    reflexivity.
Defined.

(** X22. The edge's [getTemperature] is the backend's without tracing: given a
    transport that answers by URL alone, it returns what the backend's resolver
    returns for the same key and location; it opens no span, and it sends at
    most one request, which carries no header. *)
Theorem edge_resolver_agrees (transport : Request -> result Response)
    (WEATHER_API_KEY : string) (ctx : context) (tracer : Tracer) (location : string)
    (g g' : goroutine) :
  (forall req req', URL_ req = URL_ req' -> transport req = transport req') ->
  let run := ServiceA.getTemperature transport WEATHER_API_KEY location g in
  run.1 = (ServiceB.getTemperature transport WEATHER_API_KEY ctx tracer location g').1
  /\ opened (trace run.2) = opened (trace g)
  /\ exists sent,
       requests (trace run.2) = (requests (trace g) ++ sent)%list
       /\ (length sent <= 1)%nat
       /\ Forall (fun req => ReqHeader req = ∅) sent.
Proof.
  intros Hurl run. subst run.
  remember opened as spans eqn:Hspans. remember requests as sends eqn:Hsends.
  unfold ServiceA.getTemperature, ServiceB.getTemperature, http_Get,
    http_NewRequestWithContext.
  destruct (url_Parse _) as [u | e]; run.
  2:{ split; [reflexivity |]. rewrite app_nil_r. split; [reflexivity |].
      exists []. rewrite app_nil_r. split; [reflexivity |]. split; [simpl; lia | constructor]. }
  set (req := {| Method := http_MethodGet; URL_ := u; ReqHeader := ∅;
                 ReqBody := http_NoBody; Ctx := context_Background |}).
  match goal with
  | |- context [transport (Inject ?c ?r)] =>
      rewrite (Hurl (Inject c r) req) by (now rewrite Inject_URL)
  end.
  assert (Hsent : forall tail : list event, opened tail = [] -> requests tail = [] ->
            spans ((trace g ++ [Do req]) ++ tail)%list = spans (trace g)
            /\ exists sent,
                 sends ((trace g ++ [Do req]) ++ tail)%list = (sends (trace g) ++ sent)%list
                 /\ (length sent <= 1)%nat
                 /\ Forall (fun req => ReqHeader req = ∅) sent).
  { intros tail Ho Hr. subst spans sends.
    rewrite !opened_app, !requests_app, Ho, Hr. simpl.
    rewrite !app_nil_r. split; [reflexivity |]. eexists. split; [reflexivity |].
    split; [simpl; lia | repeat constructor]. }
  assert (Hnone : spans (trace g ++ [Do req])%list = spans (trace g)
            /\ exists sent,
                 sends (trace g ++ [Do req])%list = (sends (trace g) ++ sent)%list
                 /\ (length sent <= 1)%nat
                 /\ Forall (fun req => ReqHeader req = ∅) sent).
  { rewrite <- (app_nil_r (trace g ++ [Do req])). now apply Hsent. }
  destruct (transport req) as [resp | e]; run.
  2:{ split; [reflexivity |]. now rewrite !app_nil_r. }
  destruct (negb (StatusCode resp =? http_StatusOK)%Z); run.
  { split; [reflexivity |]. now apply Hsent. }
  destruct (io_ReadAll (Body resp)) as [body|e]; run.
  2:{ split; [reflexivity |]. now apply Hsent. }
  destruct (json_Unmarshal_map body) as [m|e]; run.
  2:{ split; [reflexivity |]. now apply Hsent. }
  destruct (assert_map (map_index m "current")) as [current|]; run.
  2:{ split; [reflexivity |]. now apply Hsent. }
  destruct (assert_float64 (map_index current "temp_c")); run.
  { split; [reflexivity |]. now apply Hsent. }
  destruct (assert_int (map_index current "temp_c")); run;
    (split; [reflexivity |]; now apply Hsent).
Qed.

Lemma edge_resolver_agrees_witness :
  let run := ServiceA.getTemperature (fun _ => Ok weather_28_5) "key" "São Paulo"
               (new_goroutine 1) in
  run.1 = (ServiceB.getTemperature (fun _ => Ok weather_28_5) "key" context_Background
             (otel_Tracer "getWeatherHandler") "São Paulo" (new_goroutine 1)).1
  /\ opened (trace run.2) = opened (trace (new_goroutine 1))
  /\ exists sent,
       requests (trace run.2) = (requests (trace (new_goroutine 1)) ++ sent)%list
       /\ (length sent <= 1)%nat
       /\ Forall (fun req => ReqHeader req = ∅) sent.
Proof.
  apply (edge_resolver_agrees (fun _ => Ok weather_28_5) "key" context_Background
           (otel_Tracer "getWeatherHandler") "São Paulo" (new_goroutine 1) (new_goroutine 1)).
  reflexivity.
Defined.

(** * Across the two services *)

(** X23. Every response body a handler receives is closed exactly once, on every
    path of either handler, and no body is closed when the transport failed: the
    bodies closed are as many as the responses received. *)
Theorem bodies_closed_exactly_once (DefaultClient httpClient : Request -> result Response)
    (WEATHER_API_KEY : string) (seed seed' : positive) (r r' : Request) :
  let edge := (serve (ServiceA.postCepHandler DefaultClient) seed r).2 in
  let backend :=
    (serve (ServiceB.getWeatherHandler httpClient WEATHER_API_KEY) seed' r').2 in
  bodies_closed edge = length (responses DefaultClient edge)
  /\ bodies_closed backend = length (responses httpClient backend).
Proof.
  cbv zeta. split.
  - now destruct (spanned_reading _ _ _ _ _ (edge_events DefaultClient seed r))
      as (_ & _ & _ & _ & Hb & _).
  - destruct (backend_events httpClient WEATHER_API_KEY seed' r') as (mid & -> & Hmid).
    change (?x :: ?l ++ ?t)%list with ([x] ++ l ++ t)%list.
    rewrite !bodies_closed_app, !responses_app, !length_app.
    change (bodies_closed [SpanStart _ _ _]) with 0%nat.
    change (bodies_closed [SpanEnd _]) with 0%nat.
    change (responses httpClient [SpanStart _ _ _]) with (@nil Response).
    change (responses httpClient [SpanEnd _]) with (@nil Response).
    destruct Hmid as [-> | [(s & Hl) | (s & s' & m1 & m2 & -> & Hl & Ht)]].
    + reflexivity.
    + apply spanned_reading in Hl as (_ & _ & _ & _ & Hb & _). simpl. lia.
    + apply spanned_reading in Hl as (_ & _ & _ & _ & Hb & _).
      apply spanned_reading in Ht as (_ & _ & _ & _ & Hb' & _).
      rewrite bodies_closed_app, responses_app, length_app. simpl. lia.
Qed.

(** X24. No input changes whom the handlers ask: every request the edge hands to
    its client is for the host service-b:8000, and every request the backend
    hands to its client is for viacep.com.br or for api.weatherapi.com. *)
Theorem requests_go_to_fixed_hosts (DefaultClient httpClient : Request -> result Response)
    (WEATHER_API_KEY : string) (seed seed' : positive) (r r' : Request) :
  let edge := (serve (ServiceA.postCepHandler DefaultClient) seed r).2 in
  let backend :=
    (serve (ServiceB.getWeatherHandler httpClient WEATHER_API_KEY) seed' r').2 in
  Forall (fun req => Host (URL_ req) = "service-b:8000") (requests edge)
  /\ Forall (fun req => Host (URL_ req) = "viacep.com.br"
                        \/ Host (URL_ req) = "api.weatherapi.com") (requests backend).
Proof.
  cbv zeta. split.
  - apply List.Forall_forall. intros sent Hsent.
    destruct (edge_sent DefaultClient seed r sent Hsent)
      as (c & req & _ & _ & Hreq%NewRequest_URL & -> & _).
    rewrite Inject_URL.
    now apply (url_Parse_http_host "service-b:8000" ("?cep=" ++ ServiceA.Cep_ c)).
  - assert (Hl : forall evs, Forall (fun req => Host (URL_ req) = "viacep.com.br") evs ->
              Forall (fun req => Host (URL_ req) = "viacep.com.br"
                                 \/ Host (URL_ req) = "api.weatherapi.com") evs)
      by (intros evs H; eapply Forall_impl; [exact H | auto]).
    assert (Ht : forall evs, Forall (fun req => Host (URL_ req) = "api.weatherapi.com") evs ->
              Forall (fun req => Host (URL_ req) = "viacep.com.br"
                                 \/ Host (URL_ req) = "api.weatherapi.com") evs)
      by (intros evs H; eapply Forall_impl; [exact H | auto]).
    unfold serve, ServiceB.getWeatherHandler. run.
    destruct (negb (len _ =? 8)%Z); run; [constructor |].
    call_getLocation res evs Hop Hcl Hst Hreqs Hres. run.
    destruct res as [loc | e]; run.
    2:{ read_trace. rewrite app_nil_r. now apply Hl. }
    call_getTemperature res' evs' Hop' Hcl' Hst' Hreqs' Hres'. run.
    assert (Hall : forall tail : list event, requests tail = [] ->
              Forall (fun req => Host (URL_ req) = "viacep.com.br"
                                 \/ Host (URL_ req) = "api.weatherapi.com")
                (requests ((SpanStart "getWeatherHandler"
                              (new_span (SpanContextFromContext
                                           (Extract (Ctx r') (ReqHeader r'))) seed')
                              (SpanContextFromContext (Extract (Ctx r') (ReqHeader r')))
                            :: evs ++ evs') ++ tail)%list)).
    { intros tail Htail. read_trace. rewrite Htail, app_nil_r.
      apply Forall_app. split; [now apply Hl | now apply Ht]. }
    destruct res' as [c | e]; run; [destruct (_ && _); run |]; now apply Hall.
Qed.

(** X25. One trace across the two services. The edge opens one span, in the
    caller's trace when the request carries a span, and the request it sends
    carries that span; a backend that receives this [traceparent] header opens
    its handler's span as a child of the edge's span, and all its spans in the
    edge's trace. (The identifiers are taken to fit the header.) *)
Theorem trace_crosses_services (DefaultClient httpClient : Request -> result Response)
    (WEATHER_API_KEY : string) (seed seed' : positive) (r r' sent : Request) :
  let edge := (serve (ServiceA.postCepHandler DefaultClient) seed r).2 in
  let backend :=
    (serve (ServiceB.getWeatherHandler httpClient WEATHER_API_KEY) seed' r').2 in
  In sent (requests edge) ->
  Forall fits_header (opened edge) ->
  Header_Get (ReqHeader r') "traceparent" = Header_Get (ReqHeader sent) "traceparent" ->
  exists span,
    opened edge = [span]
    /\ carries sent span
    /\ (forall sc, IsValid sc = true -> fits_header sc -> carries r sc ->
                   parents edge = [(span, remote sc)] /\ TraceID span = TraceID sc)
    /\ (exists h rest, parents backend = (h, remote span) :: rest)
    /\ Forall (fun s => TraceID s = TraceID span) (opened backend).
Proof.
  intros edge backend Hsent Hfits Hhdr. subst edge backend.
  pose proof (edge_events DefaultClient seed r) as Hsp. cbv zeta in Hsp.
  pose proof (spanned_reading _ _ _ _ _ Hsp) as (Hp & Ho & _ & _ & _ & Hcar).
  set (parent := SpanContextFromContext (Extract (Ctx r) (ReqHeader r))) in *.
  pose proof (new_span_IsValid parent seed) as Hvalid.
  set (span := new_span parent seed) in *.
  rewrite Ho in Hfits. apply Forall_inv in Hfits.
  assert (Hsent' : carries sent span).
  { exact (proj1 (List.Forall_forall _ _) Hcar sent Hsent). }
  exists span. split; [exact Ho |]. split; [exact Hsent' |]. split.
  - intros sc Hsc Hfit Hr. subst span parent.
    rewrite (Extract_carried (Ctx r) (ReqHeader r) sc Hsc Hfit Hr) in *.
    split; [exact Hp |]. now apply (new_span_TraceID (remote sc)).
  - assert (Hr' : carries r' span) by (unfold carries in *; congruence).
    destruct (backend_joins httpClient WEATHER_API_KEY seed' r' span Hvalid Hfits Hr')
      as (Hh & Hall & _).
    split; assumption.
Qed.

Lemma trace_crosses_services_witness :
  let edge := (serve (ServiceA.postCepHandler (fun _ => Ok backend_report)) 1
                 (Inject {| SpanContextFromContext := caller_span |}
                    (post_request (cep_body "01001000")))).2 in
  exists sent,
    requests edge = [sent]
    /\ let backend := (serve (ServiceB.getWeatherHandler
                                (providers (Ok geo_sao_paulo) (Ok weather_28_5)) "key")
                         7 (arriving sent)).2 in
       exists span,
         opened edge = [span]
         /\ carries sent span
         /\ (forall sc, IsValid sc = true -> fits_header sc ->
                        carries (Inject {| SpanContextFromContext := caller_span |}
                                   (post_request (cep_body "01001000"))) sc ->
                        parents edge = [(span, remote sc)] /\ TraceID span = TraceID sc)
         /\ (exists h rest, parents backend = (h, remote span) :: rest)
         /\ Forall (fun s => TraceID s = TraceID span) (opened backend).
Proof.
  intros edge.
  destruct (edge_forwards_alphanumeric_code (fun _ => Ok backend_report) 1
              (Inject {| SpanContextFromContext := caller_span |}
                 (post_request (cep_body "01001000")))
              {| ServiceA.Cep_ := "01001000" |} eq_refl eq_refl eq_refl)
    as (sent & span & Hone & Hop & _).
  fold edge in Hone, Hop. exists sent. split; [exact Hone |].
  apply (trace_crosses_services (fun _ => Ok backend_report)
           (providers (Ok geo_sao_paulo) (Ok weather_28_5)) "key" 1 7
           (Inject {| SpanContextFromContext := caller_span |}
              (post_request (cep_body "01001000")))
           (arriving sent) sent).
  - fold edge. rewrite Hone. now left.
  - fold edge. (let v := eval vm_compute in (opened edge) in change (opened edge) with v;
    repeat constructor).
  - reflexivity.
Defined.

(** X26. Tracing is transparent to the answers: with transports that answer by
    URL alone, the edge's reply depends on the request's body only and the
    backend's reply on the request's URL only; neither depends on the
    [traceparent] header, on the context or on the identifiers generated. *)
Theorem tracing_is_transparent (DefaultClient httpClient : Request -> result Response)
    (WEATHER_API_KEY : string) (seed seed' : positive) (r1 r1' r2 r2' : Request) :
  (forall req req', URL_ req = URL_ req' -> DefaultClient req = DefaultClient req') ->
  (forall req req', URL_ req = URL_ req' -> httpClient req = httpClient req') ->
  ReqBody r1 = ReqBody r1' -> URL_ r2 = URL_ r2' ->
  (serve (ServiceA.postCepHandler DefaultClient) seed r1).1
  = (serve (ServiceA.postCepHandler DefaultClient) seed' r1').1
  /\ (serve (ServiceB.getWeatherHandler httpClient WEATHER_API_KEY) seed r2).1
     = (serve (ServiceB.getWeatherHandler httpClient WEATHER_API_KEY) seed' r2').1.
Proof.
  intros Hedge Hbackend Hbody Hurl. split.
  - now apply edge_reply_by_body.
  - now apply backend_reply_by_URL.
Qed.

Lemma tracing_is_transparent_witness :
  (serve (ServiceA.postCepHandler (fun _ => Ok backend_report)) 1
     (post_request (cep_body "01001000"))).1
  = (serve (ServiceA.postCepHandler (fun _ => Ok backend_report)) 7
       (Inject {| SpanContextFromContext := caller_span |}
          (post_request (cep_body "01001000")))).1
  /\ (serve (ServiceB.getWeatherHandler (fun _ => Ok geo_sao_paulo) "key") 1
        (get_request "cep=01001000")).1
     = (serve (ServiceB.getWeatherHandler (fun _ => Ok geo_sao_paulo) "key") 7
          (Inject {| SpanContextFromContext := caller_span |}
             (get_request "cep=01001000"))).1.
Proof.
  apply (tracing_is_transparent (fun _ => Ok backend_report) (fun _ => Ok geo_sao_paulo)
           "key" 1 7);
    reflexivity.
Defined.
